(** * openalgo: option Greeks service and Kotak market-data adapter

    A shallow embedding of [services/option_greeks_service.py] and
    [broker/kotak/api/data.py], followed by the properties of the two
    modules that the specification states.

    Conventions of the embedding.
    - Python [str] values are Rocq strings of ASCII characters; [upper],
      [strip] and the character classes of the regular expression are the
      ASCII ones.
    - Python [float] values are modelled by the rationals they denote
      ([Q]); rounding to binary64 and the non-finite floats are outside
      the model, and [float_of_str] reads the finite decimal numerals only.
      An integer that is too large for a float has none, as in Python.
    - A raised exception is a value [Raise e] of the [result] type, and a
      [try]/[except] block is [try_except].
    - Calls of the logger have no effect on any returned value and are
      left out, except where formatting the logged text can itself raise.
    - [datetime.now()], the HTTP client, the JSON decoder, the symbol
      database, the quote service and the [mibian] package are the
      environment: they are arguments of the functions that use them. *)

From Stdlib Require Import ZArith QArith Lia Ascii String DecimalString.
From stdpp Require Import gmap strings list.

Local Open Scope string_scope.
Local Open Scope list_scope.
Local Open Scope Z_scope.

(** ** Python values and builtins *)

Module Py.

(** *** Exceptions *)

Inductive exn_class :=
| ValueError | KeyError | TypeError | AttributeError | OverflowError
| HTTPError | OtherException.

Record exn := Exn { exn_cls : exn_class; exn_msg : string }.

(** [str(e)] *)
Definition str_exn (e : exn) : string := exn_msg e.

Inductive result (A : Type) :=
| Ok (a : A)
| Raise (e : exn).
Arguments Ok {A} a.
Arguments Raise {A} e.

Definition bind {A B} (r : result A) (k : A -> result B) : result B :=
  match r with
  | Ok a => k a
  | Raise e => Raise e
  end.

Definition try_except {A} (body : result A) (handler : exn -> result A) : result A :=
  match body with
  | Ok a => Ok a
  | Raise e => handler e
  end.

Notation "x <- e ; k" := (bind e (fun x => k))
  (at level 20, e at level 100, k at level 200, only parsing).
Notation "' p <- e ; k" := (bind e (fun x => let p := x in k))
  (at level 20, p pattern, e at level 100, k at level 200, only parsing).

Definition of_option {A} (o : option A) (e : exn) : result A :=
  match o with
  | Some a => Ok a
  | None => Raise e
  end.

Definition is_Ok {A} (r : result A) : bool :=
  match r with Ok _ => true | Raise _ => false end.

(** *** Characters and strings *)

Definition ord (c : ascii) : Z := Z.of_N (Ascii.N_of_ascii c).
Definition chr (n : Z) : ascii := Ascii.ascii_of_N (Z.to_N n).

Definition is_digit (c : ascii) : bool := (48 <=? ord c) && (ord c <=? 57).
Definition is_AZ (c : ascii) : bool := (65 <=? ord c) && (ord c <=? 90).
Definition is_az (c : ascii) : bool := (97 <=? ord c) && (ord c <=? 122).
(** The blanks that [int(s)] and [float(s)] skip around a numeral: tab,
    line feed, vertical tab, form feed, carriage return and space. The
    separators 0x1c to 0x1f, which [str.strip] would remove too, are not
    among them. *)
Definition is_space (c : ascii) : bool :=
  ((9 <=? ord c) && (ord c <=? 13)) || (ord c =? 32).

Definition upper_char (c : ascii) : ascii :=
  if is_az c then chr (ord c - 32) else c.

(** [s.upper()] *)
Fixpoint upper (s : string) : string :=
  match s with
  | EmptyString => EmptyString
  | String c t => String (upper_char c) (upper t)
  end.

Fixpoint all_chars (p : ascii -> bool) (s : string) : bool :=
  match s with
  | EmptyString => true
  | String c t => p c && all_chars p t
  end.

Fixpoint lstrip (s : string) : string :=
  match s with
  | EmptyString => EmptyString
  | String c t => if is_space c then lstrip t else s
  end.

Fixpoint rstrip (s : string) : string :=
  match s with
  | EmptyString => EmptyString
  | String c t =>
      match rstrip t with
      | EmptyString => if is_space c then EmptyString else String c EmptyString
      | t' => String c t'
      end
  end.

(** The numeral inside the blanks around it *)
Definition strip (s : string) : string := rstrip (lstrip s).

(** [s.split(sep)] for a one-character separator *)
Fixpoint split (sep : ascii) (s : string) : list string :=
  match s with
  | EmptyString => [EmptyString]
  | String c t =>
      if Ascii.eqb c sep then EmptyString :: split sep t
      else match split sep t with
           | h :: r => String c h :: r
           | [] => [String c EmptyString]
           end
  end.

(** [needle in s] *)
Fixpoint contains (needle s : string) : bool :=
  String.prefix needle s ||
  match s with
  | EmptyString => false
  | String _ t => contains needle t
  end.

(** [repr(s)] of a string without quotes, backslashes or control characters *)
Definition repr_str (s : string) : string := "'" +:+ s +:+ "'".

(** [str(n)] of an integer *)
Definition str_Z (n : Z) : string := DecimalString.NilZero.string_of_int (Z.to_int n).

(** *** Numerals: [int(s)] and [float(s)] *)

Definition digit_val (c : ascii) : Z := ord c - 48.

(** A digit part is [digit (["_"] digit)*]; the digits are returned most
    significant first. *)
Fixpoint digitpart_from (after_digit : bool) (s : string) : option (list Z) :=
  match s with
  | EmptyString => if after_digit then Some [] else None
  | String c t =>
      if is_digit c then cons (digit_val c) <$> digitpart_from true t
      else if Ascii.eqb c "_" && after_digit then digitpart_from false t
      else None
  end.

Definition digitpart (s : string) : option (list Z) := digitpart_from false s.

Definition Z_of_digits (ds : list Z) : Z := fold_left (fun a d => 10 * a + d) ds 0.

Definition signed_digitpart (s : string) : option Z :=
  match s with
  | String "-" t => Z.opp <$> (Z_of_digits <$> digitpart t)
  | String "+" t => Z_of_digits <$> digitpart t
  | _ => Z_of_digits <$> digitpart s
  end.

(** The interpreter's limit on the digits of a numeral that [int(s)]
    converts, at its default value ([sys.get_int_max_str_digits()]). *)
Definition int_max_str_digits : nat := 4300.

Definition int_digitpart (s : string) : option Z :=
  ds ← digitpart s;
  if (int_max_str_digits <? length ds)%nat then None else Some (Z_of_digits ds).

(** [int(s)] in base 10: blanks, a sign, and digits that single
    underscores may separate, no more of them than the limit. *)
Definition int_of_str (s : string) : option Z :=
  match strip s with
  | String "-" t => Z.opp <$> int_digitpart t
  | String "+" t => int_digitpart t
  | s' => int_digitpart s'
  end.

(** The digits of a numeral that is well formed. *)
Definition numeral_digits (s : string) : option nat :=
  match strip s with
  | String "-" t => length <$> digitpart t
  | String "+" t => length <$> digitpart t
  | s' => length <$> digitpart s'
  end.

(** [break p s] cuts [s] at its first character satisfying [p], which is
    dropped. *)
Fixpoint break (p : ascii -> bool) (s : string) : string * option string :=
  match s with
  | EmptyString => (EmptyString, None)
  | String c t =>
      if p c then (EmptyString, Some t)
      else let '(a, b) := break p t in (String c a, b)
  end.

Definition opt_digitpart (s : string) : option (list Z) :=
  match s with
  | EmptyString => Some []
  | _ => digitpart s
  end.

Definition scale10 (m e : Z) : Q :=
  if 0 <=? e then inject_Z (m * 10 ^ e) else Qred (m # Z.to_pos (10 ^ (- e))).

Definition unsigned_float (s : string) : option Q :=
  let '(mant, ex) := break (fun c => Ascii.eqb c "e" || Ascii.eqb c "E") s in
  let '(ip, fp) := break (fun c => Ascii.eqb c ".") mant in
  ipd ← opt_digitpart ip;
  fpd ← opt_digitpart (default EmptyString fp);
  e ← match ex with
      | None => Some 0
      | Some es => signed_digitpart es
      end;
  match ipd ++ fpd with
  | [] => None
  | ds => Some (scale10 (Z_of_digits ds) (e - Z.of_nat (length fpd)))
  end.

Definition float_of_str (s : string) : option Q :=
  match strip s with
  | String "-" t => Qopp <$> unsigned_float t
  | String "+" t => unsigned_float t
  | s' => unsigned_float s'
  end.

(** [a / b] on floats *)
Definition truediv (a b : Q) : Q := Qred (a / b).

(** [round(x, ndigits)]: to the nearest multiple of [10^-ndigits], ties to
    the even one. *)
Definition round_half_even (q : Q) : Z :=
  let n := Qnum q in
  let d := Zpos (Qden q) in
  let f := n / d in
  let r2 := 2 * (n mod d) in
  if r2 <? d then f
  else if d <? r2 then f + 1
  else if Z.even f then f else f + 1.

Definition round (q : Q) (ndigits : Z) : Q :=
  Qred (round_half_even (q * inject_Z (10 ^ ndigits)) # Z.to_pos (10 ^ ndigits)).

(** *** Dynamically typed values *)

Local Set Warnings "-register-all".

Inductive pyval :=
| PNone
| PBool (b : bool)
| PInt (z : Z)
| PFloat (q : Q)
| PStr (s : string)
| PList (l : list pyval)
| PDict (d : list (string * pyval)).

Definition Z_of_bool (b : bool) : Z := if b then 1 else 0.

(** [bool(v)] *)
Definition truthy (v : pyval) : bool :=
  match v with
  | PNone => false
  | PBool b => b
  | PInt z => negb (z =? 0)
  | PFloat q => negb (Qeq_bool q 0)
  | PStr s => negb (String.eqb s EmptyString)
  | PList l => match l with [] => false | _ => true end
  | PDict d => match d with [] => false | _ => true end
  end.

Fixpoint dict_lookup (d : list (string * pyval)) (k : string) : option pyval :=
  match d with
  | [] => None
  | (k', v) :: r => if String.eqb k' k then Some v else dict_lookup r k
  end.

(** [type(v).__name__] *)
Definition type_name (v : pyval) : string :=
  match v with
  | PNone => "NoneType"
  | PBool _ => "bool"
  | PInt _ => "int"
  | PFloat _ => "float"
  | PStr _ => "str"
  | PList _ => "list"
  | PDict _ => "dict"
  end.

(** [v.get(k, dflt)]: only a dict has the method. *)
Definition get (v : pyval) (k : string) (dflt : pyval) : result pyval :=
  match v with
  | PDict d => Ok (default dflt (dict_lookup d k))
  | _ => Raise (Exn AttributeError ("'" +:+ type_name v +:+ "' object has no attribute 'get'"))
  end.

(** The conversion of an integer to a float: the integers that round to
    2^1024 or beyond have no float. *)
Definition float_of_int (z : Z) : result Q :=
  if Z.abs z <? 2 ^ 1024 - 2 ^ 970 then Ok (inject_Z z)
  else Raise (Exn OverflowError "int too large to convert to float").

(** [float(v)] *)
Definition float (v : pyval) : result Q :=
  match v with
  | PBool b => Ok (inject_Z (Z_of_bool b))
  | PInt z => float_of_int z
  | PFloat q => Ok q
  | PStr s =>
      of_option (float_of_str s)
        (Exn ValueError ("could not convert string to float: " +:+ repr_str s))
  | _ => Raise (Exn TypeError ("float() argument must be a string or a real number, not '"
                               +:+ type_name v +:+ "'"))
  end.

(** The text of the ValueError of [int(s)] *)
Definition int_error (s : string) : string :=
  match numeral_digits s with
  | Some n =>
      if (int_max_str_digits <? n)%nat then
        "Exceeds the limit (4300 digits) for integer string conversion: value has "
        +:+ str_Z (Z.of_nat n)
        +:+ " digits; use sys.set_int_max_str_digits() to increase the limit"
      else "invalid literal for int() with base 10: " +:+ repr_str s
  | None => "invalid literal for int() with base 10: " +:+ repr_str s
  end.

(** [int(v)]: a float is truncated towards zero. *)
Definition int (v : pyval) : result Z :=
  match v with
  | PBool b => Ok (Z_of_bool b)
  | PInt z => Ok z
  | PFloat q => Ok (Z.quot (Qnum q) (Zpos (Qden q)))
  | PStr s => of_option (int_of_str s) (Exn ValueError (int_error s))
  | _ => Raise (Exn TypeError ("int() argument must be a string, a bytes-like object or a "
                               +:+ "real number, not '" +:+ type_name v +:+ "'"))
  end.

(** The number a value denotes in an arithmetic comparison, if any. *)
Definition number (v : pyval) : option Q :=
  match v with
  | PBool b => Some (inject_Z (Z_of_bool b))
  | PInt z => Some (inject_Z z)
  | PFloat q => Some q
  | _ => None
  end.

(** The operand [v] of a comparison [op] with the integer 0: anything but
    a number raises. *)
Definition operand (op : string) (v : pyval) : result Q :=
  of_option (number v)
    (Exn TypeError ("'" +:+ op +:+ "' not supported between instances of '"
                    +:+ type_name v +:+ "' and 'int'"))%string.

(** The left operand [v] of [v / 100.0]: an integer is converted to a
    float first, which fails beyond the range of the floats; anything but
    a number raises. *)
Definition float_operand (v : pyval) : result Q :=
  match v with
  | PInt z => float_of_int z
  | _ =>
      of_option (number v)
        (Exn TypeError ("unsupported operand type(s) for /: '" +:+ type_name v
                        +:+ "' and 'float'"))%string
  end.

(** [round(v, ndigits)]: an integer is returned as it is. *)
Definition round_val (v : pyval) (ndigits : Z) : pyval :=
  match v with
  | PFloat q => PFloat (round q ndigits)
  | PBool b => PInt (Z_of_bool b)
  | _ => v
  end.

(** [str(v)] inside an f-string; [str_other] renders floats and
    containers. *)
Definition str (str_other : pyval -> string) (v : pyval) : string :=
  match v with
  | PNone => "None"
  | PBool b => if b then "True" else "False"
  | PInt z => str_Z z
  | PStr s => s
  | _ => str_other v
  end.

End Py.

(** ** The [datetime] module, as far as the service uses it *)

Module Datetime.
Import Py.

Record datetime := mk_datetime {
  year : Z; month : Z; day : Z;
  hour : Z; minute : Z; second : Z; microsecond : Z
}.

Definition is_leap (y : Z) : bool :=
  (y mod 4 =? 0) && (negb (y mod 100 =? 0) || (y mod 400 =? 0)).

Definition DAYS_IN_MONTH : list Z := [31; 28; 31; 30; 31; 30; 31; 31; 30; 31; 30; 31].

Definition days_in_month (y m : Z) : Z :=
  if (m =? 2) && is_leap y then 29
  else nth (Z.to_nat (m - 1)) DAYS_IN_MONTH 0.

Definition days_before_year (y : Z) : Z :=
  let y' := y - 1 in y' * 365 + y' / 4 - y' / 100 + y' / 400.

Definition days_before_month (y m : Z) : Z :=
  fold_right Z.add 0 (firstn (Z.to_nat (m - 1)) DAYS_IN_MONTH)
  + (if (2 <? m) && is_leap y then 1 else 0).

Definition ymd2ord (y m d : Z) : Z :=
  days_before_year y + days_before_month y m + d.

(** [datetime(year, month, day, hour, minute)] with the range checks of
    the constructor. *)
Definition new (y m d h mi : Z) : result datetime :=
  if negb ((1 <=? y) && (y <=? 9999)) then
    Raise (Exn ValueError ("year " +:+ str_Z y +:+ " is out of range"))
  else if negb ((1 <=? m) && (m <=? 12)) then
    Raise (Exn ValueError "month must be in 1..12")
  else if negb ((1 <=? d) && (d <=? days_in_month y m)) then
    Raise (Exn ValueError "day is out of range for month")
  else if negb ((0 <=? h) && (h <=? 23)) then
    Raise (Exn ValueError "hour must be in 0..23")
  else if negb ((0 <=? mi) && (mi <=? 59)) then
    Raise (Exn ValueError "minute must be in 0..59")
  else Ok (mk_datetime y m d h mi 0 0).

(** The values that a [datetime] object can hold. *)
Definition valid (t : datetime) : bool :=
  (1 <=? year t) && (year t <=? 9999) && (1 <=? month t) && (month t <=? 12)
  && (1 <=? day t) && (day t <=? days_in_month (year t) (month t))
  && (0 <=? hour t) && (hour t <=? 23) && (0 <=? minute t) && (minute t <=? 59)
  && (0 <=? second t) && (second t <=? 59)
  && (0 <=? microsecond t) && (microsecond t <=? 999999).

(** Comparison of two naive datetimes is the lexicographic comparison of
    their fields. *)
Definition fields (t : datetime) : list Z :=
  [year t; month t; day t; hour t; minute t; second t; microsecond t].

Fixpoint lex_lt (a b : list Z) : bool :=
  match a, b with
  | x :: a', y :: b' => (x <? y) || ((x =? y) && lex_lt a' b')
  | [], _ :: _ => true
  | _, [] => false
  end.

Definition lt (a b : datetime) : bool := lex_lt (fields a) (fields b).

(** A [timedelta] is held as its whole number of microseconds. *)
Definition timedelta := Z.

Definition toordinal (t : datetime) : Z := ymd2ord (year t) (month t) (day t).

(** [a - b] *)
Definition sub (a b : datetime) : timedelta :=
  let days := toordinal a - toordinal b in
  let secs := (second a + minute a * 60 + hour a * 3600)
              - (second b + minute b * 60 + hour b * 3600) in
  (days * 86400 + secs) * 1000000 + (microsecond a - microsecond b).

(** [td.total_seconds()] *)
Definition total_seconds (td : timedelta) : Q := Qred (td # 1000000).

Definition MONTH_ABBR : list string :=
  ["Jan"; "Feb"; "Mar"; "Apr"; "May"; "Jun"; "Jul"; "Aug"; "Sep"; "Oct"; "Nov"; "Dec"].

Definition pad2 (n : Z) : string :=
  if n <? 10 then "0" +:+ str_Z n else str_Z n.

(** [t.strftime("%d-%b-%Y")] in the C locale *)
Definition strftime_d_b_Y (t : datetime) : string :=
  pad2 (day t) +:+ "-" +:+ nth (Z.to_nat (month t - 1)) MONTH_ABBR "" +:+ "-" +:+ str_Z (year t).

End Datetime.

(** ** The [re] module: a backtracking matcher for the patterns in use

    A pattern is a function from the text still to be read to the result
    of the match; what follows the pattern is its continuation [k].
    A greedy repetition first tries to read one more character and falls
    back to the continuation when that fails, as the engine of [re] does. *)

Module Re.

Definition matcher (A : Type) := string -> option A.

(** one character of a class *)
Definition one {A} (cls : ascii -> bool) (k : ascii -> matcher A) : matcher A :=
  fun s =>
    match s with
    | String c t => if cls c then k c t else None
    | EmptyString => None
    end.

(** [cls{n}], the text read is handed to the continuation *)
Fixpoint count {A} (n : nat) (cls : ascii -> bool) (k : string -> matcher A) : matcher A :=
  match n with
  | O => k EmptyString
  | S n' => one cls (fun c => count n' cls (fun m => k (String c m)))
  end.

(** [cls+], greedy *)
Fixpoint plus {A} (cls : ascii -> bool) (k : string -> matcher A) (s : string) : option A :=
  match s with
  | String c t =>
      if cls c then
        match plus cls (fun m => k (String c m)) t with
        | Some r => Some r
        | None => k (String c EmptyString) t
        end
      else None
  | EmptyString => None
  end.

(** a literal word *)
Fixpoint lit {A} (w : string) (k : matcher A) : matcher A :=
  match w with
  | EmptyString => k
  | String c w' => one (Ascii.eqb c) (fun _ => lit w' k)
  end.

(** [a|b] *)
Definition alt {A} (a b : matcher A) : matcher A :=
  fun s => match a s with Some r => Some r | None => b s end.

End Re.

(** ** services/option_greeks_service.py *)

Module OptionGreeks.
Import Py.
Import Datetime.

(** *** Exchange-specific symbol mappings *)

Definition NSE_INDEX_SYMBOLS : gset string :=
  {[ "NIFTY"; "BANKNIFTY"; "FINNIFTY"; "MIDCPNIFTY";
     "NIFTYNXT50"; "NIFTYIT"; "NIFTYPHARMA"; "NIFTYBANK" ]}.

Definition BSE_INDEX_SYMBOLS : gset string :=
  {[ "SENSEX"; "BANKEX"; "SENSEX50" ]}.

Definition CURRENCY_SYMBOLS : gset string :=
  {[ "USDINR"; "EURINR"; "GBPINR"; "JPYINR" ]}.

Definition COMMODITY_SYMBOLS : gset string :=
  {[ "GOLD"; "GOLDM"; "GOLDPETAL"; "SILVER"; "SILVERM"; "SILVERMIC";
     "CRUDEOIL"; "CRUDEOILM"; "NATURALGAS"; "COPPER"; "ZINC"; "LEAD";
     "ALUMINIUM"; "NICKEL"; "COTTONCANDY"; "MENTHAOIL" ]}.

(** Default interest rates by exchange (annualized %) *)
Definition DEFAULT_INTEREST_RATES : gmap string Z :=
  list_to_map [("NFO", 0); ("BFO", 0); ("CDS", 0); ("MCX", 0)].

(** *** The [mibian] package *)

(** A [mibian.BS] model built from a volatility, with the attributes read
    by the service. *)
Record BS := {
  callDelta : Q; putDelta : Q;
  callTheta : Q; putTheta : Q;
  callRho : Q; putRho : Q;
  gamma : Q; vega : Q
}.

Inductive price_kw := callPrice | putPrice.

(** [BS_price args kw p] is [mibian.BS(args, callPrice=p).impliedVolatility]
    (or [putPrice=p]); [BS_volatility args v] is [mibian.BS(args, volatility=v)].
    Either constructor may raise. *)
Record Mibian := {
  BS_price : list Q -> price_kw -> Q -> result Q;
  BS_volatility : list Q -> Q -> result BS
}.

(** A response: [(success, response_dict, status_code)] *)
Definition response : Type := bool * pyval * pyval.

Definition error_dict (message : string) : pyval :=
  PDict [("status", PStr "error"); ("message", PStr message)].

(** [services.quotes_service.get_quotes]: the service reads live prices,
    so its answer also depends on the call; the first argument numbers the
    calls made by one request. *)
Definition quotes_fn : Type := nat -> string -> string -> pyval -> result response.

(** *** Symbol parsing *)

Definition is_digit_or_dot (c : ascii) : bool := is_digit c || Ascii.eqb c ".".

(** [re.match(r"([A-Z]+)(\d{2})([A-Z]{3})(\d{2})([\d.]+)(CE|PE)", s)] and
    the six groups of the match *)
Definition option_symbol_re : Re.matcher (string * string * string * string * string * string) :=
  Re.plus is_AZ (fun g1 =>
  Re.count 2 is_digit (fun g2 =>
  Re.count 3 is_AZ (fun g3 =>
  Re.count 2 is_digit (fun g4 =>
  Re.plus is_digit_or_dot (fun g5 =>
  Re.alt (Re.lit "CE" (fun _ => Some (g1, g2, g3, g4, g5, "CE")))
         (Re.lit "PE" (fun _ => Some (g1, g2, g3, g4, g5, "PE")))))))).

Definition month_map : gmap string Z :=
  list_to_map [("JAN", 1); ("FEB", 2); ("MAR", 3); ("APR", 4); ("MAY", 5); ("JUN", 6);
               ("JUL", 7); ("AUG", 8); ("SEP", 9); ("OCT", 10); ("NOV", 11); ("DEC", 12)].

(** The body of the [if custom_expiry_time:] branch, with its own
    [try]/[except]. *)
Definition custom_expiry (custom_expiry_time : string) : result (Z * Z) :=
  try_except
    (let time_parts := split ":" custom_expiry_time in
     if negb (length time_parts =? 2)%nat then
       Raise (Exn ValueError ("Invalid expiry_time format: " +:+ custom_expiry_time
                +:+ ". Use HH:MM format (e.g., '15:30', '19:00')"))
     else
       expiry_hour <- int (PStr (nth 0 time_parts "")) ;
       expiry_minute <- int (PStr (nth 1 time_parts "")) ;
       if negb ((0 <=? expiry_hour) && (expiry_hour <=? 23))
          || negb ((0 <=? expiry_minute) && (expiry_minute <=? 59)) then
         Raise (Exn ValueError ("Invalid expiry_time values: " +:+ custom_expiry_time
                  +:+ ". Hour must be 0-23, minute must be 0-59"))
       else Ok (expiry_hour, expiry_minute))
    (fun e => Raise (Exn ValueError ("Failed to parse expiry_time '" +:+ custom_expiry_time
                       +:+ "': " +:+ str_exn e))).

(** The [else] branch: default expiry time based on exchange. *)
Definition default_expiry (exchange : string) : Z * Z :=
  if String.eqb exchange "MCX" then (23, 30)
  else if String.eqb exchange "CDS" then (12, 30)
  else (15, 30).

(** A string or [None] that is true in an [if]. *)
Definition nonempty (o : option string) : option string :=
  match o with
  | Some s => if String.eqb s "" then None else Some s
  | None => None
  end.

(** [if custom_expiry_time: ... else: ...] *)
Definition expiry_hour_minute (exchange : string) (custom_expiry_time : option string)
  : result (Z * Z) :=
  match nonempty custom_expiry_time with
  | Some t => custom_expiry t
  | None => Ok (default_expiry exchange)
  end.

Definition parse_option_symbol (symbol exchange : string) (custom_expiry_time : option string)
  : result (string * datetime * Q * string) :=
  try_except
    (m <- of_option (option_symbol_re (upper symbol))
            (Exn ValueError ("Invalid option symbol format: " +:+ symbol)) ;
     let '(base_symbol, day, month_str, year, strike_str, opt_type) := m in
     '(expiry_hour, expiry_minute) <- expiry_hour_minute exchange custom_expiry_time ;
     y <- int (PStr ("20" +:+ year)) ;
     mo <- of_option (month_map !! month_str) (Exn KeyError (repr_str month_str)) ;
     d <- int (PStr day) ;
     expiry <- Datetime.new y mo d expiry_hour expiry_minute ;
     strike <- float (PStr strike_str) ;
     Ok (base_symbol, expiry, strike, upper opt_type))
    (fun e => Raise (Exn ValueError ("Failed to parse option symbol " +:+ symbol
                       +:+ ": " +:+ str_exn e))).

(** *** Exchange of the underlying *)

Definition get_underlying_exchange (base_symbol options_exchange : string) : string :=
  if bool_decide (base_symbol ∈ NSE_INDEX_SYMBOLS) then "NSE_INDEX"
  else if bool_decide (base_symbol ∈ BSE_INDEX_SYMBOLS) then "BSE_INDEX"
  else if bool_decide (base_symbol ∈ CURRENCY_SYMBOLS) || String.eqb options_exchange "CDS" then "CDS"
  else if bool_decide (base_symbol ∈ COMMODITY_SYMBOLS) || String.eqb options_exchange "MCX" then "MCX"
  else "NSE".

(** *** Time to expiry *)

Definition Qlt_bool (a b : Q) : bool := negb (Qle_bool b a).

(** [current_time] is the value of [datetime.now()] read by the call. *)
Definition calculate_time_to_expiry (expiry current_time : datetime) : Q :=
  if Datetime.lt expiry current_time then 0%Q
  else
    let time_delta := Datetime.sub expiry current_time in
    let days_to_expiry := truediv (total_seconds time_delta) (inject_Z (60 * 60 * 24)) in
    if Qlt_bool days_to_expiry 0.01 then 0.01%Q else days_to_expiry.

(** *** The Greeks calculation and its orchestration *)

Section Service.

(** The [mibian] module when its import succeeded. *)
Context (mibian : option Mibian).
(** [from services.quotes_service import get_quotes] *)
Context (import_get_quotes : result quotes_fn).
Context (str_other : pyval -> string).

Definition MIBIAN_AVAILABLE : bool :=
  match mibian with Some _ => true | None => false end.

Definition check_mibian_availability : response :=
  if negb MIBIAN_AVAILABLE then
    (false,
     error_dict "Option Greeks calculation requires mibian library. Install with: pip install mibian",
     PInt 500)
  else (true, PNone, PNone).

Definition greeks_dict (delta gamma_ theta vega_ rho : Q) : pyval :=
  PDict [("delta", PFloat (round delta 4));
         ("gamma", PFloat (round gamma_ 6));
         ("theta", PFloat (round theta 4));
         ("vega", PFloat (round vega_ 4));
         ("rho", PFloat (round rho 6))].

(** The statements of [calculate_greeks] after the expiry check, for the
    time to expiry [time_to_expiry] computed before it. *)
Definition price_greeks (option_symbol exchange base_symbol : string) (expiry : datetime)
    (strike : Q) (opt_type : string) (time_to_expiry : Q)
    (spot_price option_price interest_rate : pyval) : result response :=
  let interest_rate :=
    match interest_rate with
    | PNone => PInt (default 0 (DEFAULT_INTEREST_RATES !! exchange))
    | v => v
    end in
  rate <- float_operand interest_rate ;
  let interest_rate_decimal := truediv rate 100 in
  (* spot_price <= 0 or option_price <= 0 *)
  spot <- operand "<=" spot_price ;
  if Qle_bool spot 0 then
    Ok (false, error_dict "Spot price and option price must be positive", PInt 400)
  else
  price <- operand "<=" option_price ;
  if Qle_bool price 0 then
    Ok (false, error_dict "Spot price and option price must be positive", PInt 400)
  else
  if Qle_bool strike 0 then
    Ok (false, error_dict "Strike price must be positive", PInt 400)
  else
  let args := [spot; strike; interest_rate_decimal; time_to_expiry] in
  match (m <- of_option mibian (Exn OtherException "name 'mibian' is not defined") ;
         if String.eqb opt_type "CE" then BS_price m args callPrice price
         else BS_price m args putPrice price) with
  | Raise e =>
      Ok (false, error_dict ("Failed to calculate Implied Volatility: " +:+ str_exn e), PInt 500)
  | Ok implied_volatility =>
      match (m <- of_option mibian (Exn OtherException "name 'mibian' is not defined") ;
             greek_model <- BS_volatility m args implied_volatility ;
             Ok (if String.eqb opt_type "CE"
                 then (callDelta greek_model, callTheta greek_model, callRho greek_model,
                       gamma greek_model, vega greek_model)
                 else (putDelta greek_model, putTheta greek_model, putRho greek_model,
                       gamma greek_model, vega greek_model))) with
      | Raise e =>
          Ok (false, error_dict ("Failed to calculate Greeks: " +:+ str_exn e), PInt 500)
      | Ok (delta, theta, rho, gamma_, vega_) =>
          Ok (true,
              PDict [("status", PStr "success");
                     ("symbol", PStr option_symbol);
                     ("exchange", PStr exchange);
                     ("underlying", PStr base_symbol);
                     ("strike", PFloat (round strike 2));
                     ("option_type", PStr opt_type);
                     ("expiry_date", PStr (strftime_d_b_Y expiry));
                     ("days_to_expiry", PFloat (round time_to_expiry 4));
                     ("spot_price", round_val spot_price 2);
                     ("option_price", round_val option_price 2);
                     ("interest_rate", round_val interest_rate 2);
                     ("implied_volatility", PFloat (round implied_volatility 2));
                     ("greeks", greeks_dict delta gamma_ theta vega_ rho)],
              PInt 200)
      end
  end.

(** The two [except] clauses of [calculate_greeks]. *)
Definition greeks_failure (e : exn) : response :=
  match exn_cls e with
  | ValueError => (false, error_dict (str_exn e), PInt 400)
  | _ => (false, error_dict ("Failed to calculate option Greeks: " +:+ str_exn e), PInt 500)
  end.

Definition calculate_greeks (current_time : datetime) (option_symbol exchange : string)
    (spot_price option_price interest_rate : pyval) (expiry_time : option string)
    (api_key : option string) : response :=
  match
    (let '(available, error_response, status_code) := check_mibian_availability in
     if negb available then Ok (false, error_response, status_code)
     else
       '(base_symbol, expiry, strike, opt_type) <-
          parse_option_symbol option_symbol exchange expiry_time ;
       let time_to_expiry := calculate_time_to_expiry expiry current_time in
       if Qle_bool time_to_expiry 0 then
         Ok (false,
             error_dict ("Option has expired on " +:+ strftime_d_b_Y expiry),
             PInt 400)
       else
         price_greeks option_symbol exchange base_symbol expiry strike opt_type
           time_to_expiry spot_price option_price interest_rate)
  with
  | Ok r => r
  | Raise e => greeks_failure e
  end.

(** The prices handed to [calculate_greeks] by the last statement of
    [get_option_greeks]. *)
Record greeks_call := { call_spot_price : pyval; call_option_price : pyval }.

(** [get_option_greeks] up to its last statement: an early [return], or
    the two prices fetched. *)
Definition fetch_prices (option_symbol exchange : string)
    (underlying_symbol underlying_exchange expiry_time : option string)
    (api_key : option string) : result (response + greeks_call) :=
  get_quotes <- import_get_quotes ;
  '(base_symbol, expiry, strike, opt_type) <-
     parse_option_symbol option_symbol exchange expiry_time ;
  let spot_symbol := default base_symbol (nonempty underlying_symbol) in
  let spot_exchange :=
    default (get_underlying_exchange base_symbol exchange) (nonempty underlying_exchange) in
  '(success, spot_response, status_code) <-
     get_quotes 0%nat spot_symbol spot_exchange (from_option PStr PNone api_key) ;
  if negb success then
    message <- get spot_response "message" (PStr "Unknown error") ;
    Ok (inl (false,
             error_dict ("Failed to fetch underlying price: " +:+ str str_other message),
             status_code))
  else
  data <- get spot_response "data" (PDict []) ;
  spot_price <- get data "ltp" PNone ;
  if negb (truthy spot_price) then
    Ok (inl (false, error_dict "Underlying LTP not available", PInt 404))
  else
  '(success, option_response, status_code) <-
     get_quotes 1%nat option_symbol exchange (from_option PStr PNone api_key) ;
  if negb success then
    message <- get option_response "message" (PStr "Unknown error") ;
    Ok (inl (false,
             error_dict ("Failed to fetch option price: " +:+ str str_other message),
             status_code))
  else
  data <- get option_response "data" (PDict []) ;
  option_price <- get data "ltp" PNone ;
  if negb (truthy option_price) then
    Ok (inl (false, error_dict "Option LTP not available", PInt 404))
  else
  Ok (inr {| call_spot_price := spot_price; call_option_price := option_price |}).

Definition get_option_greeks (current_time : datetime) (option_symbol exchange : string)
    (interest_rate : pyval)
    (underlying_symbol underlying_exchange expiry_time : option string)
    (api_key : option string) : response :=
  match fetch_prices option_symbol exchange underlying_symbol underlying_exchange
          expiry_time api_key with
  | Ok (inl early) => early
  | Ok (inr prices) =>
      calculate_greeks current_time option_symbol exchange
        (call_spot_price prices) (call_option_price prices)
        interest_rate expiry_time api_key
  | Raise e =>
      (false, error_dict ("Failed to get option Greeks: " +:+ str_exn e), PInt 500)
  end.

End Service.

End OptionGreeks.

(** ** broker/kotak/api/data.py *)

Module Kotak.
Import Py.

(** The attributes of a [BrokerData] object that the methods read. *)
Record BrokerData := {
  access_token : string;
  quotes_base_url : string
}.

(** The response of the HTTP client. *)
Record http_response := { status_code : Z; text : string }.

(** The quote record returned by [get_quotes]; the integer zeros of the
    default record and the floats of a parsed one are numbers alike. *)
Record quote := {
  bid : Q; ask : Q; open : Q; high : Q; low : Q; ltp : Q;
  prev_close : Q; volume : Q; oi : Z
}.

Record level := { price : Q; quantity : Z }.

Record depth := {
  bids : list level; asks : list level;
  totalbuyqty : Z; totalsellqty : Z
}.

Definition exchange_map : gmap string string :=
  list_to_map [("NSE", "nse_cm"); ("BSE", "bse_cm"); ("NFO", "nse_fo"); ("BFO", "bse_fo");
               ("CDS", "cde_fo"); ("MCX", "mcx_fo"); ("NSE_INDEX", "nse_cm");
               ("BSE_INDEX", "bse_cm")].

Definition _get_kotak_exchange (exchange : string) : option string :=
  exchange_map !! exchange.

Definition index_map : gmap string string :=
  list_to_map [("NIFTY", "Nifty 50"); ("NIFTY50", "Nifty 50"); ("BANKNIFTY", "Nifty Bank");
               ("SENSEX", "SENSEX"); ("BANKEX", "BANKEX"); ("FINNIFTY", "Nifty Fin Service");
               ("MIDCPNIFTY", "NIFTY MIDCAP 100")].

Definition _get_index_symbol (symbol : string) : string :=
  default symbol (index_map !! upper symbol).

Definition hex_digit (n : Z) : ascii :=
  if n <? 10 then chr (48 + n) else chr (55 + n).

(** [urllib.parse.quote(s, safe='|')] *)
Fixpoint quote_url (s : string) : string :=
  match s with
  | EmptyString => EmptyString
  | String c t =>
      if is_AZ c || is_az c || is_digit c
         || existsb (Ascii.eqb c) ["_"; "."; "-"; "~"; "|"]%char
      then String c (quote_url t)
      else String "%" (String (hex_digit (ord c / 16)) (String (hex_digit (ord c mod 16)) (quote_url t)))
  end.

Definition _get_default_quote : quote :=
  {| bid := 0; ask := 0; open := 0; high := 0; low := 0; ltp := 0;
     prev_close := 0; volume := 0; oi := 0 |}.

Definition zero_level : level := {| price := 0; quantity := 0 |}.

Definition _get_default_depth : depth :=
  {| bids := repeat zero_level 5; asks := repeat zero_level 5;
     totalbuyqty := 0; totalsellqty := 0 |}.

(** [response and isinstance(response, list) and len(response) > 0] *)
Definition nonempty_list (response : pyval) : bool :=
  truthy response &&
  match response with
  | PList l => (0 <? length l)%nat
  | _ => false
  end.

(** [response[0]] of a list *)
Definition item0 (response : pyval) : result pyval :=
  match response with
  | PList (x :: _) => Ok x
  | _ => Raise (Exn OtherException "list index out of range")
  end.

(** [str(o)] of an optional string inside an f-string *)
Definition str_option (o : option string) : string := default "None" o.

Definition falsy (o : option string) : bool :=
  match o with
  | Some s => String.eqb s ""
  | None => true
  end.

Fixpoint mapM {A B} (f : A -> result B) (l : list A) : result (list B) :=
  match l with
  | [] => Ok []
  | x :: r => y <- f x ; ys <- mapM f r ; Ok (y :: ys)
  end.

Definition sum_quantity (l : list level) : Z :=
  fold_right Z.add 0 (map quantity l).

(** [while len(levels) < 5: levels.append({'price': 0, 'quantity': 0})] *)
Definition pad5 (levels : list level) : list level :=
  levels ++ repeat zero_level (5 - length levels).

(** [s.split(":::")]: the text is cut at each separator found from the
    left, and the separators do not overlap. *)
Fixpoint split_colons (s : string) : list string :=
  match s with
  | EmptyString => [EmptyString]
  | String c t =>
      let keep :=
        match split_colons t with
        | h :: r => String c h :: r
        | [] => [String c EmptyString]
        end in
      match t with
      | String c2 (String c3 t3) =>
          if Ascii.eqb c ":" && Ascii.eqb c2 ":" && Ascii.eqb c3 ":"
          then EmptyString :: split_colons t3
          else keep
      | _ => keep
      end
  end.

(** The object after [__init__]: the three attributes that no method
    reads, and the two that the requests use. The empty [timeframe_map] is
    left out. *)
Record session := {
  session_token : string; session_sid : string; base_url : string;
  data : BrokerData
}.

(** [BrokerData.__init__]: the four fields of the token are unpacked, and
    the quotes server is fixed. *)
Definition BrokerData_init (auth_token : string) : result session :=
  match split_colons auth_token with
  | [a; b; c; d] =>
      Ok {| session_token := a; session_sid := b; base_url := c;
            data := {| access_token := d;
                       quotes_base_url := "https://cis.kotaksecurities.com" |} |}
  | parts =>
      Raise (Exn ValueError
               (if (length parts <? 4)%nat
                then "not enough values to unpack (expected 4, got "
                     +:+ str_Z (Z.of_nat (length parts)) +:+ ")"
                else "too many values to unpack (expected 4)"))
  end.

Section Adapter.

(** [get_httpx_client().get(url, headers=headers)] *)
Context (client_get : string -> list (string * string) -> result http_response).
Context (json_loads : string -> result pyval).
(** [database.token_db] *)
Context (get_token get_brexchange : string -> string -> result (option string)).

Definition _make_quotes_request (self : BrokerData) (query filter_name : string) : pyval :=
  match
    (let encoded_query := quote_url query in
     let endpoint := "/script-details/1.0/quotes/neosymbol/" +:+ encoded_query
                     +:+ "/" +:+ filter_name in
     let headers := [("Authorization", access_token self);
                     ("Content-Type", "application/json")] in
     let url := quotes_base_url self +:+ endpoint in
     response <- client_get url headers ;
     if status_code response =? 200 then json_loads (text response)
     else Ok PNone)
  with
  | Ok response_data => response_data
  | Raise _ => PNone
  end.

(** The query of both operations: [Ok None] where the method returns its
    default record because the database has no entry. *)
Definition build_query (symbol exchange : string) : result (option string) :=
  if contains "INDEX" (upper exchange) then
    let kotak_exchange := _get_kotak_exchange exchange in
    let neo_symbol := _get_index_symbol symbol in
    Ok (Some (str_option kotak_exchange +:+ "|" +:+ neo_symbol))
  else
    psymbol <- get_token symbol exchange ;
    brexchange <- get_brexchange symbol exchange ;
    if falsy psymbol || falsy brexchange then Ok None
    else Ok (Some (str_option brexchange +:+ "|" +:+ str_option psymbol)).

Definition field (d : pyval) (key : string) : result Q :=
  v <- get d key (PInt 0) ; float v.

Definition get_quotes (self : BrokerData) (symbol exchange : string) : quote :=
  match
    (query <- build_query symbol exchange ;
     match query with
     | None => Ok _get_default_quote
     | Some query =>
         let response := _make_quotes_request self query "all" in
         if nonempty_list response then
           quote_data <- item0 response ;
           (* the logged text reads quote_data.get('display_symbol') *)
           display_symbol <- get quote_data "display_symbol" PNone ;
           if nonempty_list response then
             quote_data <- item0 response ;
             ohlc_data <- get quote_data "ohlc" (PDict []) ;
             bid_ <- field quote_data "total_buy" ;
             ask_ <- field quote_data "total_sell" ;
             open_ <- field ohlc_data "open" ;
             high_ <- field ohlc_data "high" ;
             low_ <- field ohlc_data "low" ;
             ltp_ <- field quote_data "ltp" ;
             prev_close_ <- field ohlc_data "close" ;
             volume_ <- field quote_data "last_volume" ;
             oi_ <- (v <- get quote_data "open_int" (PInt 0) ; int v) ;
             Ok {| bid := bid_; ask := ask_; open := open_; high := high_; low := low_;
                   ltp := ltp_; prev_close := prev_close_; volume := volume_; oi := oi_ |}
           else if negb (match response with PNone => true | _ => false end) then
             Ok _get_default_quote
           else Ok _get_default_quote
         else Ok _get_default_quote
     end)
  with
  | Ok q => q
  | Raise _ => _get_default_quote
  end.

Definition level_of (entry : pyval) : result level :=
  p <- (v <- get entry "price" (PInt 0) ; float v) ;
  q <- (v <- get entry "quantity" (PInt 0) ; int v) ;
  Ok {| price := p; quantity := q |}.

(** The loop over [data[:5]], entered only when [data] is a list. *)
Definition levels_of (data : pyval) : result (list level) :=
  match data with
  | PList l => mapM level_of (firstn 5 l)
  | _ => Ok []
  end.

Definition get_depth (self : BrokerData) (symbol exchange : string) : depth :=
  match
    (query <- build_query symbol exchange ;
     match query with
     | None => Ok _get_default_depth
     | Some query =>
         let response := _make_quotes_request self query "depth" in
         if nonempty_list response then
           target_quote <- item0 response ;
           depth_data <- get target_quote "depth" (PDict []) ;
           buy_data <- get depth_data "buy" (PList []) ;
           bids_ <- levels_of buy_data ;
           sell_data <- get depth_data "sell" (PList []) ;
           asks_ <- levels_of sell_data ;
           let bids_ := pad5 bids_ in
           let asks_ := pad5 asks_ in
           Ok {| bids := bids_; asks := asks_;
                 totalbuyqty := sum_quantity bids_;
                 totalsellqty := sum_quantity asks_ |}
         else Ok _get_default_depth
     end)
  with
  | Ok d => d
  | Raise _ => _get_default_depth
  end.

End Adapter.

End Kotak.

(** ** Vocabulary of the statements *)

Import Py.
Import Datetime.
Import OptionGreeks.
Import Kotak.

(** *** Tickers *)

(** The longest prefix of [s] made of characters of a class, and the rest. *)
Fixpoint span (cls : ascii -> bool) (s : string) : string * string :=
  match s with
  | String c t =>
      if cls c then let '(m, r) := span cls t in (String c m, r) else (EmptyString, s)
  | EmptyString => (EmptyString, EmptyString)
  end.

Definition starts_with (cls : ascii -> bool) (s : string) : bool :=
  match s with
  | String c _ => cls c
  | EmptyString => false
  end.

(** [s] is letters, two digits, three letters, two digits, digits and
    dots, CE or PE, followed by [rest]. *)
Definition ticker_shape (s b d m y k t rest : string) : Prop :=
  s = b +:+ d +:+ m +:+ y +:+ k +:+ t +:+ rest /\
  b <> "" /\ all_chars is_AZ b = true /\
  String.length d = 2%nat /\ all_chars is_digit d = true /\
  String.length m = 3%nat /\ all_chars is_AZ m = true /\
  String.length y = 2%nat /\ all_chars is_digit y = true /\
  k <> "" /\ all_chars is_digit_or_dot k = true /\
  (t = "CE" \/ t = "PE").

Fixpoint digits_of (s : string) : list Z :=
  match s with
  | EmptyString => []
  | String c t => digit_val c :: digits_of t
  end.

(** The number written by a string of digits. *)
Definition num (s : string) : Z := Z_of_digits (digits_of s).

Fixpoint count_char (p : ascii -> bool) (s : string) : nat :=
  match s with
  | EmptyString => O
  | String c t => ((if p c then 1 else 0) + count_char p t)%nat
  end.

Definition is_dot (c : ascii) : bool := Ascii.eqb c ".".

Definition has_digit (s : string) : bool :=
  negb (all_chars (fun c => negb (is_digit c)) s).

(** The fields of a ticker name a month, a day of that month in the year
    20YY, and a strike with at most one point and at least one digit. *)
Definition fields_ok (d m y k : string) (mo : Z) : Prop :=
  month_map !! m = Some mo /\
  1 <= num d <= days_in_month (2000 + num y) mo /\
  (count_char is_dot k <= 1)%nat /\ has_digit k = true.

(** The pattern as the specification words it, read on the whole ticker:
    letters, a 2-digit day, a 3-letter month, a 2-digit year, a numeric
    strike with an optional decimal point, CE or PE. *)
Definition is_letter (c : ascii) : bool := is_AZ c || is_az c.

Definition end_of_text : Re.matcher unit :=
  fun s => if String.eqb s "" then Some tt else None.

Definition spec_side : Re.matcher unit :=
  Re.alt (Re.lit "CE" end_of_text) (Re.lit "PE" end_of_text).

Definition spec_pattern (s : string) : bool :=
  match
    Re.plus is_letter (fun _ =>
    Re.count 2 is_digit (fun _ =>
    Re.count 3 is_letter (fun _ =>
    Re.count 2 is_digit (fun _ =>
    Re.plus is_digit (fun _ =>
    Re.alt (Re.lit "." (Re.plus is_digit (fun _ => spec_side))) spec_side))))) s
  with
  | Some _ => true
  | None => false
  end.

(** *** Dates and times *)

Definition leap_day (y : Z) : Z := if is_leap y then 1 else 0.

(** The microseconds from the start of the calendar. *)
Definition total_us (t : datetime) : Z :=
  (toordinal t * 86400 + (second t + minute t * 60 + hour t * 3600)) * 1000000
  + microsecond t.

(** The date of [t] at another time of day. *)
Definition at_time (t : datetime) (h mi : Z) : datetime :=
  mk_datetime (year t) (month t) (day t) h mi 0 0.

(** *** Responses *)

Definition expired_response (expiry : datetime) : response :=
  (false, error_dict ("Option has expired on " +:+ strftime_d_b_Y expiry), PInt 400).

(** A quote response without a live traded price: no [data], or a [data]
    dict without [ltp]. *)
Definition lacks_ltp (resp : pyval) : Prop :=
  exists d, resp = PDict d /\
    (dict_lookup d "data" = None \/
     exists dd, dict_lookup d "data" = Some (PDict dd) /\ dict_lookup dd "ltp" = None).

(** [resp.get('data', {}).get('ltp')] *)
Definition ltp_of (resp : pyval) : result pyval :=
  data <- get resp "data" (PDict []) ; get data "ltp" PNone.

(** *** The adapter's collaborators and records *)

Definition http_client : Type := string -> list (string * string) -> result http_response.
Definition token_db : Type := string -> string -> result (option string).

(** Five levels on each side, and totals that are the sums of their
    quantities. *)
Definition depth_ok (d : depth) : Prop :=
  length (bids d) = 5%nat /\ length (asks d) = 5%nat /\
  totalbuyqty d = fold_right Z.add 0 (map quantity (bids d)) /\
  totalsellqty d = fold_right Z.add 0 (map quantity (asks d)).

(** The entry [entry] of a vendor list is read as the level [l]: the price
    is [float(entry.get('price', 0))] and the quantity is
    [int(entry.get('quantity', 0))]. *)
Definition level_reads (entry : pyval) (l : level) : Prop :=
  exists p q,
    get entry "price" (PInt 0) = Ok p /\ float p = Ok (price l) /\
    get entry "quantity" (PInt 0) = Ok q /\ int q = Ok (quantity l).

(** A vendor value that is not negative, read as a float or as an integer. *)
Definition nonneg (v : pyval) : Prop :=
  (forall x, float v = Ok x -> (0 <= x)%Q) /\ (forall z, int v = Ok z -> 0 <= z).

(** The values that [get_quotes] reads from a vendor record are not
    negative. *)
Definition payload_nonneg (quote_data : pyval) : Prop :=
  (forall key v,
     In key ["total_buy"; "total_sell"; "ltp"; "last_volume"; "open_int"] ->
     get quote_data key (PInt 0) = Ok v -> nonneg v) /\
  (forall ohlc key v,
     get quote_data "ohlc" (PDict []) = Ok ohlc ->
     In key ["open"; "high"; "low"; "close"] ->
     get ohlc key (PInt 0) = Ok v -> nonneg v).

Definition quote_nonneg (q : quote) : Prop :=
  (0 <= bid q)%Q /\ (0 <= ask q)%Q /\ (0 <= open q)%Q /\ (0 <= high q)%Q /\
  (0 <= low q)%Q /\ (0 <= ltp q)%Q /\ (0 <= prev_close q)%Q /\ (0 <= volume q)%Q /\
  0 <= oi q.

(** *** Sample environments for the worked examples *)

(** A pricing backend that answers every request with fixed numbers. *)
Definition sample_mibian : Mibian :=
  {| BS_price := fun _ _ _ => Ok 18.5%Q;
     BS_volatility := fun _ _ =>
       Ok {| callDelta := 0.52; putDelta := -0.48; callTheta := -9.1; putTheta := -8.7;
             callRho := 1.2; putRho := -1.1; gamma := 0.0004; vega := 12.3 |} |}.

Definition sample_str_other : pyval -> string := fun _ => "<value>".

Definition quote_payload (fields : list (string * pyval)) : response :=
  (true, PDict [("status", PStr "success"); ("data", PDict fields)], PInt 200).

(** A quote service whose answers carry no [ltp]. *)
Definition quotes_without_ltp : quotes_fn :=
  fun _ _ _ _ => Ok (quote_payload [("volume", PInt 0)]).

(** A quote service that prices the underlying but not the option. *)
Definition quotes_spot_only : quotes_fn :=
  fun n _ _ _ =>
    match n with
    | O => Ok (quote_payload [("ltp", PFloat 24150.5)])
    | _ => Ok (quote_payload [("volume", PInt 0)])
    end.

(** A quote service that reports success with [data] set to null. *)
Definition quotes_null_data : quotes_fn :=
  fun _ _ _ _ => Ok (true, PDict [("status", PStr "success"); ("data", PNone)], PInt 200).

(** A run of zeros, to write long numerals with. *)
Fixpoint zeros (n : nat) : string :=
  match n with
  | O => EmptyString
  | S n' => String "0" (zeros n')
  end.

Definition sample_broker : BrokerData :=
  {| access_token := "token"; quotes_base_url := "https://cis.kotaksecurities.com" |}.

Definition sample_db : token_db := fun _ _ => Ok (Some "11536").
Definition sample_brexchange : token_db := fun _ _ => Ok (Some "nse_cm").

Definition client_empty_array : http_client :=
  fun _ _ => Ok {| status_code := 200; text := "[]" |}.

Definition client_http_500 : http_client :=
  fun _ _ => Ok {| status_code := 500; text := "Internal Server Error" |}.

Definition client_body (body : string) : http_client :=
  fun _ _ => Ok {| status_code := 200; text := body |}.

(** A decoder for the bodies used in the examples: each body is named
    rather than spelled out, and the name stands for the JSON text of the
    value it is decoded to. *)
Definition sample_json_loads : string -> result pyval :=
  fun body =>
    if String.eqb body "[]" then Ok (PList [])
    else if String.eqb body "negative ltp" then
      Ok (PList [PDict [("display_symbol", PStr "NIFTY"); ("ltp", PInt (-5))]])
    else if String.eqb body "quote" then
      Ok (PList [PDict [("display_symbol", PStr "INFY-EQ"); ("ltp", PStr "1520.35");
                        ("total_buy", PInt 1200); ("total_sell", PInt 900);
                        ("last_volume", PInt 25); ("open_int", PStr "0");
                        ("ohlc", PDict [("open", PStr "1510.00"); ("high", PStr "1525.5");
                                        ("low", PStr "1502.1"); ("close", PStr "1508.9")])]])
    else if String.eqb body "three bids" then
      Ok (PList [PDict [("depth", PDict [
        ("buy", PList [PDict [("price", PStr "100.5"); ("quantity", PInt 10)];
                       PDict [("price", PStr "100.4"); ("quantity", PInt 20)];
                       PDict [("price", PStr "100.3"); ("quantity", PInt 30)]]);
        ("sell", PList [PDict [("price", PInt 101); ("quantity", PInt 1)];
                        PDict [("price", PInt 102); ("quantity", PInt 2)];
                        PDict [("price", PInt 103); ("quantity", PInt 3)];
                        PDict [("price", PInt 104); ("quantity", PInt 4)];
                        PDict [("price", PInt 105); ("quantity", PInt 5)];
                        PDict [("price", PInt 106); ("quantity", PInt 6)]])])]])
    else Raise (Exn ValueError "Expecting value").

(** ** Vocabulary of the further properties *)

Definition success_of (r : response) : bool := r.1.1.
Definition body_of (r : response) : pyval := r.1.2.
Definition status_of (r : response) : pyval := r.2.

(** The interest rate that [calculate_greeks] works with. *)
Definition effective_rate (exchange : string) (interest_rate : pyval) : pyval :=
  match interest_rate with
  | PNone => PInt (default 0 (DEFAULT_INTEREST_RATES !! exchange))
  | v => v
  end.


Definition invalid_price_response : response :=
  (false, error_dict "Spot price and option price must be positive", PInt 400).

(** A failure on the side of the server. *)
Definition server_error (r : response) : Prop :=
  success_of r = false /\ status_of r = PInt 500.

(** A client and a decoder that never deliver a record: the request
    raises, or the status is not 200, or the body does not decode, or it
    decodes to something else than a list with an element. *)
Definition unusable (client : http_client) (json_loads : string -> result pyval) : Prop :=
  forall url headers,
    match client url headers with
    | Raise _ => True
    | Ok r =>
        status_code r <> 200 \/
        match json_loads (text r) with
        | Raise _ => True
        | Ok v => nonempty_list v = false
        end
    end.

Definition is_list (v : pyval) : bool :=
  match v with
  | PList _ => true
  | _ => false
  end.

Fixpoint ends_with_colon (s : string) : bool :=
  match s with
  | EmptyString => false
  | String c t =>
      match t with
      | EmptyString => Ascii.eqb c ":"
      | String _ _ => ends_with_colon t
      end
  end.

(** A field of a token: it holds no ":::" and does not end with a colon,
    so that joining fields with ":::" makes no separator but the ones put
    in.  A URL such as https://host is a field. *)
Definition token_field (s : string) : bool :=
  negb (contains ":::" s) && negb (ends_with_colon s).

(** *** Further sample environments *)

Definition quotes_zero_ltp : quotes_fn :=
  fun _ _ _ _ => Ok (quote_payload [("ltp", PInt 0)]).

Definition quotes_refused : quotes_fn :=
  fun _ _ _ _ =>
    Ok (false, PDict [("status", PStr "error"); ("message", PStr "Invalid openalgo apikey")],
        PInt 403).

(** Two quote services that agree on the first two calls only. *)
Definition quotes_priced : quotes_fn :=
  fun n _ _ _ =>
    match n with
    | O => Ok (quote_payload [("ltp", PFloat 24150.5)])
    | _ => Ok (quote_payload [("ltp", PFloat 120)])
    end.

Definition quotes_priced_twice : quotes_fn :=
  fun n _ _ _ =>
    match n with
    | O => Ok (quote_payload [("ltp", PFloat 24150.5)])
    | S O => Ok (quote_payload [("ltp", PFloat 120)])
    | _ => Raise (Exn OtherException "no more quotes")
    end.

Definition client_down : http_client :=
  fun _ _ => Raise (Exn HTTPError "connection refused").

Definition db_without_entry : token_db := fun _ _ => Ok None.

Definition db_down : token_db := fun _ _ => Raise (Exn OtherException "database is locked").

(** A second decoder of named bodies. *)
Definition more_json_loads : string -> result pyval :=
  fun body =>
    if String.eqb body "record without fields" then
      Ok (PList [PDict [("display_symbol", PStr "INFY-EQ")]])
    else if String.eqb body "bids as an object" then
      Ok (PList [PDict [("depth", PDict [
        ("buy", PDict [("price", PStr "100.5"); ("quantity", PInt 10)]);
        ("sell", PList [PDict [("price", PInt 101); ("quantity", PInt 1)]])])]])
    else if String.eqb body "bid without a price" then
      Ok (PList [PDict [("depth", PDict [
        ("buy", PList [PDict [("price", PNone); ("quantity", PInt 10)]]);
        ("sell", PList [PDict [("price", PInt 101); ("quantity", PInt 1)]])])]])
    else Raise (Exn ValueError "Expecting value").

(** ** Facts about the builtins *)

Lemma bind_Ok {A B} (r : result A) (k : A -> result B) b :
  bind r k = Ok b <-> exists a, r = Ok a /\ k a = Ok b.
Proof.
  destruct r as [a|e]; simpl; split; eauto.
  - intros (a' & [= <-] & ?). done.
  - done.
  - intros (? & ? & _). done.
Qed.

Lemma try_reraise_Ok {A} (body : result A) (h : exn -> exn) a :
  try_except body (fun e => Raise (h e)) = Ok a <-> body = Ok a.
Proof. destruct body; simpl; split; congruence. Qed.

Lemma try_reraise_cases {A} (body : result A) (h : exn -> exn) :
  (exists a, try_except body (fun e => Raise (h e)) = Ok a) \/
  (exists e, try_except body (fun e => Raise (h e)) = Raise (h e)).
Proof. destruct body; simpl; eauto. Qed.

Lemma of_option_Ok {A} (o : option A) e a : of_option o e = Ok a <-> o = Some a.
Proof. destruct o; simpl; split; congruence. Qed.

(** ** The regular expression of the ticker *)

Lemma span_spec cls s m r :
  span cls s = (m, r) -> s = m +:+ r /\ all_chars cls m = true /\ starts_with cls r = false.
Proof.
  revert m r. induction s as [|c t IH]; simpl; intros m r H.
  - inversion H; subst. auto.
  - destruct (cls c) eqn:Hc.
    + destruct (span cls t) as [m' r'] eqn:Hs. inversion H; subst.
      destruct (IH _ _ eq_refl) as (-> & Hm & Hr). simpl. rewrite Hc. auto.
    + inversion H; subst. simpl. rewrite Hc. auto.
Qed.

Lemma span_app cls m r :
  all_chars cls m = true -> starts_with cls r = false -> span cls (m +:+ r) = (m, r).
Proof.
  induction m as [|c m IH]; simpl; intros Hm Hr.
  - destruct r as [|c r]; simpl in *; [done|]. by rewrite Hr.
  - apply andb_true_iff in Hm as [Hc Hm]. rewrite Hc, IH; auto.
Qed.

(** A greedy repetition whose continuation cannot start inside the class
    reads the longest run: backtracking never finds a second match. *)
Lemma plus_greedy {A} cls (k : string -> Re.matcher A) s :
  (forall m r, starts_with cls r = true -> k m r = None) ->
  Re.plus cls k s =
    match span cls s with
    | (EmptyString, _) => None
    | (m, r) => k m r
    end.
Proof.
  revert k. induction s as [|c t IH]; intros k Hk; simpl; [done|].
  destruct (cls c) eqn:Hc; [|done].
  rewrite IH by (intros; by apply Hk).
  destruct (span cls t) as [m r] eqn:Hs.
  destruct m as [|c' m'].
  - destruct (span_spec _ _ _ _ Hs) as (-> & _ & _). simpl. done.
  - destruct (k (String c (String c' m')) r) eqn:Hkk; [done|].
    destruct (span_spec _ _ _ _ Hs) as (-> & Hm & _). simpl in Hm.
    apply Hk. simpl. by apply andb_true_iff in Hm as [? _].
Qed.

Lemma count_spec {A} n cls (k : string -> Re.matcher A) s r :
  Re.count n cls k s = Some r <->
  exists m rest,
    s = m +:+ rest /\ String.length m = n /\ all_chars cls m = true /\ k m rest = Some r.
Proof.
  revert k s. induction n as [|n IH]; intros k s; simpl.
  - split.
    + intros H. exists EmptyString, s. auto.
    + intros (m & rest & -> & Hl & _ & Hk). destruct m; [done|discriminate].
  - unfold Re.one. destruct s as [|c t].
    + split; [done|]. intros (m & rest & Hs & Hl & _). destruct m; discriminate.
    + destruct (cls c) eqn:Hc.
      * rewrite IH. split.
        -- intros (m & rest & -> & Hl & Hm & Hk). exists (String c m), rest. simpl.
           rewrite Hc, Hl. auto.
        -- intros (m & rest & Hs & Hl & Hm & Hk). destruct m as [|c' m]; [discriminate|].
           simpl in *. inversion Hs; subst. apply andb_true_iff in Hm as [_ Hm].
           exists m, rest. auto.
      * split; [done|]. intros (m & rest & Hs & Hl & Hm & _).
        destruct m as [|c' m]; [discriminate|]. simpl in *. inversion Hs; subst.
        rewrite Hc in Hm. discriminate.
Qed.

Lemma lit_spec {A} w (k : Re.matcher A) s r :
  Re.lit w k s = Some r <-> exists rest, s = w +:+ rest /\ k rest = Some r.
Proof.
  revert s. induction w as [|c w IH]; intros s; simpl.
  - split; [eauto|]. by intros (rest & -> & ?).
  - unfold Re.one. destruct s as [|c' t].
    + split; [done|]. intros (? & ? & _). discriminate.
    + destruct (Ascii.eqb c c') eqn:Hc.
      * apply Ascii.eqb_eq in Hc as ->. rewrite IH. split.
        -- intros (rest & -> & ?). eauto.
        -- intros (rest & Hs & ?). inversion Hs; subst. eauto.
      * split; [done|]. intros (rest & Hs & _). inversion Hs; subst.
        rewrite Ascii.eqb_refl in Hc. discriminate.
Qed.

Lemma AZ_not_digit c : is_AZ c = true -> is_digit c = false.
Proof.
  unfold is_AZ, is_digit. intros H. apply andb_true_iff in H as [H1 H2].
  apply andb_false_iff. right. lia.
Qed.

Lemma digit_not_AZ c : is_digit c = true -> is_AZ c = false.
Proof.
  unfold is_AZ, is_digit. intros H. apply andb_true_iff in H as [H1 H2].
  apply andb_false_iff. left. lia.
Qed.

Lemma digit_or_dot_not c c' :
  is_digit_or_dot c' = false -> is_digit_or_dot c = true -> Ascii.eqb c' c = false.
Proof.
  intros H1 H2. destruct (Ascii.eqb_spec c' c) as [->|]; [congruence|done].
Qed.

Lemma starts_with_app cls m r :
  m <> "" -> starts_with cls (m +:+ r) = starts_with cls m.
Proof. destruct m; simpl; done. Qed.

Lemma starts_with_excl (cls cls' : ascii -> bool) m :
  (forall c, cls' c = true -> cls c = false) ->
  m <> "" -> all_chars cls' m = true -> starts_with cls m = false.
Proof.
  intros Hx. destruct m; simpl; [done|]. intros _ H.
  apply andb_true_iff in H as [? _]. auto.
Qed.

Lemma length_nonempty (m : string) n : String.length m = S n -> m <> "".
Proof. destruct m; simpl; [discriminate|done]. Qed.

Lemma side_cont_None {A} (r1 r2 : A) r :
  starts_with is_digit_or_dot r = true ->
  Re.alt (Re.lit "CE" (fun _ => Some r1)) (Re.lit "PE" (fun _ => Some r2)) r = None.
Proof.
  destruct r as [|c r]; [done|]. intros Hc. cbn [starts_with] in Hc.
  unfold Re.alt. cbn [Re.lit Re.one].
  rewrite (digit_or_dot_not c "C"), (digit_or_dot_not c "P"); auto.
Qed.

Lemma side_cont_spec {A} (f : string -> A) r x :
  Re.alt (Re.lit "CE" (fun _ => Some (f "CE"))) (Re.lit "PE" (fun _ => Some (f "PE"))) r
  = Some x <->
  exists t rest, r = t +:+ rest /\ (t = "CE" \/ t = "PE") /\ x = f t.
Proof.
  unfold Re.alt. split.
  - destruct (Re.lit "CE" _ r) eqn:H1.
    + intros [= <-]. apply lit_spec in H1 as (rest & -> & [= <-]). exists "CE", rest. auto.
    + intros H2. apply lit_spec in H2 as (rest & -> & [= <-]). exists "PE", rest. auto.
  - intros (t & rest & -> & [-> | ->] & ->); done.
Qed.

(** The match of the ticker pattern is the unique split of the text into
    the six groups. *)
Lemma option_symbol_re_spec s b d m y k t :
  option_symbol_re s = Some (b, d, m, y, k, t) <-> exists rest, ticker_shape s b d m y k t rest.
Proof.
  unfold option_symbol_re, ticker_shape.
  rewrite plus_greedy; cycle 1.
  { intros g r Hr. destruct r as [|c r]; [done|]. simpl in *. unfold Re.one.
    by rewrite (AZ_not_digit _ Hr). }
  split.
  - destruct (span is_AZ s) as [g1 r1] eqn:Hs1.
    apply span_spec in Hs1 as (-> & Hg1 & _).
    intros H. assert (Hb : g1 <> "") by (by destruct g1).
    assert (H' : Re.count 2 is_digit (fun g2 => Re.count 3 is_AZ (fun g3 =>
       Re.count 2 is_digit (fun g4 => Re.plus is_digit_or_dot (fun g5 =>
         Re.alt (Re.lit "CE" (fun _ => Some (g1, g2, g3, g4, g5, "CE")))
                (Re.lit "PE" (fun _ => Some (g1, g2, g3, g4, g5, "PE"))))))) r1
       = Some (b, d, m, y, k, t)) by (by destruct g1).
    clear H.
    apply count_spec in H' as (g2 & r2 & -> & Hl2 & Hg2 & H).
    apply count_spec in H as (g3 & r3 & -> & Hl3 & Hg3 & H).
    apply count_spec in H as (g4 & r4 & -> & Hl4 & Hg4 & H).
    rewrite plus_greedy in H by (intros; by apply side_cont_None).
    destruct (span is_digit_or_dot r4) as [g5 r5] eqn:Hs5.
    apply span_spec in Hs5 as (-> & Hg5 & _).
    assert (Hk : g5 <> "") by (by destruct g5).
    assert (H' : Re.alt (Re.lit "CE" (fun _ => Some (g1, g2, g3, g4, g5, "CE")))
                (Re.lit "PE" (fun _ => Some (g1, g2, g3, g4, g5, "PE"))) r5
             = Some (b, d, m, y, k, t)) by (by destruct g5).
    apply (side_cont_spec (fun x => (g1, g2, g3, g4, g5, x))) in H'
      as (g6 & rest & -> & Hside & [= -> -> -> -> -> ->]).
    exists rest. tauto.
  - intros (rest & -> & Hb & Hab & Hld & Had & Hlm & Ham & Hly & Hay & Hk & Hak & Hside).
    rewrite span_app; [|done|].
    2:{ rewrite starts_with_app by (by eapply length_nonempty).
        eapply starts_with_excl; [apply digit_not_AZ| by eapply length_nonempty |done]. }
    assert ((Re.count 2 is_digit (fun g2 => Re.count 3 is_AZ (fun g3 =>
       Re.count 2 is_digit (fun g4 => Re.plus is_digit_or_dot (fun g5 =>
         Re.alt (Re.lit "CE" (fun _ => Some (b, g2, g3, g4, g5, "CE")))
                (Re.lit "PE" (fun _ => Some (b, g2, g3, g4, g5, "PE"))))))))
       (d +:+ m +:+ y +:+ k +:+ t +:+ rest) = Some (b, d, m, y, k, t)) as H.
    { apply count_spec. exists d, (m +:+ y +:+ k +:+ t +:+ rest). repeat split; auto.
      apply count_spec. exists m, (y +:+ k +:+ t +:+ rest). repeat split; auto.
      apply count_spec. exists y, (k +:+ t +:+ rest). repeat split; auto.
      rewrite plus_greedy by (intros; by apply side_cont_None).
      rewrite span_app; [|done|].
      2:{ destruct Hside as [-> | ->]; done. }
      assert (Re.alt (Re.lit "CE" (fun _ => Some (b, d, m, y, k, "CE")))
                     (Re.lit "PE" (fun _ => Some (b, d, m, y, k, "PE"))) (t +:+ rest)
              = Some (b, d, m, y, k, t)) as H.
      { apply (side_cont_spec (fun x => (b, d, m, y, k, x))). exists t, rest. auto. }
      by destruct k. }
    by destruct b.
Qed.

(** ** Numerals *)

Lemma all_chars_impl (p q : ascii -> bool) s :
  (forall c, p c = true -> q c = true) -> all_chars p s = true -> all_chars q s = true.
Proof.
  intros Hpq. induction s as [|c t IH]; simpl; [done|].
  intros H. apply andb_true_iff in H as [H1 H2]. rewrite (Hpq _ H1), IH; auto.
Qed.

Lemma all_chars_app p a b :
  all_chars p (a +:+ b) = all_chars p a && all_chars p b.
Proof. induction a as [|c a IH]; simpl; [done|]. by rewrite IH, andb_assoc. Qed.

Lemma digit_or_dot_not_space c : is_digit_or_dot c = true -> is_space c = false.
Proof.
  unfold is_digit_or_dot, is_digit, is_space. intros H.
  apply orb_true_iff in H as [H|H].
  - apply andb_true_iff in H as [H1 H2].
    apply orb_false_iff; split; [apply andb_false_iff|]; lia.
  - apply Ascii.eqb_eq in H as ->. done.
Qed.

Lemma lstrip_id s : starts_with is_space s = false -> lstrip s = s.
Proof. destruct s; simpl; [done|]. by intros ->. Qed.

Lemma rstrip_id s : all_chars (fun c => negb (is_space c)) s = true -> rstrip s = s.
Proof.
  induction s as [|c t IH]; simpl; [done|].
  intros H. apply andb_true_iff in H as [H1 H2]. rewrite IH by done.
  apply negb_true_iff in H1. rewrite H1. by destruct t.
Qed.

Lemma strip_id s : all_chars (fun c => negb (is_space c)) s = true -> strip s = s.
Proof.
  intros H. unfold strip. rewrite lstrip_id, rstrip_id; auto.
  destruct s; simpl in *; [done|]. apply andb_true_iff in H as [H _]. by apply negb_true_iff.
Qed.

Lemma strip_digits_dots s : all_chars is_digit_or_dot s = true -> strip s = s.
Proof.
  intros H. apply strip_id. revert H. apply all_chars_impl.
  intros c Hc. by rewrite (digit_or_dot_not_space _ Hc).
Qed.

Lemma digit_is_digit_or_dot c : is_digit c = true -> is_digit_or_dot c = true.
Proof. unfold is_digit_or_dot. by intros ->. Qed.

Lemma strip_digits s : all_chars is_digit s = true -> strip s = s.
Proof.
  intros H. apply strip_digits_dots. revert H. apply all_chars_impl, digit_is_digit_or_dot.
Qed.

Lemma digitpart_from_digits b s :
  all_chars is_digit s = true -> s <> "" \/ b = true ->
  digitpart_from b s = Some (digits_of s).
Proof.
  revert b. induction s as [|c t IH]; simpl; intros b Hs Hb.
  - destruct Hb as [?| ->]; done.
  - apply andb_true_iff in Hs as [Hc Ht]. rewrite Hc, IH; auto.
Qed.

Lemma digitpart_from_inv b s ds :
  all_chars is_digit_or_dot s = true -> digitpart_from b s = Some ds ->
  all_chars is_digit s = true.
Proof.
  revert b ds. induction s as [|c t IH]; simpl; intros b ds Hs H; [done|].
  apply andb_true_iff in Hs as [Hc Ht].
  destruct (is_digit c) eqn:Hd.
  - destruct (digitpart_from true t) eqn:E; [|done]. eauto.
  - unfold is_digit_or_dot in Hc. rewrite Hd in Hc. simpl in Hc.
    apply Ascii.eqb_eq in Hc as ->. done.
Qed.

Lemma opt_digitpart_digits s :
  all_chars is_digit s = true -> opt_digitpart s = Some (digits_of s).
Proof.
  destruct s as [|c t]; [done|]. intros H. unfold opt_digitpart, digitpart.
  apply digitpart_from_digits; auto.
Qed.

Lemma opt_digitpart_inv s ds :
  all_chars is_digit_or_dot s = true -> opt_digitpart s = Some ds ->
  all_chars is_digit s = true.
Proof.
  destruct s as [|c t]; [done|]. unfold opt_digitpart, digitpart. apply digitpart_from_inv.
Qed.

Lemma digit_not_sign c t :
  is_digit_or_dot c = true ->
  signed_digitpart (String c t) = Z_of_digits <$> digitpart (String c t).
Proof.
  intros H. unfold signed_digitpart.
  destruct (Ascii.eqb_spec c "-") as [->|]; [done|].
  destruct (Ascii.eqb_spec c "+") as [->|]; [done|].
  destruct c as [[] [] [] [] [] [] [] []]; done.
Qed.

Lemma digit_not_int_sign c t :
  is_digit_or_dot c = true ->
  match String c t with
  | String "-" t' => Z.opp <$> int_digitpart t'
  | String "+" t' => int_digitpart t'
  | s' => int_digitpart s'
  end = int_digitpart (String c t).
Proof.
  intros H.
  destruct (Ascii.eqb_spec c "-") as [->|]; [done|].
  destruct (Ascii.eqb_spec c "+") as [->|]; [done|].
  destruct c as [[] [] [] [] [] [] [] []]; done.
Qed.

Lemma digits_of_length s : length (digits_of s) = String.length s.
Proof. induction s as [|c t IH]; simpl; [done|]. by rewrite IH. Qed.

Lemma int_of_str_digits s :
  s <> "" -> all_chars is_digit s = true -> (String.length s <= int_max_str_digits)%nat ->
  int_of_str s = Some (num s).
Proof.
  intros Hne Hs Hl. unfold int_of_str, num. rewrite strip_digits by done.
  destruct s as [|c t]; [done|].
  rewrite digit_not_int_sign.
  2:{ simpl in Hs. apply andb_true_iff in Hs as [Hc _]. by apply digit_is_digit_or_dot. }
  unfold int_digitpart, digitpart. rewrite digitpart_from_digits by auto.
  cbn [mbind option_bind]. rewrite digits_of_length.
  by apply Nat.ltb_ge in Hl as ->.
Qed.

Lemma digit_val_range c : is_digit c = true -> 0 <= digit_val c <= 9.
Proof. unfold is_digit, digit_val. intros H. apply andb_true_iff in H as [? ?]. lia. Qed.

Lemma two_digits_range s :
  String.length s = 2%nat -> all_chars is_digit s = true -> 0 <= num s <= 99.
Proof.
  destruct s as [|a [|b [|? ?]]]; try discriminate. intros _ H. simpl in H.
  apply andb_true_iff in H as [Ha H]. apply andb_true_iff in H as [Hb _].
  apply digit_val_range in Ha, Hb. unfold num, Z_of_digits. simpl. lia.
Qed.

Lemma year_20 s :
  String.length s = 2%nat -> all_chars is_digit s = true ->
  int_of_str ("20" +:+ s) = Some (2000 + num s).
Proof.
  intros Hl Hs. rewrite int_of_str_digits; [|done|by simpl|].
  2:{ change (String.length ("20" +:+ s)) with (S (S (String.length s))).
      rewrite Hl. unfold int_max_str_digits. lia. }
  destruct s as [|a [|b [|? ?]]]; try discriminate. unfold num, Z_of_digits. simpl.
  f_equal. change (digit_val "2") with 2. change (digit_val "0") with 0. lia.
Qed.

(** *** [float()] on the text of a strike *)

Lemma break_none p s : all_chars (fun c => negb (p c)) s = true -> break p s = (s, None).
Proof.
  induction s as [|c t IH]; simpl; [done|]. intros H.
  apply andb_true_iff in H as [H1 H2]. apply negb_true_iff in H1. by rewrite H1, IH.
Qed.

Lemma break_dot s :
  all_chars is_digit_or_dot s = true ->
  (all_chars is_digit s = true /\ break is_dot s = (s, None) /\ count_char is_dot s = O) \/
  (exists ip fp, s = ip +:+ "." +:+ fp /\ all_chars is_digit ip = true /\
     all_chars is_digit_or_dot fp = true /\ break is_dot s = (ip, Some fp) /\
     count_char is_dot s = S (count_char is_dot fp)).
Proof.
  induction s as [|c t IH]; simpl; [auto|]. intros H.
  apply andb_true_iff in H as [Hc Ht].
  destruct (is_dot c) eqn:Hd.
  - right. exists "", t. apply Ascii.eqb_eq in Hd as ->. auto.
  - assert (is_digit c = true) as Hdig.
    { unfold is_digit_or_dot in Hc. unfold is_dot in Hd. rewrite Hd in Hc.
      by rewrite orb_false_r in Hc. }
    destruct (IH Ht) as [(H1 & H2 & H3) | (ip & fp & -> & H1 & H2 & H3 & H4)].
    + left. rewrite Hdig, H1, H2, H3. auto.
    + right. exists (String c ip), fp. simpl. rewrite Hdig, H1, H3, H4. auto.
Qed.

Lemma digits_no_dot s : all_chars is_digit s = true -> count_char is_dot s = O.
Proof.
  induction s as [|c t IH]; simpl; [done|]. intros H.
  apply andb_true_iff in H as [Hc Ht]. rewrite IH by done.
  destruct (is_dot c) eqn:Hd; [|done]. apply Ascii.eqb_eq in Hd as ->. done.
Qed.

Lemma no_dot_digits s :
  all_chars is_digit_or_dot s = true -> count_char is_dot s = O -> all_chars is_digit s = true.
Proof.
  induction s as [|c t IH]; simpl; [done|]. intros H Hn.
  apply andb_true_iff in H as [Hc Ht].
  destruct (is_dot c) eqn:Hd; [done|]. simpl in Hn.
  unfold is_digit_or_dot in Hc. unfold is_dot in Hd. rewrite Hd, orb_false_r in Hc.
  rewrite Hc, IH; auto.
Qed.

Lemma no_exponent s :
  all_chars is_digit_or_dot s = true ->
  break (fun c => Ascii.eqb c "e" || Ascii.eqb c "E") s = (s, None).
Proof.
  intros H. apply break_none. revert H. apply all_chars_impl. intros c Hc.
  apply negb_true_iff, orb_false_iff.
  split; [destruct (Ascii.eqb_spec c "e") as [->|] | destruct (Ascii.eqb_spec c "E") as [->|]];
    done.
Qed.

Lemma digits_of_nil s : digits_of s = [] <-> s = "".
Proof. destruct s; simpl; split; done. Qed.

Lemma has_digit_digits s : all_chars is_digit s = true -> has_digit s = negb (String.eqb s "").
Proof.
  destruct s as [|c t]; simpl; [done|]. intros H. apply andb_true_iff in H as [Hc _].
  unfold has_digit. simpl. by rewrite Hc.
Qed.

Lemma has_digit_app a b : has_digit (a +:+ b) = has_digit a || has_digit b.
Proof. unfold has_digit. rewrite all_chars_app. by rewrite negb_andb. Qed.

(** A text of digits and dots is a float numeral exactly when it has at
    most one dot and at least one digit. *)
Lemma unsigned_float_strike s :
  all_chars is_digit_or_dot s = true ->
  is_Some (unsigned_float s) <-> (count_char is_dot s <= 1)%nat /\ has_digit s = true.
Proof.
  intros Hs. unfold unsigned_float. rewrite no_exponent by done.
  destruct (break_dot s Hs) as [(H1 & H2 & H3) | (ip & fp & -> & H1 & H2 & H3 & H4)].
  - change (fun c => Ascii.eqb c ".") with is_dot. rewrite H2, H3. simpl.
    rewrite opt_digitpart_digits by done. simpl.
    rewrite has_digit_digits by done. rewrite app_nil_r.
    destruct s as [|c t]; simpl.
    + split; [intros [? ?]; done | intros [_ ?]; done].
    + split; [intros _; split; [lia|done] | intros _; eauto].
  - change (fun c => Ascii.eqb c ".") with is_dot. rewrite H3, H4. simpl.
    rewrite (opt_digitpart_digits ip) by done. simpl.
    destruct (opt_digitpart fp) as [fpd|] eqn:Hfp; simpl.
    + pose proof (opt_digitpart_inv _ _ H2 Hfp) as Hfd.
      rewrite opt_digitpart_digits in Hfp by done. injection Hfp as <-.
      rewrite (digits_no_dot fp Hfd).
      rewrite !has_digit_app, !has_digit_digits by done. simpl.
      destruct (digits_of ip ++ digits_of fp) eqn:E.
      * apply app_eq_nil in E as [E1 E2]. apply digits_of_nil in E1, E2. subst. simpl.
        split; [intros [? ?]; done | intros [_ ?]; done].
      * split; [|intros _; eauto]. intros _. split; [lia|].
        rewrite (has_digit_digits fp) by done. destruct ip, fp; simpl in *; done.
    + split; [intros [? ?]; done|]. intros [Hc _]. exfalso.
      assert (count_char is_dot fp = O) as H0 by lia.
      pose proof (no_dot_digits _ H2 H0) as Hfd.
      rewrite opt_digitpart_digits in Hfp by done. done.
Qed.

Lemma float_of_str_strike s :
  s <> "" -> all_chars is_digit_or_dot s = true ->
  float_of_str s = unsigned_float s.
Proof.
  intros Hne Hs. unfold float_of_str. rewrite strip_digits_dots by done.
  destruct s as [|c t]; [done|]. simpl in Hs. apply andb_true_iff in Hs as [Hc _].
  destruct (Ascii.eqb_spec c "-") as [->|]; [done|].
  destruct (Ascii.eqb_spec c "+") as [->|]; [done|].
  destruct c as [[] [] [] [] [] [] [] []]; done.
Qed.

(** ** The datetime constructor and the order of datetimes *)

Lemma new_Ok y m d h mi t :
  Datetime.new y m d h mi = Ok t <->
  1 <= y <= 9999 /\ 1 <= m <= 12 /\ 1 <= d <= days_in_month y m /\
  0 <= h <= 23 /\ 0 <= mi <= 59 /\ t = mk_datetime y m d h mi 0 0.
Proof.
  unfold Datetime.new.
  repeat match goal with |- context [if negb ?c then _ else _] =>
    let E := fresh in destruct c eqn:E; cbn [negb];
    [apply andb_true_iff in E as [?%Z.leb_le ?%Z.leb_le]
    |apply andb_false_iff in E as [?%Z.leb_gt|?%Z.leb_gt]; (split; [done|lia])] end.
  split; [intros [= <-]; repeat split; lia | intros (_ & _ & _ & _ & _ & ->); done].
Qed.

Lemma new_valid y m d h mi t : Datetime.new y m d h mi = Ok t -> valid t = true.
Proof.
  intros H. apply new_Ok in H as (? & ? & ? & ? & ? & ->). unfold valid. simpl.
  repeat (apply andb_true_iff; split); lia.
Qed.

Lemma month_cases m : 1 <= m <= 12 ->
  m = 1 \/ m = 2 \/ m = 3 \/ m = 4 \/ m = 5 \/ m = 6 \/
  m = 7 \/ m = 8 \/ m = 9 \/ m = 10 \/ m = 11 \/ m = 12.
Proof. lia. Qed.

Ltac each_month m H :=
  destruct (month_cases m H) as [->|[->|[->|[->|[->|[->|[->|[->|[->|[->|[->| ->]]]]]]]]]]].

Lemma day_of_year_bounds y m d :
  1 <= m <= 12 -> 1 <= d <= days_in_month y m ->
  1 <= days_before_month y m + d <= 365 + leap_day y.
Proof.
  intros Hm. unfold days_in_month, days_before_month, leap_day.
  each_month m Hm; destruct (is_leap y); simpl; lia.
Qed.

Lemma day_of_year_mono y m1 d1 m2 d2 :
  1 <= m1 <= 12 -> 1 <= m2 <= 12 ->
  1 <= d1 <= days_in_month y m1 -> 1 <= d2 <= days_in_month y m2 ->
  m1 < m2 -> days_before_month y m1 + d1 < days_before_month y m2 + d2.
Proof.
  intros Hm1 Hm2. unfold days_in_month, days_before_month.
  each_month m1 Hm1; each_month m2 Hm2; destruct (is_leap y); simpl; lia.
Qed.

Lemma days_before_year_step y :
  days_before_year (y + 1) = days_before_year y + 365 + leap_day y.
Proof.
  unfold days_before_year, leap_day, is_leap.
  replace (y + 1 - 1) with y by lia.
  destruct (y mod 4 =? 0) eqn:H4; destruct (y mod 100 =? 0) eqn:H100;
    destruct (y mod 400 =? 0) eqn:H400; simpl;
    rewrite ?Z.eqb_eq, ?Z.eqb_neq in *; Z.div_mod_to_equations; lia.
Qed.

Lemma days_before_year_mono y1 y2 :
  y1 <= y2 -> days_before_year y1 <= days_before_year y2.
Proof. unfold days_before_year. intros H. Z.div_mod_to_equations. lia. Qed.

Lemma ymd2ord_year_lt y1 m1 d1 y2 m2 d2 :
  1 <= m1 <= 12 -> 1 <= m2 <= 12 ->
  1 <= d1 <= days_in_month y1 m1 -> 1 <= d2 <= days_in_month y2 m2 ->
  y1 < y2 -> ymd2ord y1 m1 d1 < ymd2ord y2 m2 d2.
Proof.
  intros Hm1 Hm2 Hd1 Hd2 Hy. unfold ymd2ord.
  pose proof (day_of_year_bounds _ _ _ Hm1 Hd1).
  pose proof (day_of_year_bounds _ _ _ Hm2 Hd2).
  pose proof (days_before_year_step y1).
  pose proof (days_before_year_mono (y1 + 1) y2 ltac:(lia)). lia.
Qed.

Lemma ymd2ord_month_lt y m1 d1 m2 d2 :
  1 <= m1 <= 12 -> 1 <= m2 <= 12 ->
  1 <= d1 <= days_in_month y m1 -> 1 <= d2 <= days_in_month y m2 ->
  m1 < m2 -> ymd2ord y m1 d1 < ymd2ord y m2 d2.
Proof.
  intros Hm1 Hm2 Hd1 Hd2 Hm. unfold ymd2ord.
  pose proof (day_of_year_mono y m1 d1 m2 d2 Hm1 Hm2 Hd1 Hd2 Hm). lia.
Qed.

Lemma sub_total_us a b : Datetime.sub a b = total_us a - total_us b.
Proof. unfold Datetime.sub, total_us. lia. Qed.

Lemma valid_ranges t :
  valid t = true ->
  1 <= year t <= 9999 /\ 1 <= month t <= 12 /\
  1 <= day t <= days_in_month (year t) (month t) /\
  0 <= hour t <= 23 /\ 0 <= minute t <= 59 /\ 0 <= second t <= 59 /\
  0 <= microsecond t <= 999999.
Proof. unfold valid. rewrite !andb_true_iff, !Z.leb_le. tauto. Qed.

(** On datetime objects the comparison of the fields agrees with the
    difference computed by the subtraction. *)
Lemma lt_total_us a b :
  valid a = true -> valid b = true ->
  (Datetime.lt a b = true <-> total_us a < total_us b).
Proof.
  intros Ha Hb.
  apply valid_ranges in Ha as (Hya & Hma & Hda & Hha & Hmia & Hsa & Husa).
  apply valid_ranges in Hb as (Hyb & Hmb & Hdb & Hhb & Hmib & Hsb & Husb).
  unfold Datetime.lt, fields, total_us, toordinal.
  destruct a as [ya ma da ha mia sa usa], b as [yb mb db hb mib sb usb]; simpl in *.
  pose proof (ymd2ord_year_lt ya ma da yb mb db Hma Hmb Hda Hdb) as F1.
  pose proof (ymd2ord_year_lt yb mb db ya ma da Hmb Hma Hdb Hda) as F1'.
  assert (ya = yb -> ma < mb -> ymd2ord ya ma da < ymd2ord yb mb db) as F2.
  { intros ->. by apply ymd2ord_month_lt. }
  assert (ya = yb -> mb < ma -> ymd2ord yb mb db < ymd2ord ya ma da) as F2'.
  { intros ->. by apply ymd2ord_month_lt. }
  assert (ya = yb -> ma = mb -> ymd2ord ya ma da - ymd2ord yb mb db = da - db) as F3.
  { intros -> ->. unfold ymd2ord. lia. }
  generalize dependent (ymd2ord ya ma da). generalize dependent (ymd2ord yb mb db).
  intros ob F1 F2 oa F1' F2' F3.
  rewrite andb_false_r, orb_false_r.
  repeat (rewrite orb_true_iff || rewrite andb_true_iff).
  rewrite !Z.ltb_lt, !Z.eqb_eq.
  lia.
Qed.

(** ** The symbol parser *)

Lemma side_upper t : t = "CE" \/ t = "PE" -> upper t = t.
Proof. by intros [-> | ->]. Qed.

Lemma parse_option_symbol_Ok symbol exchange custom b e strike ty :
  parse_option_symbol symbol exchange custom = Ok (b, e, strike, ty) <->
  exists d m y k rest mo h mi,
    ticker_shape (upper symbol) b d m y k ty rest /\
    expiry_hour_minute exchange custom = Ok (h, mi) /\
    month_map !! m = Some mo /\
    Datetime.new (2000 + num y) mo (num d) h mi = Ok e /\
    float_of_str k = Some strike.
Proof.
  unfold parse_option_symbol. rewrite try_reraise_Ok. rewrite bind_Ok. split.
  - intros ([[[[[b' d] m] y] k] t] & Hre & H).
    apply of_option_Ok, option_symbol_re_spec in Hre as [rest Hre].
    apply bind_Ok in H as ([h mi] & Hhm & H).
    apply bind_Ok in H as (yy & Hy & H).
    apply bind_Ok in H as (mo & Hmo & H). apply of_option_Ok in Hmo.
    apply bind_Ok in H as (dd & Hd & H).
    apply bind_Ok in H as (e' & He & H).
    apply bind_Ok in H as (st & Hst & H).
    injection H as -> -> -> Hty.
    destruct Hre as (Hsplit & Hb & Hab & Hld & Had & Hlm & Ham & Hly & Hay & Hk & Hak & Hside).
    rewrite (side_upper _ Hside) in Hty. subst t.
    exists d, m, y, k, rest, mo, h, mi. split; [by repeat split|].
    simpl in Hy, Hd, Hst. apply of_option_Ok in Hy, Hd, Hst.
    rewrite year_20 in Hy by done. injection Hy as <-.
    rewrite int_of_str_digits in Hd;
      [|by eapply length_nonempty|done|rewrite Hld; unfold int_max_str_digits; lia].
    injection Hd as <-.
    auto.
  - intros (d & m & y & k & rest & mo & h & mi & Hshape & Hhm & Hmo & He & Hst).
    exists (b, d, m, y, k, ty). split.
    + apply of_option_Ok, option_symbol_re_spec. by exists rest.
    + destruct Hshape as (Hsplit & Hb & Hab & Hld & Had & Hlm & Ham & Hly & Hay & Hk & Hak & Hside).
      rewrite Hhm. simpl. rewrite year_20 by done. simpl. rewrite Hmo. simpl.
      rewrite int_of_str_digits;
        [|by eapply length_nonempty|done|rewrite Hld; unfold int_max_str_digits; lia]. simpl.
      rewrite He. simpl. rewrite Hst. simpl. by rewrite (side_upper _ Hside).
Qed.

Lemma parse_option_symbol_raises symbol exchange custom :
  (exists r, parse_option_symbol symbol exchange custom = Ok r) \/
  (exists msg, parse_option_symbol symbol exchange custom = Raise (Exn ValueError msg)).
Proof.
  unfold parse_option_symbol.
  match goal with |- context [try_except ?b (fun e => Raise (Exn ValueError (@?f e)))] =>
    destruct (try_reraise_cases b (fun e => Exn ValueError (f e))) as [[a H]|[e H]] end.
  - left. eauto.
  - right. eexists. exact H.
Qed.

Lemma parse_valid symbol exchange custom b e strike ty :
  parse_option_symbol symbol exchange custom = Ok (b, e, strike, ty) -> valid e = true.
Proof.
  intros H.
  apply parse_option_symbol_Ok in H as (d & m & y & k & rest & mo & h & mi & _ & _ & _ & H & _).
  by eapply new_valid.
Qed.

Lemma month_map_range m mo : month_map !! m = Some mo -> 1 <= mo <= 12.
Proof.
  unfold month_map. intros H. apply elem_of_list_to_map_2 in H.
  repeat (apply elem_of_cons in H as [[= -> ->]|H]; [lia|]).
  by apply elem_of_nil in H.
Qed.

Lemma default_expiry_range exchange :
  0 <= (default_expiry exchange).1 <= 23 /\ 0 <= (default_expiry exchange).2 <= 59.
Proof. unfold default_expiry. repeat case_match; simpl; lia. Qed.

Lemma custom_expiry_Ok t h mi :
  custom_expiry t = Ok (h, mi) <->
  exists hh mm, split ":" t = [hh; mm] /\ int_of_str hh = Some h /\ int_of_str mm = Some mi /\
                0 <= h <= 23 /\ 0 <= mi <= 59.
Proof.
  unfold custom_expiry. rewrite try_reraise_Ok.
  destruct (split ":" t) as [|hh [|mm [|x l]]] eqn:Hs; cbn [length Nat.eqb negb].
  - split; [done|]. intros (? & ? & ? & _). done.
  - split; [done|]. intros (? & ? & ? & _). done.
  - cbn [nth int]. split.
    + intros H. apply bind_Ok in H as (h' & Hh & H). apply of_option_Ok in Hh.
      apply bind_Ok in H as (mi' & Hm & H). apply of_option_Ok in Hm.
      destruct (negb _ || negb _) eqn:Hr; [done|]. injection H as -> ->.
      apply orb_false_iff in Hr as [H1 H2]. apply negb_false_iff in H1, H2.
      apply andb_true_iff in H1 as [?%Z.leb_le ?%Z.leb_le].
      apply andb_true_iff in H2 as [?%Z.leb_le ?%Z.leb_le].
      exists hh, mm. repeat split; auto.
    + intros (hh' & mm' & [= <- <-] & Hh & Hm & Hhr & Hmr).
      rewrite Hh, Hm. cbn [of_option bind].
      assert ((0 <=? h) && (h <=? 23) = true) as -> by (apply andb_true_iff; lia).
      assert ((0 <=? mi) && (mi <=? 59) = true) as -> by (apply andb_true_iff; lia).
      done.
  - split; [done|]. intros (? & ? & ? & _). done.
Qed.

Lemma nonempty_Some t : t <> "" -> nonempty (Some t) = Some t.
Proof. intros H. unfold nonempty. by apply String.eqb_neq in H as ->. Qed.

(** *** Which tickers parse *)

(** C2, as amended: with no expiry-time override, [parse_option_symbol]
    returns the option symbol of every ticker whose upper-case form is
    letters, a 2-digit day, a 3-letter month, a 2-digit year, a strike and
    CE or PE, provided the month is one of JAN..DEC, the day exists in that
    month of the year 20YY and the strike has at most one decimal point and
    at least one digit. It returns an option symbol only for a ticker
    whose upper-case form begins in this way, and every other outcome is a
    ValueError; the ticker XYZ fails to parse. *)
Theorem parse_option_symbol_accepts symbol exchange :
  (forall b d m y k t mo,
     ticker_shape (upper symbol) b d m y k t "" -> fields_ok d m y k mo ->
     exists strike,
       float_of_str k = Some strike /\
       parse_option_symbol symbol exchange None
       = Ok (b,
             mk_datetime (2000 + num y) mo (num d)
               (default_expiry exchange).1 (default_expiry exchange).2 0 0,
             strike, t)) /\
  (forall custom r,
     parse_option_symbol symbol exchange custom = Ok r ->
     exists b d m y k t rest mo,
       ticker_shape (upper symbol) b d m y k t rest /\ fields_ok d m y k mo) /\
  (forall custom,
     (exists r, parse_option_symbol symbol exchange custom = Ok r) \/
     (exists msg, parse_option_symbol symbol exchange custom = Raise (Exn ValueError msg))) /\
  (forall custom,
     exists msg, parse_option_symbol "XYZ" exchange custom = Raise (Exn ValueError msg)).
Proof.
  split; [|split; [|split]].
  - intros b d m y k t mo Hsh (Hmo & Hd & Hdots & Hdig).
    pose proof Hsh as (_ & _ & _ & Hld & Had & _ & _ & Hly & Hay & Hk & Hak & _).
    destruct (proj2 (unsigned_float_strike k Hak) (conj Hdots Hdig)) as [strike Hst].
    rewrite <- float_of_str_strike in Hst by done.
    exists strike. split; [done|]. apply parse_option_symbol_Ok.
    exists d, m, y, k, "", mo, (default_expiry exchange).1, (default_expiry exchange).2.
    split; [done|].
    split; [unfold expiry_hour_minute; cbn [nonempty]; by destruct (default_expiry exchange)|].
    split; [done|]. split; [|done].
    apply new_Ok. pose proof (two_digits_range y Hly Hay).
    pose proof (month_map_range _ _ Hmo). pose proof (default_expiry_range exchange).
    repeat split; try lia.
  - intros custom [[[b e] strike] ty] H.
    apply parse_option_symbol_Ok in H
      as (d & m & y & k & rest & mo & h & mi & Hsh & _ & Hmo & He & Hst).
    apply new_Ok in He as (_ & _ & Hd & _).
    exists b, d, m, y, k, ty, rest, mo. split; [exact Hsh|].
    split; [exact Hmo|]. split; [lia|].
    destruct Hsh as (_ & _ & _ & _ & _ & _ & _ & _ & _ & Hk & Hak & _).
    rewrite float_of_str_strike in Hst by done.
    apply (unsigned_float_strike k Hak). eauto.
  - apply parse_option_symbol_raises.
  - intros custom.
    destruct (parse_option_symbol_raises "XYZ" exchange custom) as [[[[[b e] s] t] H]|H]; [|done].
    apply parse_option_symbol_Ok in H as (d & m & y & k & rest & mo & h & mi & Hsh & _).
    assert (option_symbol_re (upper "XYZ") = Some (b, d, m, y, k, t)) as Hre
      by (apply option_symbol_re_spec; eauto).
    by vm_compute in Hre.
Qed.

(** C2, as stated, fails: NIFTY31FEB2424000CE has the shape of the pattern
    (letters, day 31, month FEB, year 24, strike 24000, CE) and is
    rejected, because February has no 31st day. *)
Lemma ticker_with_impossible_date_is_rejected :
  spec_pattern "NIFTY31FEB2424000CE" = true /\
  exists msg,
    parse_option_symbol "NIFTY31FEB2424000CE" "NFO" None = Raise (Exn ValueError msg).
Proof.
  split; [by vm_compute|]. eexists. vm_compute. reflexivity.
Qed.

(** The pattern is matched at the start of the ticker: text after the
    side is read over. *)
Example text_after_the_side :
  spec_pattern "NIFTY28NOV2424000CEXYZ" = false /\
  parse_option_symbol "NIFTY28NOV2424000CEXYZ" "NFO" None
  = Ok ("NIFTY", mk_datetime 2024 11 28 15 30 0 0, 24000%Q, "CE").
Proof. split; by vm_compute. Qed.

(** C9: the two tickers of the specification. *)
Theorem parse_option_symbol_examples :
  parse_option_symbol "NIFTY28NOV2424000CE" "NFO" None
  = Ok ("NIFTY", mk_datetime 2024 11 28 15 30 0 0, 24000%Q, "CE") /\
  (forall exchange,
     exists expiry,
       parse_option_symbol "USDINR28NOV2483.50CE" exchange None
       = Ok ("USDINR", expiry, Qred 83.5, "CE")).
Proof.
  split; [by vm_compute|].
  intros exchange. unfold parse_option_symbol, expiry_hour_minute, default_expiry.
  cbn [nonempty].
  destruct (String.eqb exchange "MCX"); [|destruct (String.eqb exchange "CDS")];
    vm_compute; eexists; reflexivity.
Qed.

(** *** The expiry time *)

Lemma expiry_hour_minute_range exchange custom h mi :
  expiry_hour_minute exchange custom = Ok (h, mi) -> 0 <= h <= 23 /\ 0 <= mi <= 59.
Proof.
  unfold expiry_hour_minute. destruct (nonempty custom) as [t|].
  - intros H. apply custom_expiry_Ok in H as (? & ? & _ & _ & _ & ? & ?). done.
  - intros [= H]. pose proof (default_expiry_range exchange) as Hr.
    by rewrite H in Hr.
Qed.

(** C3: for a ticker that parses, the expiry time is the exchange default
    (23:30 on MCX, 12:30 on CDS, 15:30 elsewhere) when no override is
    given; an override of two integers separated by a colon, with the hour
    in 0..23 and the minute in 0..59, replaces it; every other override
    is a ValueError. So 25:61 fails and 19:00 gives 19:00. *)
Theorem expiry_time_resolution symbol exchange b e strike ty :
  parse_option_symbol symbol exchange None = Ok (b, e, strike, ty) ->
  (hour e, minute e) =
    (if String.eqb exchange "MCX" then (23, 30)
     else if String.eqb exchange "CDS" then (12, 30) else (15, 30)) /\
  parse_option_symbol symbol exchange (Some "") = Ok (b, e, strike, ty) /\
  (forall t hh mm h mi,
     t <> "" -> split ":" t = [hh; mm] ->
     int_of_str hh = Some h -> int_of_str mm = Some mi ->
     0 <= h <= 23 -> 0 <= mi <= 59 ->
     parse_option_symbol symbol exchange (Some t) = Ok (b, at_time e h mi, strike, ty)) /\
  (forall t,
     t <> "" ->
     ~ (exists hh mm h mi, split ":" t = [hh; mm] /\
          int_of_str hh = Some h /\ int_of_str mm = Some mi /\
          0 <= h <= 23 /\ 0 <= mi <= 59) ->
     exists msg, parse_option_symbol symbol exchange (Some t) = Raise (Exn ValueError msg)) /\
  (exists msg, parse_option_symbol symbol exchange (Some "25:61") = Raise (Exn ValueError msg)) /\
  parse_option_symbol symbol exchange (Some "19:00") = Ok (b, at_time e 19 0, strike, ty).
Proof.
  intros Hp.
  pose proof Hp as Hp'.
  apply parse_option_symbol_Ok in Hp'
    as (d & m & y & k & rest & mo & h0 & mi0 & Hsh & Hhm & Hmo & He & Hst).
  cbn in Hhm. injection Hhm as Hhm. apply new_Ok in He as (Hy & Hm & Hd & Hh0 & Hmi0 & ->).
  assert (forall t hh mm h mi,
     t <> "" -> split ":" t = [hh; mm] ->
     int_of_str hh = Some h -> int_of_str mm = Some mi ->
     0 <= h <= 23 -> 0 <= mi <= 59 ->
     parse_option_symbol symbol exchange (Some t)
     = Ok (b, at_time (mk_datetime (2000 + num y) mo (num d) h0 mi0 0 0) h mi, strike, ty)) as Hov.
  { intros t hh mm h mi Ht Hs Hh Hmi Hhr Hmr.
    apply parse_option_symbol_Ok. exists d, m, y, k, rest, mo, h, mi.
    split; [exact Hsh|]. split; [|split; [exact Hmo|split; [|exact Hst]]].
    - unfold expiry_hour_minute. rewrite nonempty_Some by done.
      apply custom_expiry_Ok. exists hh, mm. auto.
    - apply new_Ok. unfold at_time. simpl. tauto. }
  split; [|split; [|split; [|split; [|split]]]].
  - simpl. rewrite <- Hhm. unfold default_expiry. by repeat case_match.
  - exact Hp.
  - exact Hov.
  - intros t Ht Hno.
    destruct (parse_option_symbol_raises symbol exchange (Some t)) as [[[[[b' e'] s'] t'] H]|H];
      [|done].
    exfalso. apply Hno.
    apply parse_option_symbol_Ok in H as (_ & _ & _ & _ & _ & _ & h & mi & _ & H & _).
    unfold expiry_hour_minute in H. rewrite nonempty_Some in H by done.
    apply custom_expiry_Ok in H as (hh & mm & ?). exists hh, mm, h, mi. done.
  - destruct (parse_option_symbol_raises symbol exchange (Some "25:61"))
      as [[[[[b' e'] s'] t'] H]|H]; [|done].
    exfalso.
    apply parse_option_symbol_Ok in H as (_ & _ & _ & _ & _ & _ & h & mi & _ & H & _).
    cbv in H. discriminate.
  - apply (Hov "19:00" "19" "00"); done || lia.
Qed.

(** C3 on GOLD28NOV2472000CE of MCX: 23:30 by default, 19:00 with the
    override, and no result for 25:61. *)
Lemma expiry_time_resolution_mcx :
  parse_option_symbol "GOLD28NOV2472000CE" "MCX" None
  = Ok ("GOLD", mk_datetime 2024 11 28 23 30 0 0, 72000%Q, "CE") /\
  parse_option_symbol "GOLD28NOV2472000CE" "MCX" (Some "19:00")
  = Ok ("GOLD", mk_datetime 2024 11 28 19 0 0 0, 72000%Q, "CE") /\
  exists msg,
    parse_option_symbol "GOLD28NOV2472000CE" "MCX" (Some "25:61") = Raise (Exn ValueError msg).
Proof.
  assert (parse_option_symbol "GOLD28NOV2472000CE" "MCX" None
          = Ok ("GOLD", mk_datetime 2024 11 28 23 30 0 0, 72000%Q, "CE")) as Hp
    by (vm_compute; reflexivity).
  destruct (expiry_time_resolution _ _ _ _ _ _ Hp) as (_ & _ & _ & _ & H25 & H19).
  split; [exact Hp|]. split; [exact H19|exact H25].
Defined.

(** The numerals of an override are the ones [int()] reads: blanks around
    them, a sign and single underscores pass; the separator 0x1c, a
    doubled underscore, a third part and a numeral of more than 4300
    digits do not. *)
Example override_numerals :
  let parse t := parse_option_symbol "GOLD28NOV2472000CE" "MCX" (Some t) in
  let at_19 := Ok ("GOLD", mk_datetime 2024 11 28 19 0 0 0, 72000%Q, "CE") in
  parse " 19:00 " = at_19 /\ parse "+19:0_0" = at_19 /\
  parse (zeros 4298 +:+ "19:00") = at_19 /\
  is_Ok (parse (zeros 4299 +:+ "19:00")) = false /\
  is_Ok (parse (String (chr 28) "19:00")) = false /\
  is_Ok (parse "1__9:00") = false /\
  is_Ok (parse "19:00:00") = false /\
  is_Ok (parse "19") = false.
Proof. cbv zeta. repeat split; by vm_compute. Qed.

(** ** The exchange of the underlying *)

(** C4: the classification tests the four sets in order, NSE indices,
    BSE indices, currency pairs, commodities; the option's exchange code
    CDS or MCX stands in for membership of the currency or commodity set;
    everything else is NSE. *)
Theorem get_underlying_exchange_classifies base_symbol options_exchange :
  (base_symbol ∈ NSE_INDEX_SYMBOLS ->
   get_underlying_exchange base_symbol options_exchange = "NSE_INDEX") /\
  (base_symbol ∉ NSE_INDEX_SYMBOLS -> base_symbol ∈ BSE_INDEX_SYMBOLS ->
   get_underlying_exchange base_symbol options_exchange = "BSE_INDEX") /\
  (base_symbol ∉ NSE_INDEX_SYMBOLS -> base_symbol ∉ BSE_INDEX_SYMBOLS ->
   base_symbol ∈ CURRENCY_SYMBOLS \/ options_exchange = "CDS" ->
   get_underlying_exchange base_symbol options_exchange = "CDS") /\
  (base_symbol ∉ NSE_INDEX_SYMBOLS -> base_symbol ∉ BSE_INDEX_SYMBOLS ->
   base_symbol ∉ CURRENCY_SYMBOLS -> options_exchange <> "CDS" ->
   base_symbol ∈ COMMODITY_SYMBOLS \/ options_exchange = "MCX" ->
   get_underlying_exchange base_symbol options_exchange = "MCX") /\
  (base_symbol ∉ NSE_INDEX_SYMBOLS -> base_symbol ∉ BSE_INDEX_SYMBOLS ->
   base_symbol ∉ CURRENCY_SYMBOLS -> options_exchange <> "CDS" ->
   base_symbol ∉ COMMODITY_SYMBOLS -> options_exchange <> "MCX" ->
   get_underlying_exchange base_symbol options_exchange = "NSE").
Proof.
  unfold get_underlying_exchange.
  repeat split; intros;
    repeat match goal with
    | H : _ ∈ _ |- _ => rewrite (bool_decide_eq_true_2 _ H); clear H
    | H : _ ∉ _ |- _ => rewrite (bool_decide_eq_false_2 _ H); clear H
    | H : _ <> _ |- _ => apply String.eqb_neq in H; rewrite H; clear H
    | H : _ \/ _ |- _ => destruct H
    | H : options_exchange = _ |- _ => rewrite H; clear H
    end; cbn [orb]; rewrite ?orb_true_r; try done.
Qed.

Example get_underlying_exchange_samples :
  get_underlying_exchange "NIFTY" "NFO" = "NSE_INDEX" /\
  get_underlying_exchange "NIFTY" "CDS" = "NSE_INDEX" /\
  get_underlying_exchange "SENSEX" "BFO" = "BSE_INDEX" /\
  get_underlying_exchange "USDINR" "MCX" = "CDS" /\
  get_underlying_exchange "EURUSD" "CDS" = "CDS" /\
  get_underlying_exchange "GOLD" "NFO" = "MCX" /\
  get_underlying_exchange "KAPAS" "MCX" = "MCX" /\
  get_underlying_exchange "RELIANCE" "NFO" = "NSE".
Proof. repeat split; by vm_compute. Qed.

(** ** Time to expiry and the Greeks calculation *)

Lemma days_below_floor td :
  Qlt_bool (truediv (total_seconds td) (inject_Z (60 * 60 * 24))) 0.01 = (td <? 864000000).
Proof.
  unfold Qlt_bool, truediv, total_seconds.
  apply eq_true_iff_eq. rewrite negb_true_iff, Z.ltb_lt.
  rewrite <- not_true_iff_false, Qle_bool_iff.
  rewrite Qred_correct. rewrite Qred_correct.
  change (60 * 60 * 24) with 86400.
  unfold Qle, Qdiv, Qmult, Qinv. cbn -[Z.mul]. lia.
Qed.

Lemma time_to_expiry_past expiry now :
  Datetime.lt expiry now = true -> calculate_time_to_expiry expiry now = 0%Q.
Proof. unfold calculate_time_to_expiry. by intros ->. Qed.

Lemma time_to_expiry_positive expiry now :
  Datetime.lt expiry now = false ->
  Qle_bool 0.01 (calculate_time_to_expiry expiry now) = true.
Proof.
  unfold calculate_time_to_expiry. intros ->.
  destruct (Qlt_bool _ 0.01) eqn:H; [done|].
  unfold Qlt_bool in H. by apply negb_false_iff in H.
Qed.

(** The test [time_to_expiry <= 0] is the test [expiry < now]. *)
Lemma expired_check expiry now :
  Qle_bool (calculate_time_to_expiry expiry now) 0 = Datetime.lt expiry now.
Proof.
  destruct (Datetime.lt expiry now) eqn:H.
  - by rewrite time_to_expiry_past.
  - apply time_to_expiry_positive in H. apply Qle_bool_iff in H.
    apply not_true_iff_false. rewrite Qle_bool_iff. intros H'.
    assert (0.01 <= 0)%Q as Habs by (eapply Qle_trans; eassumption).
    revert Habs. unfold Qle. simpl. lia.
Qed.

Lemma time_to_expiry_floor expiry now :
  valid expiry = true -> valid now = true ->
  0 <= Datetime.sub expiry now <= 864000000 ->
  calculate_time_to_expiry expiry now = 0.01%Q.
Proof.
  intros He Hn Hd. unfold calculate_time_to_expiry.
  assert (Datetime.lt expiry now = false) as ->.
  { apply not_true_iff_false. rewrite lt_total_us by done.
    rewrite sub_total_us in Hd. lia. }
  rewrite days_below_floor.
  destruct (Z.ltb_spec (Datetime.sub expiry now) 864000000) as [H|H]; [done|].
  assert (Datetime.sub expiry now = 864000000) as -> by lia. done.
Qed.

Lemma calculate_greeks_parsed (m : Mibian) now symbol exchange spot_price option_price
    interest_rate expiry_time api_key b e strike ty :
  parse_option_symbol symbol exchange expiry_time = Ok (b, e, strike, ty) ->
  calculate_greeks (Some m) now symbol exchange spot_price option_price interest_rate
    expiry_time api_key =
  if Datetime.lt e now then expired_response e
  else match price_greeks (Some m) symbol exchange b e strike ty
               (calculate_time_to_expiry e now) spot_price option_price interest_rate with
       | Ok r => r
       | Raise x => greeks_failure x
       end.
Proof.
  intros Hp. unfold calculate_greeks. cbn [check_mibian_availability MIBIAN_AVAILABLE negb].
  rewrite Hp. cbn [bind]. rewrite expired_check. by destruct (Datetime.lt e now).
Qed.

Lemma operand_raises op v x : operand op v = Raise x -> exn_cls x = TypeError.
Proof. unfold operand. destruct (number v); simpl; [done|]. by intros [= <-]. Qed.

Lemma float_operand_raises v x :
  float_operand v = Raise x -> exn_cls x = TypeError \/ exn_cls x = OverflowError.
Proof.
  unfold float_operand, float_of_int.
  destruct v; cbn [number of_option]; try (intros [= <-]; by left); try done.
  destruct (_ <? _); [done|]. intros [= <-]. by right.
Qed.

Lemma price_greeks_not_expired mib symbol exchange b e strike ty t spot price rate text :
  match price_greeks mib symbol exchange b e strike ty t spot price rate with
  | Ok r => r
  | Raise x => greeks_failure x
  end <> (false, error_dict ("Option has expired on " +:+ text), PInt 400).
Proof.
  unfold price_greeks.
  destruct (float_operand _) as [r|x] eqn:Hr; cbn [bind].
  2:{ apply float_operand_raises in Hr. unfold greeks_failure.
      destruct Hr as [Hr|Hr]; rewrite Hr; done. }
  destruct (operand "<=" spot) as [s|x] eqn:Hs; cbn [bind].
  2:{ apply operand_raises in Hs. unfold greeks_failure. rewrite Hs. done. }
  destruct (Qle_bool s 0); [done|].
  destruct (operand "<=" price) as [p|x] eqn:Hpr; cbn [bind].
  2:{ apply operand_raises in Hpr. unfold greeks_failure. rewrite Hpr. done. }
  destruct (Qle_bool p 0); [done|].
  destruct (Qle_bool strike 0); [done|].
  destruct (bind (of_option mib _) _) as [iv|x]; [|done].
  destruct (bind (of_option mib _) _) as [[[[[delta theta] rho] gam] veg]|x]; done.
Qed.

(** C1: with the pricing backend in place, an option whose parsed expiry
    lies before the current time has time to expiry 0.0, and the
    calculation answers with the error "Option has expired on <date>" and
    status 400, for any prices; so does the orchestration once both
    prices are fetched. No floored or negative duration reaches the
    pricing. *)
Theorem expired_option_is_rejected (m : Mibian) (import_get_quotes : result quotes_fn)
    (str_other : pyval -> string) now symbol exchange spot_price option_price
    interest_rate expiry_time api_key b e strike ty :
  parse_option_symbol symbol exchange expiry_time = Ok (b, e, strike, ty) ->
  Datetime.lt e now = true ->
  calculate_time_to_expiry e now = 0%Q /\
  calculate_greeks (Some m) now symbol exchange spot_price option_price interest_rate
    expiry_time api_key
  = (false, error_dict ("Option has expired on " +:+ strftime_d_b_Y e), PInt 400) /\
  (forall underlying_symbol underlying_exchange prices,
     fetch_prices import_get_quotes str_other symbol exchange underlying_symbol
       underlying_exchange expiry_time api_key = Ok (inr prices) ->
     get_option_greeks (Some m) import_get_quotes str_other now symbol exchange
       interest_rate underlying_symbol underlying_exchange expiry_time api_key
     = (false, error_dict ("Option has expired on " +:+ strftime_d_b_Y e), PInt 400)).
Proof.
  intros Hp Hlt. split; [by apply time_to_expiry_past|].
  assert (forall s o, calculate_greeks (Some m) now symbol exchange s o interest_rate
            expiry_time api_key = expired_response e) as H.
  { intros s o. rewrite (calculate_greeks_parsed _ _ _ _ _ _ _ _ _ _ _ _ _ Hp). by rewrite Hlt. }
  split; [apply H|].
  intros us ue prices Hf. unfold get_option_greeks. rewrite Hf. apply H.
Qed.

(** C1 on NIFTY28NOV2424000CE three days after its expiry. *)
Lemma expired_option_is_rejected_nifty :
  Datetime.lt (mk_datetime 2024 11 28 15 30 0 0) (mk_datetime 2024 12 1 10 0 0 0) = true /\
  calculate_greeks (Some sample_mibian) (mk_datetime 2024 12 1 10 0 0 0)
    "NIFTY28NOV2424000CE" "NFO" (PFloat 24150.5) (PFloat 120) PNone None None
  = (false, error_dict "Option has expired on 28-Nov-2024", PInt 400).
Proof.
  assert (parse_option_symbol "NIFTY28NOV2424000CE" "NFO" None
          = Ok ("NIFTY", mk_datetime 2024 11 28 15 30 0 0, 24000%Q, "CE")) as Hp
    by (vm_compute; reflexivity).
  assert (Datetime.lt (mk_datetime 2024 11 28 15 30 0 0) (mk_datetime 2024 12 1 10 0 0 0)
          = true) as Hlt by (vm_compute; reflexivity).
  split; [exact Hlt|].
  exact (proj1 (proj2 (expired_option_is_rejected sample_mibian (Ok quotes_without_ltp)
                         sample_str_other _ _ _ (PFloat 24150.5) (PFloat 120) PNone _ None
                         _ _ _ _ Hp Hlt))).
Defined.

(** C10: when the parsed expiry is the current time or at most 0.01 days
    (864 seconds) after it, the time to expiry is exactly 0.01; the
    calculation then does not answer "expired" but prices the option with
    0.01 days. Only an expiry strictly before the current time gives the
    0.0 that the expiry check rejects. *)
Theorem near_expiry_uses_floor (m : Mibian) now symbol exchange spot_price option_price
    interest_rate expiry_time api_key b e strike ty :
  parse_option_symbol symbol exchange expiry_time = Ok (b, e, strike, ty) ->
  valid now = true ->
  0 <= Datetime.sub e now <= 864000000 ->
  calculate_time_to_expiry e now = 0.01%Q /\
  calculate_greeks (Some m) now symbol exchange spot_price option_price interest_rate
    expiry_time api_key
  = match price_greeks (Some m) symbol exchange b e strike ty 0.01 spot_price option_price
            interest_rate with
    | Ok r => r
    | Raise x => greeks_failure x
    end /\
  (forall text,
     calculate_greeks (Some m) now symbol exchange spot_price option_price interest_rate
       expiry_time api_key
     <> (false, error_dict ("Option has expired on " +:+ text), PInt 400)) /\
  (forall expiry' now',
     calculate_time_to_expiry expiry' now' = 0%Q <-> Datetime.lt expiry' now' = true).
Proof.
  intros Hp Hn Hd.
  pose proof (parse_valid _ _ _ _ _ _ _ Hp) as He.
  pose proof (time_to_expiry_floor e now He Hn Hd) as Ht.
  assert (Datetime.lt e now = false) as Hlt.
  { rewrite <- expired_check, Ht. done. }
  assert (calculate_greeks (Some m) now symbol exchange spot_price option_price interest_rate
            expiry_time api_key
          = match price_greeks (Some m) symbol exchange b e strike ty 0.01 spot_price
                    option_price interest_rate with
            | Ok r => r
            | Raise x => greeks_failure x
            end) as Hc.
  { rewrite (calculate_greeks_parsed _ _ _ _ _ _ _ _ _ _ _ _ _ Hp). by rewrite Hlt, Ht. }
  repeat split; [done|done| | |].
  - intros text. rewrite Hc. apply price_greeks_not_expired.
  - intros H0. rewrite <- expired_check, H0. done.
  - apply time_to_expiry_past.
Qed.

(** C10 on NIFTY28NOV2424000CE ten minutes before its expiry, and at the
    expiry itself. *)
Lemma near_expiry_uses_floor_nifty :
  calculate_time_to_expiry (mk_datetime 2024 11 28 15 30 0 0)
    (mk_datetime 2024 11 28 15 20 0 0) = 0.01%Q /\
  calculate_time_to_expiry (mk_datetime 2024 11 28 15 30 0 0)
    (mk_datetime 2024 11 28 15 30 0 0) = 0.01%Q /\
  exists body,
    calculate_greeks (Some sample_mibian) (mk_datetime 2024 11 28 15 20 0 0)
      "NIFTY28NOV2424000CE" "NFO" (PFloat 24150.5) (PFloat 120) PNone None None
    = (true, body, PInt 200) /\
    get body "days_to_expiry" PNone = Ok (PFloat 0.01).
Proof.
  assert (parse_option_symbol "NIFTY28NOV2424000CE" "NFO" None
          = Ok ("NIFTY", mk_datetime 2024 11 28 15 30 0 0, 24000%Q, "CE")) as Hp
    by (vm_compute; reflexivity).
  destruct (near_expiry_uses_floor sample_mibian (mk_datetime 2024 11 28 15 20 0 0)
              _ _ (PFloat 24150.5) (PFloat 120) PNone _ None _ _ _ _ Hp)
    as (Ht & Hc & _ & _); [vm_compute; reflexivity | vm_compute; split; discriminate |].
  destruct (near_expiry_uses_floor sample_mibian (mk_datetime 2024 11 28 15 30 0 0)
              _ _ (PFloat 24150.5) (PFloat 120) PNone _ None _ _ _ _ Hp)
    as (Ht' & _ & _ & _); [vm_compute; reflexivity | vm_compute; split; discriminate |].
  split; [exact Ht|]. split; [exact Ht'|].
  rewrite Hc. vm_compute. eexists. split; reflexivity.
Defined.

(** *** Missing prices *)

Lemma lacks_ltp_None resp : lacks_ltp resp -> ltp_of resp = Ok PNone.
Proof.
  intros (d & -> & [H | (dd & H1 & H2)]); unfold ltp_of; simpl.
  - by rewrite H.
  - rewrite H1. simpl. by rewrite H2.
Qed.

(** C8, as amended: when the ticker parses and the quote service answers
    with success, a spot response without [ltp] (a dict with no [data],
    or with a [data] dict that has no [ltp]) ends the orchestration with
    "Underlying LTP not available" and status 404, and an option response
    without [ltp] (after a priced underlying) ends it with "Option LTP not
    available" and status 404; the Greeks calculation is reached only with
    two prices that are present and not zero. *)
Theorem missing_ltp_is_404 (mib : option Mibian) (get_quotes : quotes_fn)
    (str_other : pyval -> string) now symbol exchange interest_rate
    underlying_symbol underlying_exchange expiry_time api_key b e strike ty :
  parse_option_symbol symbol exchange expiry_time = Ok (b, e, strike, ty) ->
  let spot_symbol := default b (nonempty underlying_symbol) in
  let spot_exchange :=
    default (get_underlying_exchange b exchange) (nonempty underlying_exchange) in
  let key := from_option PStr PNone api_key in
  let fetched := fetch_prices (Ok get_quotes) str_other symbol exchange underlying_symbol
                   underlying_exchange expiry_time api_key in
  let answer := get_option_greeks mib (Ok get_quotes) str_other now symbol exchange
                  interest_rate underlying_symbol underlying_exchange expiry_time api_key in
  (forall resp code,
     get_quotes 0%nat spot_symbol spot_exchange key = Ok (true, resp, code) ->
     lacks_ltp resp ->
     fetched = Ok (inl (false, error_dict "Underlying LTP not available", PInt 404)) /\
     answer = (false, error_dict "Underlying LTP not available", PInt 404)) /\
  (forall resp code spot_price resp' code',
     get_quotes 0%nat spot_symbol spot_exchange key = Ok (true, resp, code) ->
     ltp_of resp = Ok spot_price -> truthy spot_price = true ->
     get_quotes 1%nat symbol exchange key = Ok (true, resp', code') ->
     lacks_ltp resp' ->
     fetched = Ok (inl (false, error_dict "Option LTP not available", PInt 404)) /\
     answer = (false, error_dict "Option LTP not available", PInt 404)) /\
  (forall prices,
     fetched = Ok (inr prices) ->
     truthy (call_spot_price prices) = true /\ truthy (call_option_price prices) = true).
Proof.
  intros Hp spot_symbol spot_exchange key fetched answer.
  assert (forall r, fetched = Ok (inl r) -> answer = r) as Hans.
  { intros r H. subst answer. unfold get_option_greeks. fold fetched. by rewrite H. }
  assert (forall r, fetched = Ok (inl r) -> fetched = Ok (inl r) /\ answer = r) as Hboth
    by (intros r H; split; [exact H|by apply Hans]).
  clearbody answer. clear Hans.
  subst fetched. revert Hboth. unfold fetch_prices. cbn [bind]. rewrite Hp. cbn [bind].
  fold spot_symbol spot_exchange key. intros Hboth.
  split; [|split].
  - intros resp code Hq Hl. apply lacks_ltp_None in Hl. apply Hboth.
    rewrite Hq. cbn [bind negb].
    unfold ltp_of in Hl. destruct (get resp "data" (PDict [])) as [data|]; [|done].
    cbn [bind] in *. rewrite Hl. done.
  - intros resp code spot_price resp' code' Hq Hs Ht Hq' Hl. apply lacks_ltp_None in Hl.
    apply Hboth. rewrite Hq. cbn [bind negb].
    unfold ltp_of in Hs, Hl. destruct (get resp "data" (PDict [])) as [data|]; [|done].
    cbn [bind] in *. rewrite Hs. cbn [bind]. rewrite Ht. cbn [negb].
    rewrite Hq'. cbn [bind negb].
    destruct (get resp' "data" (PDict [])) as [data'|]; [|done].
    cbn [bind] in *. rewrite Hl. done.
  - intros prices. clear Hboth.
    destruct (get_quotes 0%nat _ _ _) as [[[success resp] code]|]; [|done]. cbn [bind].
    destruct success; cbn [negb].
    2:{ destruct (get resp "message" _); done. }
    destruct (get resp "data" _) as [data|]; [|done]. cbn [bind].
    destruct (get data "ltp" _) as [sp|]; [|done]. cbn [bind].
    destruct (truthy sp) eqn:Hsp; [|done]. cbn [negb].
    destruct (get_quotes 1%nat _ _ _) as [[[success' resp'] code']|]; [|done]. cbn [bind].
    destruct success'; cbn [negb].
    2:{ destruct (get resp' "message" _); done. }
    destruct (get resp' "data" _) as [data'|]; [|done]. cbn [bind].
    destruct (get data' "ltp" _) as [op|]; [|done]. cbn [bind].
    destruct (truthy op) eqn:Hop; [|done]. cbn [negb].
    intros [= <-]. done.
Qed.

(** C8 on NIFTY28NOV2424000CE, with a quote service that returns no
    [ltp] at all and with one that prices the underlying only. *)
Lemma missing_ltp_is_404_nifty :
  get_option_greeks (Some sample_mibian) (Ok quotes_without_ltp) sample_str_other
    (mk_datetime 2024 11 20 10 0 0 0) "NIFTY28NOV2424000CE" "NFO" PNone None None None None
  = (false, error_dict "Underlying LTP not available", PInt 404) /\
  get_option_greeks (Some sample_mibian) (Ok quotes_spot_only) sample_str_other
    (mk_datetime 2024 11 20 10 0 0 0) "NIFTY28NOV2424000CE" "NFO" PNone None None None None
  = (false, error_dict "Option LTP not available", PInt 404).
Proof.
  assert (parse_option_symbol "NIFTY28NOV2424000CE" "NFO" None
          = Ok ("NIFTY", mk_datetime 2024 11 28 15 30 0 0, 24000%Q, "CE")) as Hp
    by (vm_compute; reflexivity).
  assert (lacks_ltp (PDict [("status", PStr "success"); ("data", PDict [("volume", PInt 0)])]))
    as Hl by (eexists; split; [reflexivity|right; eexists; split; reflexivity]).
  split.
  - destruct (missing_ltp_is_404 (Some sample_mibian) quotes_without_ltp sample_str_other
                (mk_datetime 2024 11 20 10 0 0 0) _ _ PNone None None _ None _ _ _ _ Hp)
      as (H & _ & _).
    exact (proj2 (H _ (PInt 200) eq_refl Hl)).
  - destruct (missing_ltp_is_404 (Some sample_mibian) quotes_spot_only sample_str_other
                (mk_datetime 2024 11 20 10 0 0 0) _ _ PNone None None _ None _ _ _ _ Hp)
      as (_ & H & _).
    exact (proj2 (H _ (PInt 200) (PFloat 24150.5) _ (PInt 200) eq_refl eq_refl eq_refl
                    eq_refl Hl)).
Defined.

(** C8, as stated, fails: a response that reports success with [data] set
    to null has no [ltp], and the answer is the 500 of the general
    handler, not a 404. *)
Lemma null_data_is_answered_500 :
  quotes_null_data 0%nat "NIFTY" "NSE_INDEX" PNone
  = Ok (true, PDict [("status", PStr "success"); ("data", PNone)], PInt 200) /\
  get_option_greeks (Some sample_mibian) (Ok quotes_null_data) sample_str_other
    (mk_datetime 2024 11 20 10 0 0 0) "NIFTY28NOV2424000CE" "NFO" PNone None None None None
  = (false,
     error_dict "Failed to get option Greeks: 'NoneType' object has no attribute 'get'",
     PInt 500) /\
  get_option_greeks (Some sample_mibian) (Ok quotes_null_data) sample_str_other
    (mk_datetime 2024 11 20 10 0 0 0) "NIFTY28NOV2424000CE" "NFO" PNone None None None None
  <> (false, error_dict "Underlying LTP not available", PInt 404).
Proof. split; [reflexivity|]. split; by vm_compute. Qed.

(** ** The Kotak adapter *)

Lemma nonempty_list_inv v : nonempty_list v = true -> exists x l, v = PList (x :: l).
Proof.
  unfold nonempty_list. destruct v as [|?|?|?|?|[|x l]|?]; rewrite ?andb_false_r; try done.
  eauto.
Qed.

Lemma mapM_length {A B} (f : A -> result B) l l' :
  mapM f l = Ok l' -> length l' = length l.
Proof.
  revert l'. induction l as [|x l IH]; simpl; intros l'.
  - by intros [= <-].
  - intros H. apply bind_Ok in H as (y & _ & H). apply bind_Ok in H as (ys & Hys & H).
    injection H as <-. simpl. f_equal. auto.
Qed.

Lemma pad5_length l : (length l <= 5)%nat -> length (pad5 l) = 5%nat.
Proof. intros H. unfold pad5. rewrite length_app, repeat_length. lia. Qed.

Lemma pad5_parts n l :
  length l = Nat.min 5 n ->
  firstn n (pad5 l) = l /\ skipn n (pad5 l) = repeat zero_level (5 - n).
Proof.
  intros Hl. unfold pad5. rewrite firstn_app, skipn_app.
  destruct (le_lt_dec n 5) as [Hn|Hn].
  - assert (length l = n) as <- by lia.
    rewrite firstn_all, skipn_all, Nat.sub_diag. simpl. by rewrite app_nil_r.
  - assert (length l = 5%nat) as Hl5 by lia.
    rewrite firstn_all2, skipn_all2 by lia. rewrite Hl5.
    replace (5 - n)%nat with 0%nat by lia. simpl. rewrite firstn_nil, skipn_nil.
    by rewrite app_nil_r.
Qed.

Lemma level_of_reads entry l : level_of entry = Ok l <-> level_reads entry l.
Proof.
  unfold level_of, level_reads. split.
  - intros H. apply bind_Ok in H as (p & Hp & H). apply bind_Ok in Hp as (vp & Hvp & Hfp).
    apply bind_Ok in H as (q & Hq & H). apply bind_Ok in Hq as (vq & Hvq & Hiq).
    injection H as <-. simpl. eauto 8.
  - intros (vp & vq & Hvp & Hfp & Hvq & Hiq).
    rewrite Hvp. cbn [bind]. rewrite Hfp. cbn [bind]. rewrite Hvq. cbn [bind].
    rewrite Hiq. cbn [bind]. by destruct l.
Qed.

Lemma mapM_level_of entries ls :
  mapM level_of entries = Ok ls <-> Forall2 level_reads entries ls.
Proof.
  revert ls. induction entries as [|x entries IH]; intros ls; simpl; split.
  - intros [= <-]. constructor.
  - intros H. by inversion H.
  - intros H. apply bind_Ok in H as (y & Hy & H). apply bind_Ok in H as (ys & Hys & H).
    injection H as <-. constructor; [by apply level_of_reads|by apply IH].
  - intros H. inversion H as [|? y ? ys Hy Hys]; subst.
    apply level_of_reads in Hy. apply IH in Hys. rewrite Hy. cbn [bind]. by rewrite Hys.
Qed.

Lemma mapM_level_of_total entries :
  Forall (fun entry => exists l, level_reads entry l) entries ->
  exists ls, mapM level_of entries = Ok ls.
Proof.
  induction 1 as [|x entries [l Hl] _ [ls Hls]]; [by exists []|].
  exists (l :: ls). simpl. apply level_of_reads in Hl. rewrite Hl. cbn [bind]. by rewrite Hls.
Qed.

Lemma default_depth_ok : depth_ok _get_default_depth.
Proof. by repeat split. Qed.

Lemma default_quote_nonneg : quote_nonneg _get_default_quote.
Proof. repeat split; first [apply Qle_refl | done]. Qed.

Section AdapterFacts.

Context (json_loads : string -> result pyval).
Context (get_token get_brexchange : token_db).

Lemma request_empty_array (client : http_client) self query filter_name :
  (forall url headers, exists r,
     client url headers = Ok r /\ status_code r = 200 /\ json_loads (text r) = Ok (PList [])) ->
  _make_quotes_request client json_loads self query filter_name = PList [].
Proof.
  intros H. unfold _make_quotes_request.
  match goal with |- context [client ?u ?h] => destruct (H u h) as (r & -> & Hs & Hj) end.
  cbn [bind]. by rewrite Hs, Hj.
Qed.

Lemma request_not_200 (client : http_client) self query filter_name :
  (forall url headers, exists r, client url headers = Ok r /\ status_code r <> 200) ->
  _make_quotes_request client json_loads self query filter_name = PNone.
Proof.
  intros H. unfold _make_quotes_request.
  match goal with |- context [client ?u ?h] => destruct (H u h) as (r & -> & Hs) end.
  cbn [bind]. apply Z.eqb_neq in Hs. by rewrite Hs.
Qed.

Lemma get_quotes_no_data (client : http_client) self symbol exchange :
  (forall query, nonempty_list (_make_quotes_request client json_loads self query "all") = false) ->
  get_quotes client json_loads get_token get_brexchange self symbol exchange = _get_default_quote.
Proof.
  intros H. unfold get_quotes.
  destruct (build_query _ _ _ _) as [[query|]|]; cbn [bind]; [|done|done].
  by rewrite H.
Qed.

(** C5: for every symbol and exchange, a client that answers 200 with an
    empty JSON array and a client that answers with another status give
    the same quote, the default one with every field zero. *)
Theorem quote_failures_are_indistinguishable (client_empty client_error : http_client)
    self symbol exchange :
  (forall url headers, exists r,
     client_empty url headers = Ok r /\ status_code r = 200 /\
     json_loads (text r) = Ok (PList [])) ->
  (forall url headers, exists r,
     client_error url headers = Ok r /\ status_code r <> 200) ->
  get_quotes client_empty json_loads get_token get_brexchange self symbol exchange
  = get_quotes client_error json_loads get_token get_brexchange self symbol exchange /\
  get_quotes client_empty json_loads get_token get_brexchange self symbol exchange
  = {| bid := 0; ask := 0; open := 0; high := 0; low := 0; ltp := 0;
       prev_close := 0; volume := 0; oi := 0 |}.
Proof.
  intros He Hr.
  rewrite !get_quotes_no_data; [done| |].
  - intros query. by rewrite request_not_200.
  - intros query. by rewrite request_empty_array.
Qed.

Lemma levels_of_length data l : levels_of data = Ok l -> (length l <= 5)%nat.
Proof.
  unfold levels_of. destruct data; try (intros [= <-]; simpl; lia).
  intros H. apply mapM_length in H. rewrite H, length_firstn. lia.
Qed.

(** C6: the depth record always has five bids and five asks, and its two
    totals are the sums of the quantities of these entries. When the
    vendor record carries lists of levels whose first five prices and
    quantities [float()] and [int()] read, the bids (asks) are these
    levels, five of them at most, in the order of the list, followed by
    entries of price 0 and quantity 0 up to five. *)
Theorem depth_has_five_levels (client : http_client) self symbol exchange :
  let d := get_depth client json_loads get_token get_brexchange self symbol exchange in
  (length (bids d) = 5%nat /\ length (asks d) = 5%nat /\
   totalbuyqty d = fold_right Z.add 0 (map quantity (bids d)) /\
   totalsellqty d = fold_right Z.add 0 (map quantity (asks d))) /\
  (forall query quote rest depth_data buy sell,
     build_query get_token get_brexchange symbol exchange = Ok (Some query) ->
     _make_quotes_request client json_loads self query "depth" = PList (PDict quote :: rest) ->
     dict_lookup quote "depth" = Some (PDict depth_data) ->
     dict_lookup depth_data "buy" = Some (PList buy) ->
     dict_lookup depth_data "sell" = Some (PList sell) ->
     Forall (fun entry => exists l, level_reads entry l) (firstn 5 buy ++ firstn 5 sell) ->
     Forall2 level_reads (firstn 5 buy) (firstn (length buy) (bids d)) /\
     skipn (length buy) (bids d)
     = repeat {| price := 0; quantity := 0 |} (5 - length buy) /\
     Forall2 level_reads (firstn 5 sell) (firstn (length sell) (asks d)) /\
     skipn (length sell) (asks d)
     = repeat {| price := 0; quantity := 0 |} (5 - length sell)).
Proof.
  intros d. split.
  - subst d. unfold get_depth.
    destruct (build_query _ _ _ _) as [[query|]|]; cbn [bind]; try apply default_depth_ok.
    destruct (nonempty_list _); [|apply default_depth_ok].
    destruct (item0 _) as [tq|]; cbn [bind]; [|apply default_depth_ok].
    destruct (get tq "depth" _) as [dd|]; cbn [bind]; [|apply default_depth_ok].
    destruct (get dd "buy" _) as [bd|]; cbn [bind]; [|apply default_depth_ok].
    destruct (levels_of bd) as [bl|] eqn:Hb; cbn [bind]; [|apply default_depth_ok].
    destruct (get dd "sell" _) as [sd|]; cbn [bind]; [|apply default_depth_ok].
    destruct (levels_of sd) as [sl|] eqn:Hs; cbn [bind]; [|apply default_depth_ok].
    apply levels_of_length in Hb, Hs. cbn [bids asks totalbuyqty totalsellqty].
    rewrite !pad5_length by done. done.
  - intros query quote rest depth_data buy sell Hq Hr Hd Hb Hs Hall.
    apply Forall_app in Hall as [Hbuy Hsell].
    destruct (mapM_level_of_total _ Hbuy) as (bl & Hbl).
    destruct (mapM_level_of_total _ Hsell) as (sl & Hsl).
    subst d. unfold get_depth. rewrite Hq. cbn [bind]. rewrite Hr.
    cbn [nonempty_list truthy length Nat.ltb Nat.leb andb item0 bind get].
    rewrite Hd. cbn [from_option id bind get]. rewrite Hb. cbn [from_option id bind levels_of].
    rewrite Hbl. cbn [bind]. rewrite Hs. cbn [from_option id bind levels_of]. rewrite Hsl.
    cbn [bind bids asks].
    pose proof (proj1 (mapM_level_of _ _) Hbl) as Hbl2.
    pose proof (proj1 (mapM_level_of _ _) Hsl) as Hsl2.
    apply mapM_length in Hbl, Hsl. rewrite length_firstn in Hbl, Hsl.
    destruct (pad5_parts (length buy) bl Hbl) as [-> ->].
    destruct (pad5_parts (length sell) sl Hsl) as [-> ->]. done.
Qed.

Lemma field_nonneg d key x :
  (forall v, get d key (PInt 0) = Ok v -> nonneg v) -> field d key = Ok x -> (0 <= x)%Q.
Proof.
  intros H Hf. unfold field in Hf. apply bind_Ok in Hf as (v & Hv & Hx).
  destruct (H v Hv) as [Hfl _]. by apply Hfl.
Qed.

(** C7, as amended: every quote record has non-negative values in bid,
    ask, open, high, low, ltp, prev_close, volume and oi, for every vendor
    payload whose values for the fields read (total_buy, total_sell, ltp,
    last_volume, open_int and ohlc.open, high, low, close) are not
    negative. *)
Theorem quote_nonneg_for_nonneg_payload (client : http_client) self symbol exchange :
  (forall query quote_data rest,
     build_query get_token get_brexchange symbol exchange = Ok (Some query) ->
     _make_quotes_request client json_loads self query "all" = PList (quote_data :: rest) ->
     payload_nonneg quote_data) ->
  quote_nonneg (get_quotes client json_loads get_token get_brexchange self symbol exchange).
Proof.
  intros H. unfold get_quotes.
  destruct (build_query _ _ _ _) as [[query|]|] eqn:Hq; cbn [bind];
    try apply default_quote_nonneg.
  destruct (nonempty_list _) eqn:Hn; [|apply default_quote_nonneg].
  apply nonempty_list_inv in Hn as (qd & rest & Hr).
  destruct (H query qd rest eq_refl Hr) as [Hq1 Hq2]. rewrite Hr.
  cbn [item0 bind].
  destruct (get qd "display_symbol" PNone); cbn [bind]; [|apply default_quote_nonneg].
  destruct (get qd "ohlc" (PDict [])) as [ohlc|] eqn:Ho; cbn [bind];
    [|apply default_quote_nonneg].
  repeat match goal with
  | |- context [bind (field ?d ?k) _] =>
      let E := fresh "E" in destruct (field d k) eqn:E; cbn [bind];
      [|apply default_quote_nonneg]
  end.
  destruct (bind (get qd "open_int" (PInt 0)) _) as [oi_|] eqn:Eoi; cbn [bind];
    [|apply default_quote_nonneg].
  apply bind_Ok in Eoi as (v & Hv & Hi).
  unfold quote_nonneg. cbn [bid ask open high low ltp prev_close volume oi].
  repeat split;
    try (eapply field_nonneg; [|eassumption]; intros;
         first [eapply Hq1; [|eassumption] | eapply (Hq2 ohlc); [done| |eassumption]];
         simpl; tauto).
  eapply (Hq1 "open_int" v); [simpl; tauto|done|done].
Qed.

End AdapterFacts.

(** C5 on INFY of NSE: an empty array and an HTTP 500 give the same
    record. *)
Lemma quote_failures_are_indistinguishable_infy :
  get_quotes client_empty_array sample_json_loads sample_db sample_brexchange
    sample_broker "INFY" "NSE"
  = get_quotes client_http_500 sample_json_loads sample_db sample_brexchange
      sample_broker "INFY" "NSE" /\
  get_quotes client_empty_array sample_json_loads sample_db sample_brexchange
    sample_broker "INFY" "NSE" = _get_default_quote.
Proof.
  apply (quote_failures_are_indistinguishable sample_json_loads sample_db sample_brexchange
           client_empty_array client_http_500 sample_broker "INFY" "NSE").
  - intros url headers. eexists. repeat split.
  - intros url headers. eexists. split; [reflexivity|]. simpl. lia.
Defined.

(** C6 on a record with three bids and six asks. *)
Example depth_of_three_bids_and_six_asks :
  get_depth (client_body "three bids") sample_json_loads sample_db sample_brexchange
    sample_broker "INFY" "NSE"
  = {| bids := [ {| price := Qred 100.5; quantity := 10 |};
                 {| price := Qred 100.4; quantity := 20 |};
                 {| price := Qred 100.3; quantity := 30 |};
                 zero_level; zero_level ];
       asks := [ {| price := 101; quantity := 1 |}; {| price := 102; quantity := 2 |};
                 {| price := 103; quantity := 3 |}; {| price := 104; quantity := 4 |};
                 {| price := 105; quantity := 5 |} ];
       totalbuyqty := 60; totalsellqty := 15 |}.
Proof. by vm_compute. Qed.

(** C7, as stated, fails: a vendor record whose [ltp] is -5 gives a quote
    whose [ltp] is -5. *)
Lemma negative_ltp_passes_through :
  ltp (get_quotes (client_body "negative ltp") sample_json_loads sample_db sample_brexchange
         sample_broker "NIFTY" "NSE_INDEX") = (-5)%Q /\
  ~ quote_nonneg
      (get_quotes (client_body "negative ltp") sample_json_loads sample_db sample_brexchange
         sample_broker "NIFTY" "NSE_INDEX").
Proof.
  split; [by vm_compute|].
  intros (_ & _ & _ & _ & _ & H & _). revert H. by vm_compute.
Qed.

(** C7, as amended, on a record of INFY with no negative value. *)
Lemma quote_nonneg_for_nonneg_payload_infy :
  quote_nonneg
    (get_quotes (client_body "quote") sample_json_loads sample_db sample_brexchange
       sample_broker "INFY" "NSE").
Proof.
  apply (quote_nonneg_for_nonneg_payload sample_json_loads sample_db sample_brexchange
           (client_body "quote") sample_broker "INFY" "NSE").
  intros query quote_data rest _ Hr.
  unfold _make_quotes_request, client_body in Hr. cbn [bind status_code text Z.eqb] in Hr.
  vm_compute in Hr. injection Hr as <- <-.
  split.
  - intros key v Hin Hget. simpl in Hin.
    repeat (destruct Hin as [<-|Hin];
            [vm_compute in Hget; injection Hget as <-;
             split; intros ? Hx; vm_compute in Hx;
             first [discriminate | injection Hx as <-; by vm_compute]|]).
    destruct Hin.
  - intros ohlc key v Ho Hin Hget. vm_compute in Ho. injection Ho as <-. simpl in Hin.
    repeat (destruct Hin as [<-|Hin];
            [vm_compute in Hget; injection Hget as <-;
             split; intros ? Hx; vm_compute in Hx;
             first [discriminate | injection Hx as <-; by vm_compute]|]).
    destruct Hin.
Defined.

(** ** Further properties of the Greeks service *)

Lemma default_rate_zero exchange : default 0 (DEFAULT_INTEREST_RATES !! exchange) = 0.
Proof.
  destruct (DEFAULT_INTEREST_RATES !! exchange) as [r|] eqn:H; [|done].
  unfold DEFAULT_INTEREST_RATES in H. apply elem_of_list_to_map_2 in H.
  repeat (apply elem_of_cons in H as [[= -> ->]|H]; [done|]).
  by apply elem_of_nil in H.
Qed.

Lemma Qle_bool_false a b : Qle_bool a b = false <-> (b < a)%Q.
Proof.
  rewrite <- not_true_iff_false, Qle_bool_iff. split.
  - apply Qnot_le_lt.
  - apply Qlt_not_le.
Qed.

Lemma greeks_failure_status e :
  success_of (greeks_failure e) = false /\
  (status_of (greeks_failure e) = PInt 400 \/ status_of (greeks_failure e) = PInt 500) /\
  exists msg, body_of (greeks_failure e) = error_dict msg.
Proof. unfold greeks_failure. destruct (exn_cls e); simpl; eauto. Qed.

Lemma price_greeks_status mib symbol exchange b e strike ty t spot price rate r :
  price_greeks mib symbol exchange b e strike ty t spot price rate = Ok r ->
  (success_of r = true /\ status_of r = PInt 200) \/
  (success_of r = false /\ (status_of r = PInt 400 \/ status_of r = PInt 500) /\
   exists msg, body_of r = error_dict msg).
Proof.
  unfold price_greeks.
  destruct (float_operand _) as [ra|x]; cbn [bind]; [|done].
  destruct (operand "<=" spot) as [s|x]; cbn [bind]; [|done].
  destruct (Qle_bool s 0); [intros [= <-]; simpl; eauto 6|].
  destruct (operand "<=" price) as [p|x]; cbn [bind]; [|done].
  destruct (Qle_bool p 0); [intros [= <-]; simpl; eauto 6|].
  destruct (Qle_bool strike 0); [intros [= <-]; simpl; eauto 6|].
  destruct (bind (of_option mib _) _) as [iv|x]; [|intros [= <-]; simpl; eauto 6].
  destruct (bind (of_option mib _) _) as [[[[[delta theta] rho] gam] veg]|x];
    intros [= <-]; simpl; eauto 6.
Qed.

Lemma calculate_greeks_cases mib now symbol exchange spot_price option_price
    interest_rate expiry_time api_key :
  let r := calculate_greeks mib now symbol exchange spot_price option_price interest_rate
             expiry_time api_key in
  (success_of r = true /\ status_of r = PInt 200) \/
  (success_of r = false /\ (status_of r = PInt 400 \/ status_of r = PInt 500) /\
   exists msg, body_of r = error_dict msg).
Proof.
  intros r. subst r. unfold calculate_greeks, check_mibian_availability.
  destruct (negb (MIBIAN_AVAILABLE mib)); cbn [negb].
  { right. simpl. eauto 6. }
  destruct (parse_option_symbol _ _ _) as [[[[b e] k] ty]|x]; cbn [bind].
  2:{ right. apply greeks_failure_status. }
  destruct (Qle_bool _ 0).
  { right. simpl. eauto 6. }
  destruct (price_greeks _ _ _ _ _ _ _ _ _ _ _) as [r|x] eqn:Hp.
  - by apply price_greeks_status in Hp.
  - right. apply greeks_failure_status.
Qed.

(** X1: whatever its arguments and whether or not the pricing backend is
    there, [calculate_greeks] answers with status 200, 400 or 500; the
    success flag is set exactly with status 200, and every failure
    carries an error dict with a message. *)
Theorem calculate_greeks_statuses mib now symbol exchange spot_price option_price
    interest_rate expiry_time api_key :
  let r := calculate_greeks mib now symbol exchange spot_price option_price interest_rate
             expiry_time api_key in
  (status_of r = PInt 200 \/ status_of r = PInt 400 \/ status_of r = PInt 500) /\
  (success_of r = true <-> status_of r = PInt 200) /\
  (success_of r = false -> exists msg, body_of r = error_dict msg).
Proof.
  intros r.
  destruct (calculate_greeks_cases mib now symbol exchange spot_price option_price
              interest_rate expiry_time api_key) as [[Hs Hc]|(Hs & Hc & Hm)]; fold r in Hs, Hc.
  - rewrite Hs, Hc. split; [auto|]. split; [done|]. done.
  - fold r in Hm. rewrite Hs. split; [tauto|]. split; [|auto].
    split; [done|]. intros H200. destruct Hc as [Hc|Hc]; rewrite Hc in H200; done.
Qed.

(** X2: whatever the quote service returns or raises, [get_option_greeks]
    sets the success flag only together with status 200, and every
    failure carries an error dict with a message. *)
Theorem get_option_greeks_coherent mib imp so now symbol exchange interest_rate
    us ue expiry_time api_key :
  let r := get_option_greeks mib imp so now symbol exchange interest_rate us ue
             expiry_time api_key in
  (success_of r = true -> status_of r = PInt 200) /\
  (success_of r = false -> exists msg, body_of r = error_dict msg).
Proof.
  intros r. subst r. unfold get_option_greeks.
  destruct (fetch_prices _ _ _ _ _ _ _ _) as [[early|prices]|x] eqn:Hf.
  - revert Hf. unfold fetch_prices.
    destruct imp as [gq|x]; cbn [bind]; [|done].
    destruct (parse_option_symbol _ _ _) as [[[[b e] k] ty]|x]; cbn [bind]; [|done].
    destruct (gq 0%nat _ _ _) as [[[ok resp] code]|x] eqn:Hq; cbn [bind]; [|done].
    destruct ok; cbn [negb].
    2:{ destruct (get resp "message" _); cbn [bind]; [|done]. intros [= <-]. simpl.
        split; [done|eauto]. }
    destruct (get resp "data" _) as [data|]; cbn [bind]; [|done].
    destruct (get data "ltp" _) as [sp|]; cbn [bind]; [|done].
    destruct (truthy sp); cbn [negb]; [|intros [= <-]; simpl; split; [done|eauto]].
    destruct (gq 1%nat _ _ _) as [[[ok' resp'] code']|x] eqn:Hq'; cbn [bind]; [|done].
    destruct ok'; cbn [negb].
    2:{ destruct (get resp' "message" _); cbn [bind]; [|done]. intros [= <-]. simpl.
        split; [done|eauto]. }
    destruct (get resp' "data" _) as [data'|]; cbn [bind]; [|done].
    destruct (get data' "ltp" _) as [op|]; cbn [bind]; [|done].
    destruct (truthy op); cbn [negb]; [done|intros [= <-]; simpl; split; [done|eauto]].
  - destruct (calculate_greeks_cases mib now symbol exchange (call_spot_price prices)
                (call_option_price prices) interest_rate expiry_time api_key)
      as [[Hs Hc]|(Hs & Hc & Hm)].
    + split; [done|]. intros H. rewrite H in Hs. done.
    + split; [|done]. intros H. rewrite H in Hs. done.
  - simpl. split; [done|eauto].
Qed.

(** X3: without the pricing backend [calculate_greeks] answers 500 before
    it looks at the ticker; with the backend, a ticker that does not parse
    is answered with status 400 and the message "Failed to parse option
    symbol <symbol>: <cause>". *)
Theorem calculate_greeks_early_errors now symbol exchange spot_price option_price
    interest_rate expiry_time api_key :
  calculate_greeks None now symbol exchange spot_price option_price interest_rate
    expiry_time api_key
  = (false,
     error_dict "Option Greeks calculation requires mibian library. Install with: pip install mibian",
     PInt 500) /\
  (forall m,
     is_Ok (parse_option_symbol symbol exchange expiry_time) = false ->
     exists cause,
       calculate_greeks (Some m) now symbol exchange spot_price option_price interest_rate
         expiry_time api_key
       = (false, error_dict ("Failed to parse option symbol " +:+ symbol +:+ ": " +:+ cause),
          PInt 400)).
Proof.
  split; [done|].
  intros m Hp. unfold calculate_greeks.
  cbn [check_mibian_availability MIBIAN_AVAILABLE negb].
  revert Hp. unfold parse_option_symbol.
  match goal with |- context [try_except ?b _] => destruct b as [r|x] end; [done|].
  intros _. cbn [try_except bind]. unfold greeks_failure. simpl. eauto.
Qed.

(** X4: [get_option_greeks] answers a ticker that does not parse with
    status 500 (not the 400 of [calculate_greeks]) and the message "Failed
    to get option Greeks: Failed to parse option symbol <symbol>: <cause>",
    and the answer does not depend on the quote service: no quote is
    requested. *)
Theorem get_option_greeks_unparseable mib (get_quotes get_quotes' : quotes_fn) so now symbol
    exchange interest_rate us ue expiry_time api_key :
  is_Ok (parse_option_symbol symbol exchange expiry_time) = false ->
  (exists cause,
     get_option_greeks mib (Ok get_quotes) so now symbol exchange interest_rate us ue
       expiry_time api_key
     = (false,
        error_dict ("Failed to get option Greeks: Failed to parse option symbol "
                    +:+ symbol +:+ ": " +:+ cause),
        PInt 500)) /\
  get_option_greeks mib (Ok get_quotes) so now symbol exchange interest_rate us ue
    expiry_time api_key
  = get_option_greeks mib (Ok get_quotes') so now symbol exchange interest_rate us ue
      expiry_time api_key.
Proof.
  intros Hp. unfold get_option_greeks, fetch_prices. cbn [bind].
  revert Hp. unfold parse_option_symbol.
  match goal with |- context [try_except ?b _] => destruct b as [r|x] end; [done|].
  intros _. cbn [try_except bind]. simpl. eauto.
Qed.

(** X4 on the ticker XYZ. *)
Lemma get_option_greeks_unparseable_xyz :
  get_option_greeks (Some sample_mibian) (Ok quotes_priced) sample_str_other
    (mk_datetime 2024 11 20 10 0 0 0) "XYZ" "NFO" PNone None None None None
  = (false,
     error_dict ("Failed to get option Greeks: Failed to parse option symbol XYZ: "
                 +:+ "Invalid option symbol format: XYZ"),
     PInt 500) /\
  get_option_greeks (Some sample_mibian) (Ok quotes_priced) sample_str_other
    (mk_datetime 2024 11 20 10 0 0 0) "XYZ" "NFO" PNone None None None None
  = get_option_greeks (Some sample_mibian) (Ok quotes_refused) sample_str_other
      (mk_datetime 2024 11 20 10 0 0 0) "XYZ" "NFO" PNone None None None None.
Proof.
  split; [by vm_compute|].
  apply (get_option_greeks_unparseable (Some sample_mibian) quotes_priced quotes_refused).
  by vm_compute.
Defined.


(** X6: leaving the interest rate out is the same as passing 0, on every
    exchange, known or not. *)
Theorem omitted_interest_rate_is_zero mib now symbol exchange spot_price option_price
    expiry_time api_key :
  calculate_greeks mib now symbol exchange spot_price option_price PNone expiry_time api_key
  = calculate_greeks mib now symbol exchange spot_price option_price (PInt 0) expiry_time
      api_key.
Proof.
  unfold calculate_greeks, price_greeks. by rewrite default_rate_zero.
Qed.

(** X7: for a ticker that parses and has not expired, and a rate that is a
    number with a float: a spot price that is not positive is answered 400 "Spot price
    and option price must be positive" whatever the option price is, even
    no number at all; so is an option price that is not positive; a strike
    that is not positive is answered 400 "Strike price must be positive";
    a price that is not a number where it is compared is answered 500. *)
Theorem price_validation (m : Mibian) now symbol exchange spot_price option_price
    interest_rate expiry_time api_key b e strike ty rate :
  parse_option_symbol symbol exchange expiry_time = Ok (b, e, strike, ty) ->
  Datetime.lt e now = false ->
  float_operand (effective_rate exchange interest_rate) = Ok rate ->
  let answer := calculate_greeks (Some m) now symbol exchange spot_price option_price
                  interest_rate expiry_time api_key in
  (forall spot, number spot_price = Some spot -> (spot <= 0)%Q ->
     answer = invalid_price_response) /\
  (forall spot price, number spot_price = Some spot -> (0 < spot)%Q ->
     number option_price = Some price -> (price <= 0)%Q ->
     answer = invalid_price_response) /\
  (forall spot price, number spot_price = Some spot -> (0 < spot)%Q ->
     number option_price = Some price -> (0 < price)%Q -> (strike <= 0)%Q ->
     answer = (false, error_dict "Strike price must be positive", PInt 400)) /\
  (number spot_price = None -> server_error answer) /\
  (forall spot, number spot_price = Some spot -> (0 < spot)%Q ->
     number option_price = None -> server_error answer).
Proof.
  intros Hp Hlt Hr answer. subst answer.
  rewrite (calculate_greeks_parsed _ _ _ _ _ _ _ _ _ _ _ _ _ Hp), Hlt.
  unfold price_greeks. fold (effective_rate exchange interest_rate).
  unfold operand. rewrite Hr. cbn [of_option bind].
  split; [|split; [|split; [|split]]].
  - intros spot -> Hs. cbn [of_option bind]. apply Qle_bool_iff in Hs. by rewrite Hs.
  - intros spot price -> Hs -> Hpr. cbn [of_option bind].
    apply Qle_bool_false in Hs. apply Qle_bool_iff in Hpr. by rewrite Hs, Hpr.
  - intros spot price -> Hs -> Hpr Hk. cbn [of_option bind].
    apply Qle_bool_false in Hs, Hpr. apply Qle_bool_iff in Hk. by rewrite Hs, Hpr, Hk.
  - intros ->. done.
  - intros spot -> Hs ->. cbn [of_option bind]. apply Qle_bool_false in Hs. by rewrite Hs.
Qed.

(** X7 on NIFTY28NOV240CE, whose strike is 0, eight days before expiry:
    a spot price of 0 with an option price that is a string, a string as
    spot price, and two good prices. *)
Lemma price_validation_strike_zero :
  calculate_greeks (Some sample_mibian) (mk_datetime 2024 11 20 10 0 0 0)
    "NIFTY28NOV240CE" "NFO" (PInt 0) (PStr "120") PNone None None
  = invalid_price_response /\
  server_error
    (calculate_greeks (Some sample_mibian) (mk_datetime 2024 11 20 10 0 0 0)
       "NIFTY28NOV240CE" "NFO" (PStr "24150.5") (PFloat 120) PNone None None) /\
  calculate_greeks (Some sample_mibian) (mk_datetime 2024 11 20 10 0 0 0)
    "NIFTY28NOV240CE" "NFO" (PFloat 24150.5) (PFloat 120) PNone None None
  = (false, error_dict "Strike price must be positive", PInt 400).
Proof.
  assert (parse_option_symbol "NIFTY28NOV240CE" "NFO" None
          = Ok ("NIFTY", mk_datetime 2024 11 28 15 30 0 0, 0%Q, "CE")) as Hp
    by (vm_compute; reflexivity).
  assert (Datetime.lt (mk_datetime 2024 11 28 15 30 0 0) (mk_datetime 2024 11 20 10 0 0 0)
          = false) as Hlt by (vm_compute; reflexivity).
  assert (float_operand (effective_rate "NFO" PNone) = Ok 0%Q) as Hr
    by (vm_compute; reflexivity).
  split; [|split].
  - destruct (price_validation sample_mibian _ _ _ (PInt 0) (PStr "120") PNone _ None
                _ _ _ _ _ Hp Hlt Hr) as (H & _).
    apply (H 0%Q); [reflexivity|by vm_compute].
  - destruct (price_validation sample_mibian _ _ _ (PStr "24150.5") (PFloat 120) PNone _ None
                _ _ _ _ _ Hp Hlt Hr) as (_ & _ & _ & H & _).
    by apply H.
  - destruct (price_validation sample_mibian _ _ _ (PFloat 24150.5) (PFloat 120) PNone _ None
                _ _ _ _ _ Hp Hlt Hr) as (_ & _ & H & _).
    apply (H 24150.5%Q 120%Q); by vm_compute.
Defined.

Lemma time_to_expiry_cases expiry now :
  valid expiry = true -> valid now = true ->
  let d := Datetime.sub expiry now in
  (d < 0 /\ calculate_time_to_expiry expiry now = 0%Q) \/
  (0 <= d <= 864000000 /\ calculate_time_to_expiry expiry now = 0.01%Q) \/
  (864000000 < d /\ Qeq (calculate_time_to_expiry expiry now) (d # 86400000000)).
Proof.
  intros He Hn d. subst d.
  destruct (Datetime.lt expiry now) eqn:Hlt.
  - left. split; [|by apply time_to_expiry_past].
    apply lt_total_us in Hlt; [|done..]. rewrite sub_total_us. lia.
  - assert (0 <= Datetime.sub expiry now) as Hd.
    { apply not_true_iff_false in Hlt. rewrite lt_total_us in Hlt by done.
      rewrite sub_total_us. lia. }
    right. destruct (Z_le_gt_dec (Datetime.sub expiry now) 864000000) as [Hle|Hgt].
    + left. split; [lia|]. by apply time_to_expiry_floor.
    + right. split; [lia|]. unfold calculate_time_to_expiry. rewrite Hlt, days_below_floor.
      assert ((Datetime.sub expiry now <? 864000000) = false) as -> by (apply Z.ltb_ge; lia).
      unfold truediv, total_seconds. rewrite Qred_correct, Qred_correct.
      change (60 * 60 * 24) with 86400.
      unfold Qeq, Qdiv, Qmult, Qinv. cbn -[Z.mul]. lia.
Qed.

(** X25: an interest rate that is an integer beyond the range of the
    floats (2^1024 - 2^970 or more in absolute value) is answered 500 with
    the text of the OverflowError of [interest_rate / 100.0], for a ticker
    that parses and has not expired, before the prices are looked at. *)
Theorem huge_rate_is_a_server_error (m : Mibian) now symbol exchange spot_price option_price
    z expiry_time api_key b e strike ty :
  parse_option_symbol symbol exchange expiry_time = Ok (b, e, strike, ty) ->
  Datetime.lt e now = false ->
  2 ^ 1024 - 2 ^ 970 <= Z.abs z ->
  calculate_greeks (Some m) now symbol exchange spot_price option_price (PInt z)
    expiry_time api_key
  = (false,
     error_dict "Failed to calculate option Greeks: int too large to convert to float",
     PInt 500).
Proof.
  intros Hp Hlt Hz.
  rewrite (calculate_greeks_parsed _ _ _ _ _ _ _ _ _ _ _ _ _ Hp), Hlt.
  unfold price_greeks. cbn [float_operand]. unfold float_of_int.
  apply Z.ltb_ge in Hz. rewrite Hz. done.
Qed.

(** X25 on a rate of 10^400 with a spot price of 0. *)
Lemma huge_rate_is_a_server_error_sample :
  calculate_greeks (Some sample_mibian) (mk_datetime 2024 11 20 10 0 0 0)
    "NIFTY28NOV2424000CE" "NFO" (PInt 0) (PFloat 120) (PInt (10 ^ 400)) None None
  = (false,
     error_dict "Failed to calculate option Greeks: int too large to convert to float",
     PInt 500).
Proof.
  apply (huge_rate_is_a_server_error sample_mibian _ _ _ _ _ _ _ _
           "NIFTY" (mk_datetime 2024 11 28 15 30 0 0) 24000%Q "CE");
    [by vm_compute | by vm_compute | by vm_compute].
Defined.

(** X8: the time to expiry never grows as time passes: at a later current
    time it is the same or smaller.  It is 0.0, or 0.01, or more, and it
    is more than 0.01 exactly when more than 864 seconds remain.  These
    are comparisons, which the rounding of the floats leaves as they
    are. *)
Theorem time_to_expiry_never_grows expiry now now' :
  valid expiry = true -> valid now = true -> valid now' = true ->
  Datetime.lt now' now = false ->
  Qle (calculate_time_to_expiry expiry now') (calculate_time_to_expiry expiry now) /\
  (calculate_time_to_expiry expiry now = 0%Q \/
   Qle 0.01 (calculate_time_to_expiry expiry now)) /\
  (Qlt 0.01 (calculate_time_to_expiry expiry now) <->
   864000000 < Datetime.sub expiry now).
Proof.
  intros He Hn Hn' Hlater.
  assert (Datetime.sub expiry now' <= Datetime.sub expiry now) as Hsub.
  { apply not_true_iff_false in Hlater. rewrite lt_total_us in Hlater by done.
    rewrite !sub_total_us. lia. }
  assert (forall q, Qeq q 0 \/ Qeq q 0.01 -> (Qlt 0.01 q <-> 864000000 < 0)) as Hlow.
  { intros q [Hq|Hq]; rewrite Hq; split; try lia; unfold Qlt; simpl; lia. }
  assert (forall d, 864000000 < d -> Qlt 0.01 (d # 86400000000)) as Hhigh
    by (intros d Hd; unfold Qlt; simpl; lia).
  destruct (time_to_expiry_cases expiry now He Hn) as [[Hd Ht]|[[Hd Ht]|[Hd Ht]]];
    destruct (time_to_expiry_cases expiry now' He Hn') as [[Hd' Ht']|[[Hd' Ht']|[Hd' Ht']]];
    try (exfalso; clear Ht Ht' Hlow Hhigh; lia).
  - rewrite Ht, Ht'. split; [apply Qle_refl|]. split; [by left|].
    rewrite (Hlow 0%Q) by (left; reflexivity). lia.
  - rewrite Ht, Ht'. split; [unfold Qle; simpl; lia|]. split; [right; apply Qle_refl|].
    rewrite (Hlow 0.01%Q) by (right; reflexivity). lia.
  - rewrite Ht, Ht'. split; [apply Qle_refl|]. split; [right; apply Qle_refl|].
    rewrite (Hlow 0.01%Q) by (right; reflexivity). lia.
  - pose proof (Hhigh _ Hd) as Hgt. rewrite <- Ht in Hgt. rewrite Ht'.
    split; [apply Qlt_le_weak; eapply Qle_lt_trans; [|exact Hgt]; unfold Qle; simpl; lia|].
    split; [right; by apply Qlt_le_weak|]. done.
  - pose proof (Hhigh _ Hd) as Hgt. rewrite <- Ht in Hgt. rewrite Ht'.
    split; [by apply Qlt_le_weak|]. split; [right; by apply Qlt_le_weak|]. done.
  - pose proof (Hhigh _ Hd) as Hgt. rewrite <- Ht in Hgt.
    split; [rewrite Ht, Ht'; unfold Qle; simpl; lia|].
    split; [right; by apply Qlt_le_weak|]. done.
Qed.

(** X8 a day and a half before the expiry and ten minutes before it. *)
Lemma time_to_expiry_never_grows_sample :
  Qle (calculate_time_to_expiry (mk_datetime 2024 11 28 15 30 0 0)
         (mk_datetime 2024 11 28 15 20 0 0))
      (calculate_time_to_expiry (mk_datetime 2024 11 28 15 30 0 0)
         (mk_datetime 2024 11 27 3 30 0 0)) /\
  Qlt 0.01 (calculate_time_to_expiry (mk_datetime 2024 11 28 15 30 0 0)
              (mk_datetime 2024 11 27 3 30 0 0)).
Proof.
  destruct (time_to_expiry_never_grows (mk_datetime 2024 11 28 15 30 0 0)
              (mk_datetime 2024 11 27 3 30 0 0) (mk_datetime 2024 11 28 15 20 0 0))
    as (H1 & _ & H3); [reflexivity..|].
  split; [exact H1|]. apply H3. by vm_compute.
Defined.

(** ** Further properties of the symbol parser *)

Lemma Z_of_digits_from_nonneg ds a :
  0 <= a -> Forall (fun d => 0 <= d) ds -> 0 <= fold_left (fun a d => 10 * a + d) ds a.
Proof.
  revert a. induction ds as [|d ds IH]; simpl; intros a Ha Hds; [done|].
  inversion Hds; subst. apply IH; [lia|done].
Qed.

Lemma digits_of_nonneg s : all_chars is_digit s = true -> Forall (fun d => 0 <= d) (digits_of s).
Proof.
  induction s as [|c t IH]; simpl; intros H; [constructor|].
  apply andb_true_iff in H as [Hc Ht]. constructor; [|auto].
  apply digit_val_range in Hc. lia.
Qed.

Lemma scale10_nonneg m e : 0 <= m -> (0 <= scale10 m e)%Q.
Proof.
  intros Hm. unfold scale10. destruct (0 <=? e) eqn:He.
  - apply Z.leb_le in He. unfold Qle. simpl.
    assert (0 <= 10 ^ e) by (apply Z.pow_nonneg; lia). nia.
  - rewrite Qred_correct. unfold Qle. simpl. lia.
Qed.

Lemma unsigned_float_nonneg s q :
  all_chars is_digit_or_dot s = true -> unsigned_float s = Some q -> (0 <= q)%Q.
Proof.
  intros Hs. unfold unsigned_float. rewrite no_exponent by done.
  change (fun c => Ascii.eqb c ".") with is_dot.
  assert (forall ip fp, all_chars is_digit ip = true -> all_chars is_digit fp = true ->
            match digits_of ip ++ digits_of fp with
            | [] => None
            | ds => Some (scale10 (Z_of_digits ds) (0 - Z.of_nat (length (digits_of fp))))
            end = Some q -> (0 <= q)%Q) as Hval.
  { intros ip fp Hi Hf. destruct (digits_of ip ++ digits_of fp) eqn:E; [done|].
    intros [= <-]. apply scale10_nonneg. rewrite <- E. unfold Z_of_digits.
    apply Z_of_digits_from_nonneg; [done|].
    apply Forall_app. split; by apply digits_of_nonneg. }
  destruct (break_dot s Hs) as [(H1 & H2 & H3) | (ip & fp & -> & H1 & H2 & H3 & H4)].
  - rewrite H2. simpl. rewrite opt_digitpart_digits by done. simpl.
    apply (Hval s ""); done.
  - rewrite H3. simpl. rewrite (opt_digitpart_digits ip) by done. simpl.
    destruct (opt_digitpart fp) as [fpd|] eqn:Hfp; simpl; [|done].
    pose proof (opt_digitpart_inv _ _ H2 Hfp) as Hfd.
    rewrite opt_digitpart_digits in Hfp by done. injection Hfp as <-.
    by apply Hval.
Qed.

Lemma upper_char_idem c : upper_char (upper_char c) = upper_char c.
Proof. destruct c as [[] [] [] [] [] [] [] []]; reflexivity. Qed.

Lemma upper_idem s : upper (upper s) = upper s.
Proof. induction s as [|c t IH]; simpl; [done|]. by rewrite upper_char_idem, IH. Qed.

Lemma parse_build symbol exchange custom b d m y k rest mo h mi strike ty :
  ticker_shape (upper symbol) b d m y k ty rest ->
  expiry_hour_minute exchange custom = Ok (h, mi) ->
  month_map !! m = Some mo ->
  1 <= num d <= days_in_month (2000 + num y) mo ->
  float_of_str k = Some strike ->
  parse_option_symbol symbol exchange custom
  = Ok (b, mk_datetime (2000 + num y) mo (num d) h mi 0 0, strike, ty).
Proof.
  intros Hsh Hhm Hmo Hd Hst. apply parse_option_symbol_Ok.
  exists d, m, y, k, rest, mo, h, mi.
  split; [exact Hsh|]. split; [exact Hhm|]. split; [exact Hmo|]. split; [|exact Hst].
  apply new_Ok.
  destruct Hsh as (_ & _ & _ & _ & _ & _ & _ & Hly & Hay & _).
  pose proof (two_digits_range y Hly Hay). pose proof (month_map_range _ _ Hmo).
  pose proof (expiry_hour_minute_range _ _ _ _ Hhm). repeat split; lia.
Qed.

Lemma append_inv_head (a b c : string) : a +:+ b = a +:+ c -> b = c.
Proof. induction a as [|x a IH]; simpl; [done|]. intros [= H]. auto. Qed.

(** X9: whatever [parse_option_symbol] returns has a non-empty base symbol
    of capital letters, the option type CE or PE, an expiry that is a real
    calendar date and time in the years 2000 to 2099 with no seconds, and
    a strike that is not negative.  The parser does not ask for more of
    the strike: 0 is returned as a strike. *)
Theorem parsed_symbol_invariants symbol exchange custom b e strike ty :
  parse_option_symbol symbol exchange custom = Ok (b, e, strike, ty) ->
  b <> "" /\ all_chars is_AZ b = true /\
  (ty = "CE" \/ ty = "PE") /\
  2000 <= year e <= 2099 /\ valid e = true /\ second e = 0 /\ microsecond e = 0 /\
  (0 <= strike)%Q.
Proof.
  intros Hp. pose proof (parse_valid _ _ _ _ _ _ _ Hp) as Hv.
  apply parse_option_symbol_Ok in Hp
    as (d & m & y & k & rest & mo & h & mi & Hsh & _ & _ & He & Hst).
  destruct Hsh as (_ & Hb & Hab & _ & _ & _ & _ & Hly & Hay & Hk & Hak & Hside).
  apply new_Ok in He as (_ & _ & _ & _ & _ & ->).
  pose proof (two_digits_range y Hly Hay).
  rewrite float_of_str_strike in Hst by done.
  apply unsigned_float_nonneg in Hst; [|done].
  simpl. repeat split; try done; lia.
Qed.

(** X9 on a ticker whose strike is 0. *)
Lemma parsed_symbol_invariants_strike_zero :
  parse_option_symbol "NIFTY28NOV240CE" "NFO" None
  = Ok ("NIFTY", mk_datetime 2024 11 28 15 30 0 0, 0%Q, "CE") /\
  valid (mk_datetime 2024 11 28 15 30 0 0) = true /\ (0 <= 0)%Q.
Proof.
  assert (parse_option_symbol "NIFTY28NOV240CE" "NFO" None
          = Ok ("NIFTY", mk_datetime 2024 11 28 15 30 0 0, 0%Q, "CE")) as Hp
    by (vm_compute; reflexivity).
  destruct (parsed_symbol_invariants _ _ _ _ _ _ _ Hp) as (_ & _ & _ & _ & Hv & _ & _ & Hs).
  split; [exact Hp|]. split; [exact Hv|exact Hs].
Defined.

(** X10: the case of the letters of a ticker does not matter: a ticker and
    its upper-cased form parse to the same result, or both fail. *)
Theorem parse_ignores_case symbol exchange custom r :
  parse_option_symbol (upper symbol) exchange custom = Ok r <->
  parse_option_symbol symbol exchange custom = Ok r.
Proof.
  destruct r as [[[b e] k] ty]. rewrite !parse_option_symbol_Ok. by rewrite upper_idem.
Qed.

(** X11: the exchange code only chooses the default expiry time.  A ticker
    that parses on one exchange parses on every other exchange, to the
    same base symbol, strike, option type and expiry date; and with a
    non-empty custom expiry time the result does not depend on the
    exchange at all. *)
Theorem exchange_sets_only_the_default_time symbol exchange exchange' custom b e strike ty :
  parse_option_symbol symbol exchange custom = Ok (b, e, strike, ty) ->
  (exists e',
     parse_option_symbol symbol exchange' custom = Ok (b, e', strike, ty) /\
     year e' = year e /\ month e' = month e /\ day e' = day e) /\
  (forall t, custom = Some t -> t <> "" ->
     parse_option_symbol symbol exchange' custom = Ok (b, e, strike, ty)).
Proof.
  intros Hp.
  apply parse_option_symbol_Ok in Hp
    as (d & m & y & k & rest & mo & h & mi & Hsh & Hhm & Hmo & He & Hst).
  apply new_Ok in He as (Hy & Hm & Hd & Hh & Hmi & ->).
  split.
  - destruct (expiry_hour_minute exchange' custom) as [[h' mi']|x] eqn:Hhm'.
    + eexists. split; [by eapply parse_build|]. done.
    + exfalso. unfold expiry_hour_minute in Hhm, Hhm'.
      destruct (nonempty custom); [congruence|done].
  - intros t -> Ht. eapply parse_build; try done.
    unfold expiry_hour_minute in Hhm |- *. by rewrite nonempty_Some in Hhm |- * by done.
Qed.

(** X11 on a commodity ticker with the expiry time 19:00, read as an NFO
    ticker. *)
Lemma exchange_sets_only_the_default_time_crudeoil :
  parse_option_symbol "CRUDEOIL19DEC246000CE" "NFO" (Some "19:00")
  = Ok ("CRUDEOIL", mk_datetime 2024 12 19 19 0 0 0, 6000%Q, "CE").
Proof.
  assert (parse_option_symbol "CRUDEOIL19DEC246000CE" "MCX" (Some "19:00")
          = Ok ("CRUDEOIL", mk_datetime 2024 12 19 19 0 0 0, 6000%Q, "CE")) as Hp
    by (vm_compute; reflexivity).
  destruct (exchange_sets_only_the_default_time _ _ "NFO" _ _ _ _ _ Hp) as [_ H].
  by apply (H "19:00").
Defined.

(** X12: the pattern leaves no choice.  If a text can be cut into base
    symbol, day, month, year, strike, option type and remaining text at
    all, the cut is unique and it is the one the pattern returns. *)
Theorem ticker_splits_one_way s b d m y k t rest b' d' m' y' k' t' rest' :
  ticker_shape s b d m y k t rest ->
  ticker_shape s b' d' m' y' k' t' rest' ->
  option_symbol_re s = Some (b, d, m, y, k, t) /\
  b = b' /\ d = d' /\ m = m' /\ y = y' /\ k = k' /\ t = t' /\ rest = rest'.
Proof.
  intros H1 H2.
  assert (option_symbol_re s = Some (b, d, m, y, k, t)) as E1
    by (apply option_symbol_re_spec; eauto).
  assert (option_symbol_re s = Some (b', d', m', y', k', t')) as E2
    by (apply option_symbol_re_spec; eauto).
  rewrite E1 in E2. injection E2 as <- <- <- <- <- <-.
  repeat split; try done.
  destruct H1 as (Hs1 & _), H2 as (Hs2 & _). rewrite Hs1 in Hs2.
  repeat apply append_inv_head in Hs2. done.
Qed.

(** X12 on a ticker followed by more text. *)
Lemma ticker_splits_one_way_sample :
  option_symbol_re "BANKNIFTY28NOV2452000PECE"
  = Some ("BANKNIFTY", "28", "NOV", "24", "52000", "PE").
Proof.
  assert (ticker_shape "BANKNIFTY28NOV2452000PECE" "BANKNIFTY" "28" "NOV" "24" "52000" "PE" "CE")
    as H by (unfold ticker_shape; repeat split; first [reflexivity | discriminate | by right]).
  exact (proj1 (ticker_splits_one_way _ _ _ _ _ _ _ _ _ _ _ _ _ _ _ H H)).
Defined.

(** ** Further properties of the orchestration *)

Lemma fetch_prices_parsed (gq : quotes_fn) so symbol exchange us ue expiry_time api_key
    b e strike ty :
  parse_option_symbol symbol exchange expiry_time = Ok (b, e, strike, ty) ->
  fetch_prices (Ok gq) so symbol exchange us ue expiry_time api_key =
  bind (gq 0%nat (default b (nonempty us))
          (default (get_underlying_exchange b exchange) (nonempty ue))
          (from_option PStr PNone api_key))
    (fun '(success, spot_response, status_code) =>
       if negb success then
         bind (get spot_response "message" (PStr "Unknown error")) (fun message =>
         Ok (inl (false,
                  error_dict ("Failed to fetch underlying price: " +:+ str so message),
                  status_code)))
       else
       bind (ltp_of spot_response) (fun spot_price =>
       if negb (truthy spot_price) then
         Ok (inl (false, error_dict "Underlying LTP not available", PInt 404))
       else
       bind (gq 1%nat symbol exchange (from_option PStr PNone api_key))
         (fun '(success, option_response, status_code) =>
            if negb success then
              bind (get option_response "message" (PStr "Unknown error")) (fun message =>
              Ok (inl (false,
                       error_dict ("Failed to fetch option price: " +:+ str so message),
                       status_code)))
            else
            bind (ltp_of option_response) (fun option_price =>
            if negb (truthy option_price) then
              Ok (inl (false, error_dict "Option LTP not available", PInt 404))
            else
            Ok (inr {| call_spot_price := spot_price;
                       call_option_price := option_price |}))))).
Proof.
  intros Hp. unfold fetch_prices. cbn [bind]. rewrite Hp. cbn [bind].
  destruct (gq 0%nat _ _ _) as [[[ok resp] code]|x]; cbn [bind]; [|done].
  destruct ok; cbn [negb]; [|done].
  unfold ltp_of. destruct (get resp "data" _) as [data|]; cbn [bind]; [|done].
  destruct (get data "ltp" _) as [sp|]; cbn [bind]; [|done].
  destruct (truthy sp); cbn [negb]; [|done].
  destruct (gq 1%nat _ _ _) as [[[ok' resp'] code']|x]; cbn [bind]; [|done].
  destruct ok'; cbn [negb]; [|done].
  destruct (get resp' "data" _) as [data'|]; cbn [bind]; [|done].
  by destruct (get data' "ltp" _).
Qed.

(** X13: a last traded price that is there but is 0 (or None, or an empty
    string) counts as not available: for the underlying the answer is
    "Underlying LTP not available", 404, and for the option, after a
    priced underlying, "Option LTP not available", 404.  Such a price
    never reaches the validation of [calculate_greeks]. *)
Theorem zero_price_is_not_available mib (gq : quotes_fn) so now symbol exchange interest_rate
    us ue expiry_time api_key b e strike ty :
  parse_option_symbol symbol exchange expiry_time = Ok (b, e, strike, ty) ->
  let spot_symbol := default b (nonempty us) in
  let spot_exchange := default (get_underlying_exchange b exchange) (nonempty ue) in
  let key := from_option PStr PNone api_key in
  let answer := get_option_greeks mib (Ok gq) so now symbol exchange interest_rate us ue
                  expiry_time api_key in
  (forall resp code v,
     gq 0%nat spot_symbol spot_exchange key = Ok (true, resp, code) ->
     ltp_of resp = Ok v -> truthy v = false ->
     answer = (false, error_dict "Underlying LTP not available", PInt 404)) /\
  (forall resp code v resp' code' v',
     gq 0%nat spot_symbol spot_exchange key = Ok (true, resp, code) ->
     ltp_of resp = Ok v -> truthy v = true ->
     gq 1%nat symbol exchange key = Ok (true, resp', code') ->
     ltp_of resp' = Ok v' -> truthy v' = false ->
     answer = (false, error_dict "Option LTP not available", PInt 404)).
Proof.
  intros Hp spot_symbol spot_exchange key answer. subst answer.
  unfold get_option_greeks. rewrite (fetch_prices_parsed _ _ _ _ _ _ _ _ _ _ _ _ Hp).
  fold spot_symbol spot_exchange key. split.
  - intros resp code v Hq Hl Hv. rewrite Hq. cbn [bind negb]. rewrite Hl. cbn [bind].
    by rewrite Hv.
  - intros resp code v resp' code' v' Hq Hl Hv Hq' Hl' Hv'.
    rewrite Hq. cbn [bind negb]. rewrite Hl. cbn [bind]. rewrite Hv. cbn [negb].
    rewrite Hq'. cbn [bind negb]. rewrite Hl'. cbn [bind]. by rewrite Hv'.
Qed.

(** X13 with a quote service that reports an LTP of 0. *)
Lemma zero_price_is_not_available_nifty :
  get_option_greeks (Some sample_mibian) (Ok quotes_zero_ltp) sample_str_other
    (mk_datetime 2024 11 20 10 0 0 0) "NIFTY28NOV2424000CE" "NFO" PNone None None None None
  = (false, error_dict "Underlying LTP not available", PInt 404).
Proof.
  assert (parse_option_symbol "NIFTY28NOV2424000CE" "NFO" None
          = Ok ("NIFTY", mk_datetime 2024 11 28 15 30 0 0, 24000%Q, "CE")) as Hp
    by (vm_compute; reflexivity).
  pose proof (zero_price_is_not_available (Some sample_mibian) quotes_zero_ltp
                sample_str_other (mk_datetime 2024 11 20 10 0 0 0) _ _ PNone None None _ None
                _ _ _ _ Hp) as H.
  cbv zeta in H. destruct H as [H _].
  apply (H (PDict [("status", PStr "success"); ("data", PDict [("ltp", PInt 0)])])
           (PInt 200) (PInt 0)); reflexivity.
Defined.

(** X14: when the quote service reports a failure, the answer carries its
    message after "Failed to fetch underlying price: " (or "option price",
    for the second call), "Unknown error" when there is no message, and
    the status code of the quote service unchanged; when the quote service
    raises, the answer is a 500 with the text of the exception. *)
Theorem fetch_failure_keeps_the_status mib (gq : quotes_fn) so now symbol exchange
    interest_rate us ue expiry_time api_key b e strike ty :
  parse_option_symbol symbol exchange expiry_time = Ok (b, e, strike, ty) ->
  let spot_symbol := default b (nonempty us) in
  let spot_exchange := default (get_underlying_exchange b exchange) (nonempty ue) in
  let key := from_option PStr PNone api_key in
  let answer := get_option_greeks mib (Ok gq) so now symbol exchange interest_rate us ue
                  expiry_time api_key in
  (forall d code,
     gq 0%nat spot_symbol spot_exchange key = Ok (false, PDict d, code) ->
     answer = (false,
               error_dict ("Failed to fetch underlying price: "
                           +:+ str so (default (PStr "Unknown error") (dict_lookup d "message"))),
               code)) /\
  (forall resp code v d code',
     gq 0%nat spot_symbol spot_exchange key = Ok (true, resp, code) ->
     ltp_of resp = Ok v -> truthy v = true ->
     gq 1%nat symbol exchange key = Ok (false, PDict d, code') ->
     answer = (false,
               error_dict ("Failed to fetch option price: "
                           +:+ str so (default (PStr "Unknown error") (dict_lookup d "message"))),
               code')) /\
  (forall x,
     gq 0%nat spot_symbol spot_exchange key = Raise x ->
     answer = (false, error_dict ("Failed to get option Greeks: " +:+ str_exn x), PInt 500)).
Proof.
  intros Hp spot_symbol spot_exchange key answer. subst answer.
  unfold get_option_greeks. rewrite (fetch_prices_parsed _ _ _ _ _ _ _ _ _ _ _ _ Hp).
  fold spot_symbol spot_exchange key. split; [|split].
  - intros d code Hq. rewrite Hq. done.
  - intros resp code v d code' Hq Hl Hv Hq'.
    rewrite Hq. cbn [bind negb]. rewrite Hl. cbn [bind]. rewrite Hv. cbn [negb].
    rewrite Hq'. done.
  - intros x Hq. rewrite Hq. done.
Qed.

(** X14 with a quote service that refuses the key with status 403. *)
Lemma fetch_failure_keeps_the_status_nifty :
  get_option_greeks (Some sample_mibian) (Ok quotes_refused) sample_str_other
    (mk_datetime 2024 11 20 10 0 0 0) "NIFTY28NOV2424000CE" "NFO" PNone None None None None
  = (false, error_dict "Failed to fetch underlying price: Invalid openalgo apikey", PInt 403).
Proof.
  assert (parse_option_symbol "NIFTY28NOV2424000CE" "NFO" None
          = Ok ("NIFTY", mk_datetime 2024 11 28 15 30 0 0, 24000%Q, "CE")) as Hp
    by (vm_compute; reflexivity).
  pose proof (fetch_failure_keeps_the_status (Some sample_mibian) quotes_refused
                sample_str_other (mk_datetime 2024 11 20 10 0 0 0) _ _ PNone None None _ None
                _ _ _ _ Hp) as H.
  cbv zeta in H. destruct H as [H _].
  apply (H [("status", PStr "error"); ("message", PStr "Invalid openalgo apikey")] (PInt 403)).
  reflexivity.
Defined.

(** X15: for a ticker that parses, the answer depends on the quote service
    through two requests only: the first for the underlying (the override
    or the parsed base symbol, on the override or the classified
    exchange), the second for the option on its own exchange, both with
    the caller's key.  Two quote services that agree on these two give the
    same answer. *)
Theorem only_two_quotes_are_requested mib (gq gq' : quotes_fn) so now symbol exchange
    interest_rate us ue expiry_time api_key b e strike ty :
  parse_option_symbol symbol exchange expiry_time = Ok (b, e, strike, ty) ->
  let spot_symbol := default b (nonempty us) in
  let spot_exchange := default (get_underlying_exchange b exchange) (nonempty ue) in
  let key := from_option PStr PNone api_key in
  gq 0%nat spot_symbol spot_exchange key = gq' 0%nat spot_symbol spot_exchange key ->
  gq 1%nat symbol exchange key = gq' 1%nat symbol exchange key ->
  get_option_greeks mib (Ok gq) so now symbol exchange interest_rate us ue expiry_time api_key
  = get_option_greeks mib (Ok gq') so now symbol exchange interest_rate us ue expiry_time
      api_key.
Proof.
  intros Hp spot_symbol spot_exchange key H0 H1.
  unfold get_option_greeks. rewrite !(fetch_prices_parsed _ _ _ _ _ _ _ _ _ _ _ _ Hp).
  fold spot_symbol spot_exchange key. by rewrite H0, H1.
Qed.

(** X15 with two quote services that differ from the third request on. *)
Lemma only_two_quotes_are_requested_nifty :
  quotes_priced 2%nat "NIFTY" "NSE_INDEX" PNone
  <> quotes_priced_twice 2%nat "NIFTY" "NSE_INDEX" PNone /\
  get_option_greeks (Some sample_mibian) (Ok quotes_priced) sample_str_other
    (mk_datetime 2024 11 20 10 0 0 0) "NIFTY28NOV2424000CE" "NFO" PNone None None None None
  = get_option_greeks (Some sample_mibian) (Ok quotes_priced_twice) sample_str_other
      (mk_datetime 2024 11 20 10 0 0 0) "NIFTY28NOV2424000CE" "NFO" PNone None None None None.
Proof.
  split; [discriminate|].
  assert (parse_option_symbol "NIFTY28NOV2424000CE" "NFO" None
          = Ok ("NIFTY", mk_datetime 2024 11 28 15 30 0 0, 24000%Q, "CE")) as Hp
    by (vm_compute; reflexivity).
  apply (only_two_quotes_are_requested (Some sample_mibian) quotes_priced quotes_priced_twice
           sample_str_other (mk_datetime 2024 11 20 10 0 0 0) _ _ PNone None None _ None
           _ _ _ _ Hp); reflexivity.
Defined.

(** ** Further properties of the quote adapter *)

Lemma unusable_request client json_loads self query filter_name :
  unusable client json_loads ->
  nonempty_list (_make_quotes_request client json_loads self query filter_name) = false.
Proof.
  intros H. unfold _make_quotes_request.
  match goal with
  | |- context [client ?u ?h] => specialize (H u h); destruct (client u h) as [r|x]
  end; cbn [bind]; [|done].
  destruct (Z.eqb_spec (status_code r) 200) as [E|E]; [|done].
  destruct H as [H|H]; [done|]. by destruct (json_loads (text r)).
Qed.

Lemma get_depth_no_data client json_loads get_token get_brexchange self symbol exchange :
  (forall query,
     nonempty_list (_make_quotes_request client json_loads self query "depth") = false) ->
  get_depth client json_loads get_token get_brexchange self symbol exchange = _get_default_depth.
Proof.
  intros H. unfold get_depth.
  destruct (build_query _ _ _ _) as [[query|]|]; cbn [bind]; [|done|done].
  by rewrite H.
Qed.

(** X16: every exchange that [get_underlying_exchange] returns is one of
    NSE_INDEX, BSE_INDEX, CDS, MCX and NSE, each of them has a Kotak
    segment in [_get_kotak_exchange], and the adapter's test for an index
    ('INDEX' in the upper-cased exchange) holds exactly for the two index
    exchanges. *)
Theorem underlying_exchange_has_a_segment base_symbol options_exchange :
  let x := get_underlying_exchange base_symbol options_exchange in
  (x = "NSE_INDEX" \/ x = "BSE_INDEX" \/ x = "CDS" \/ x = "MCX" \/ x = "NSE") /\
  (exists segment, _get_kotak_exchange x = Some segment) /\
  (contains "INDEX" (upper x) = true <-> x = "NSE_INDEX" \/ x = "BSE_INDEX").
Proof.
  intros x. subst x. unfold get_underlying_exchange.
  repeat case_match; (split; [tauto|]); (split; [by vm_compute; eauto|]);
    vm_compute; intuition congruence.
Qed.

(** X17: when the request never delivers a record (the client raises, the
    status is not 200, the body does not decode, or it decodes to anything
    but a list with an element), [get_quotes] returns the default quote
    and [get_depth] the default depth, for every symbol and exchange and
    whatever the database answers. *)
Theorem unusable_response_gives_defaults client json_loads get_token get_brexchange self
    symbol exchange :
  unusable client json_loads ->
  get_quotes client json_loads get_token get_brexchange self symbol exchange
  = _get_default_quote /\
  get_depth client json_loads get_token get_brexchange self symbol exchange
  = _get_default_depth.
Proof.
  intros H. split.
  - apply get_quotes_no_data. intros. by apply unusable_request.
  - apply get_depth_no_data. intros. by apply unusable_request.
Qed.

(** X17 with a client whose request raises. *)
Lemma unusable_response_gives_defaults_client_down :
  get_quotes client_down sample_json_loads sample_db sample_brexchange sample_broker
    "INFY" "NSE" = _get_default_quote /\
  get_depth client_down sample_json_loads sample_db sample_brexchange sample_broker
    "INFY" "NSE" = _get_default_depth.
Proof.
  apply (unusable_response_gives_defaults client_down sample_json_loads).
  intros url headers. exact I.
Defined.

(** X18: for an exchange that is no index exchange, when the database has
    no token or no broker exchange for the symbol (None or an empty
    string), or a lookup raises, both operations return their default
    record, whatever the client would answer. *)
Theorem lookup_miss_gives_defaults client json_loads (get_token get_brexchange : token_db)
    self symbol exchange :
  contains "INDEX" (upper exchange) = false ->
  match get_token symbol exchange, get_brexchange symbol exchange with
  | Ok psymbol, Ok brexchange => falsy psymbol || falsy brexchange = true
  | _, _ => True
  end ->
  get_quotes client json_loads get_token get_brexchange self symbol exchange
  = _get_default_quote /\
  get_depth client json_loads get_token get_brexchange self symbol exchange
  = _get_default_depth.
Proof.
  intros Hi H. unfold get_quotes, get_depth, build_query. rewrite Hi.
  destruct (get_token symbol exchange) as [p|x]; cbn [bind]; [|done].
  destruct (get_brexchange symbol exchange) as [br|x]; cbn [bind]; [|done].
  by rewrite H.
Qed.

(** X18 with a database that knows the broker exchange but not the token,
    and a client that would deliver a quote. *)
Lemma lookup_miss_gives_defaults_no_token :
  get_quotes (client_body "quote") sample_json_loads db_without_entry sample_brexchange
    sample_broker "INFY" "NSE" = _get_default_quote /\
  get_depth (client_body "three bids") sample_json_loads db_down sample_brexchange
    sample_broker "INFY" "NSE" = _get_default_depth.
Proof.
  split.
  - apply (lookup_miss_gives_defaults (client_body "quote") sample_json_loads
             db_without_entry sample_brexchange); reflexivity.
  - apply (lookup_miss_gives_defaults (client_body "three bids") sample_json_loads
             db_down sample_brexchange); [reflexivity|exact I].
Defined.

(** X19: for an exchange whose upper-cased name contains INDEX the query
    is the static segment of the exchange, a bar and the mapped index
    name, and the database is not consulted: both operations return the
    same with any two databases. *)
Theorem index_needs_no_token client json_loads (get_token get_brexchange get_token'
    get_brexchange' : token_db) self symbol exchange :
  contains "INDEX" (upper exchange) = true ->
  build_query get_token get_brexchange symbol exchange
  = Ok (Some (str_option (_get_kotak_exchange exchange) +:+ "|" +:+ _get_index_symbol symbol)) /\
  get_quotes client json_loads get_token get_brexchange self symbol exchange
  = get_quotes client json_loads get_token' get_brexchange' self symbol exchange /\
  get_depth client json_loads get_token get_brexchange self symbol exchange
  = get_depth client json_loads get_token' get_brexchange' self symbol exchange.
Proof.
  intros Hi. unfold get_quotes, get_depth, build_query. by rewrite Hi.
Qed.

(** X19 for the index NIFTY, written in small letters, with a database
    that raises. *)
Lemma index_needs_no_token_nifty :
  build_query db_down db_down "nifty" "NSE_INDEX" = Ok (Some "nse_cm|Nifty 50") /\
  get_quotes (client_body "negative ltp") sample_json_loads db_down db_down sample_broker
    "nifty" "NSE_INDEX"
  = get_quotes (client_body "negative ltp") sample_json_loads sample_db sample_brexchange
      sample_broker "nifty" "NSE_INDEX".
Proof.
  destruct (index_needs_no_token (client_body "negative ltp") sample_json_loads
              db_down db_down sample_db sample_brexchange sample_broker "nifty" "NSE_INDEX")
    as (Hq & Hg & _); [reflexivity|].
  split; [exact Hq|exact Hg].
Defined.


(** X21: a response whose first record has none of the fields read (ohlc,
    total_buy, total_sell, ltp, last_volume, open_int) gives a quote whose
    nine fields are all zero: it equals the default quote, the zeros
    being the floats 0.0 where the default quote has the integer 0. *)
Theorem record_without_fields_is_the_default (client : http_client) json_loads get_token
    get_brexchange self symbol exchange query d rest :
  build_query get_token get_brexchange symbol exchange = Ok (Some query) ->
  _make_quotes_request client json_loads self query "all" = PList (PDict d :: rest) ->
  (forall key,
     In key ["ohlc"; "total_buy"; "total_sell"; "ltp"; "last_volume"; "open_int"] ->
     dict_lookup d key = None) ->
  get_quotes client json_loads get_token get_brexchange self symbol exchange
  = _get_default_quote.
Proof.
  intros Hq Hr Hd. unfold get_quotes. rewrite Hq. cbn [bind]. rewrite Hr.
  cbn [nonempty_list truthy length Nat.ltb Nat.leb andb item0 bind get].
  unfold field. cbn [get bind].
  rewrite !Hd by (simpl; tauto). done.
Qed.

(** X21 with a record that carries a display symbol only. *)
Lemma record_without_fields_is_the_default_infy :
  get_quotes (client_body "record without fields") more_json_loads sample_db
    sample_brexchange sample_broker "INFY" "NSE" = _get_default_quote.
Proof.
  apply (record_without_fields_is_the_default (client_body "record without fields")
           more_json_loads sample_db sample_brexchange sample_broker "INFY" "NSE"
           "nse_cm|11536" [("display_symbol", PStr "INFY-EQ")] []);
    [reflexivity | reflexivity |].
  intros key Hk. simpl in Hk.
  destruct Hk as [<-|[<-|[<-|[<-|[<-|[<-|[]]]]]]]; reflexivity.
Defined.

(** ** Further properties of the market depth *)

Lemma get_depth_record (client : http_client) json_loads get_token get_brexchange self symbol
    exchange query quote rest depth_data :
  build_query get_token get_brexchange symbol exchange = Ok (Some query) ->
  _make_quotes_request client json_loads self query "depth" = PList (PDict quote :: rest) ->
  dict_lookup quote "depth" = Some (PDict depth_data) ->
  get_depth client json_loads get_token get_brexchange self symbol exchange =
  match
    bind (levels_of (default (PList []) (dict_lookup depth_data "buy"))) (fun bids_ =>
    bind (levels_of (default (PList []) (dict_lookup depth_data "sell"))) (fun asks_ =>
    Ok {| bids := pad5 bids_; asks := pad5 asks_;
          totalbuyqty := sum_quantity (pad5 bids_);
          totalsellqty := sum_quantity (pad5 asks_) |}))
  with
  | Ok d => d
  | Raise _ => _get_default_depth
  end.
Proof.
  intros Hq Hr Hd. unfold get_depth. rewrite Hq. cbn [bind]. rewrite Hr.
  cbn [nonempty_list truthy length Nat.ltb Nat.leb andb item0 bind get].
  rewrite Hd. cbn [from_option id bind get]. done.
Qed.

(** X22: a side of the depth that is there but is no list (an object, a
    string, a number) is skipped without an error: that side is five zero
    levels with total 0, and the other side is still its first five
    levels, padded. *)
Theorem depth_side_that_is_no_list (client : http_client) json_loads get_token get_brexchange
    self symbol exchange query quote rest depth_data buy sell ask_levels :
  build_query get_token get_brexchange symbol exchange = Ok (Some query) ->
  _make_quotes_request client json_loads self query "depth" = PList (PDict quote :: rest) ->
  dict_lookup quote "depth" = Some (PDict depth_data) ->
  dict_lookup depth_data "buy" = Some buy -> is_list buy = false ->
  dict_lookup depth_data "sell" = Some (PList sell) ->
  mapM level_of (firstn 5 sell) = Ok ask_levels ->
  let d := get_depth client json_loads get_token get_brexchange self symbol exchange in
  bids d = repeat zero_level 5 /\ totalbuyqty d = 0 /\ asks d = pad5 ask_levels.
Proof.
  intros Hq Hr Hd Hb Hl Hs Hm d. subst d.
  rewrite (get_depth_record _ _ _ _ _ _ _ _ _ _ _ Hq Hr Hd).
  rewrite Hb, Hs. cbn [from_option id levels_of].
  assert (levels_of buy = Ok []) as -> by (by destruct buy).
  cbn [bind]. rewrite Hm. done.
Qed.

(** X22 with bids sent as one object. *)
Lemma depth_side_that_is_no_list_infy :
  let d := get_depth (client_body "bids as an object") more_json_loads sample_db
             sample_brexchange sample_broker "INFY" "NSE" in
  bids d = repeat zero_level 5 /\ totalbuyqty d = 0 /\ totalsellqty d = 1.
Proof.
  eassert (H : _).
  { eapply (depth_side_that_is_no_list (client_body "bids as an object") more_json_loads
              sample_db sample_brexchange sample_broker "INFY" "NSE"); reflexivity. }
  cbv zeta in H. destruct H as (H1 & H2 & _).
  split; [exact H1|]. split; [exact H2|]. reflexivity.
Defined.

(** X23: one level among the first five of either side whose price or
    quantity does not convert voids the whole depth: the default depth is
    returned, the levels that did convert and the other side included. *)
Theorem bad_level_voids_the_depth (client : http_client) json_loads get_token get_brexchange
    self symbol exchange query quote rest depth_data :
  build_query get_token get_brexchange symbol exchange = Ok (Some query) ->
  _make_quotes_request client json_loads self query "depth" = PList (PDict quote :: rest) ->
  dict_lookup quote "depth" = Some (PDict depth_data) ->
  (exists buy, dict_lookup depth_data "buy" = Some (PList buy) /\
               is_Ok (mapM level_of (firstn 5 buy)) = false) \/
  (exists sell, dict_lookup depth_data "sell" = Some (PList sell) /\
                is_Ok (mapM level_of (firstn 5 sell)) = false) ->
  get_depth client json_loads get_token get_brexchange self symbol exchange
  = _get_default_depth.
Proof.
  intros Hq Hr Hd H.
  rewrite (get_depth_record _ _ _ _ _ _ _ _ _ _ _ Hq Hr Hd).
  destruct H as [(buy & Hb & Hm)|(sell & Hs & Hm)].
  - rewrite Hb. cbn [from_option id levels_of].
    destruct (mapM level_of (firstn 5 buy)); done.
  - rewrite Hs. cbn [from_option id levels_of].
    destruct (levels_of _); cbn [bind]; [|done].
    destruct (mapM level_of (firstn 5 sell)); done.
Qed.

(** X23 with one bid whose price is null, beside a good ask. *)
Lemma bad_level_voids_the_depth_infy :
  get_depth (client_body "bid without a price") more_json_loads sample_db sample_brexchange
    sample_broker "INFY" "NSE" = _get_default_depth.
Proof.
  eapply (bad_level_voids_the_depth (client_body "bid without a price") more_json_loads
            sample_db sample_brexchange sample_broker "INFY" "NSE");
    [reflexivity | reflexivity | reflexivity |].
  left. eexists. split; reflexivity.
Defined.

(** ** The constructor *)

Lemma prefix_cons a s1 b s2 :
  String.prefix (String a s1) (String b s2) = Ascii.eqb b a && String.prefix s1 s2.
Proof.
  cbn [String.prefix]. destruct (ascii_dec a b) as [->|N].
  - by rewrite Ascii.eqb_refl.
  - destruct (Ascii.eqb_spec b a); [congruence|done].
Qed.

Lemma prefix_colons c c2 c3 t :
  String.prefix ":::" (String c (String c2 (String c3 t)))
  = Ascii.eqb c ":" && Ascii.eqb c2 ":" && Ascii.eqb c3 ":".
Proof.
  rewrite !prefix_cons. assert (String.prefix "" t = true) as -> by (by destruct t).
  by rewrite andb_true_r, andb_assoc.
Qed.

Lemma token_field_tail c t : token_field (String c t) = true -> token_field t = true.
Proof.
  unfold token_field. rewrite !andb_true_iff, !negb_true_iff. intros [Hc He].
  cbn [contains] in Hc. apply orb_false_iff in Hc as [_ Hc]. split; [done|].
  destruct t; [done|]. exact He.
Qed.

Lemma token_field_head c t s :
  token_field (String c t) = true ->
  match t +:+ ":::" +:+ s with
  | String c2 (String c3 _) => Ascii.eqb c ":" && Ascii.eqb c2 ":" && Ascii.eqb c3 ":"
  | _ => false
  end = false.
Proof.
  unfold token_field. rewrite !andb_true_iff, !negb_true_iff. intros [Hc He].
  destruct t as [|c2 [|c3 t3]].
  - cbn [ends_with_colon] in He.
    change ("" +:+ ":::" +:+ s) with (String ":" (String ":" (String ":" s))).
    cbv beta iota. by rewrite He.
  - cbn [ends_with_colon] in He.
    change (String c2 "" +:+ ":::" +:+ s)
      with (String c2 (String ":" (String ":" (String ":" s)))).
    cbv beta iota. by rewrite He, andb_false_r.
  - change (String c2 (String c3 t3) +:+ ":::" +:+ s)
      with (String c2 (String c3 (t3 +:+ ":::" +:+ s))).
    cbv beta iota. cbn [contains] in Hc. apply orb_false_iff in Hc as [Hc _].
    by rewrite prefix_colons in Hc.
Qed.

Lemma split_colons_plain a : contains ":::" a = false -> split_colons a = [a].
Proof.
  induction a as [|c t IH]; [done|]. intros H.
  cbn [contains] in H. apply orb_false_iff in H as [Hp Ht].
  cbn [split_colons]. rewrite IH by done.
  destruct t as [|c2 [|c3 t3]]; [done|done|].
  rewrite prefix_colons in Hp. by rewrite Hp.
Qed.

Lemma split_colons_cons a s :
  token_field a = true -> split_colons (a +:+ ":::" +:+ s) = a :: split_colons s.
Proof.
  induction a as [|c t IH]; [done|]. intros H.
  pose proof (token_field_head c t s H) as Hh.
  change (String c t +:+ ":::" +:+ s) with (String c (t +:+ ":::" +:+ s)).
  cbn [split_colons]. rewrite IH by (by eapply token_field_tail).
  destruct (t +:+ ":::" +:+ s) as [|c2 [|c3 t3]]; [done|done|].
  by rewrite Hh.
Qed.

Lemma split_colons_concat l :
  l <> [] -> Forall (fun a => token_field a = true) l ->
  split_colons (String.concat ":::" l) = l.
Proof.
  induction l as [|a [|b r] IH]; [done| |]; intros _ H.
  - inversion H as [|? ? Ha _]; subst. apply split_colons_plain.
    unfold token_field in Ha. apply andb_true_iff in Ha as [Ha _].
    by apply negb_true_iff in Ha.
  - inversion H; subst.
    change (String.concat ":::" (a :: b :: r))
      with (a +:+ ":::" +:+ String.concat ":::" (b :: r)).
    rewrite split_colons_cons by done. f_equal. by apply IH.
Qed.

(** X24: the constructor reads back the fields of a token.  For fields
    that hold no ":::" and do not end with a colon, joined by ":::", it
    succeeds exactly when there are four of them, and then they are the
    session token, the session id, the base URL and the access token, in
    this order; the quotes server is the fixed one, not the base URL of
    the token.  Any other number of fields raises ValueError. *)
Theorem init_reads_the_four_fields l :
  l <> [] -> Forall (fun a => token_field a = true) l ->
  match BrokerData_init (String.concat ":::" l) with
  | Ok s =>
      l = [session_token s; session_sid s; base_url s; access_token (data s)] /\
      quotes_base_url (data s) = "https://cis.kotaksecurities.com"
  | Raise e => exn_cls e = ValueError /\ length l <> 4%nat
  end.
Proof.
  intros Hne Hl. unfold BrokerData_init. rewrite split_colons_concat by done.
  destruct l as [|a [|b [|c [|d [|x r]]]]]; simpl; done.
Qed.

(** X24 on a token of four fields and on one of three. *)
Lemma init_reads_the_four_fields_sample :
  (exists s,
     BrokerData_init "tok:::sid:::https://mis.kotaksecurities.com:::access" = Ok s /\
     base_url s = "https://mis.kotaksecurities.com" /\
     access_token (data s) = "access" /\
     quotes_base_url (data s) = "https://cis.kotaksecurities.com") /\
  is_Ok (BrokerData_init "tok:::sid:::access") = false.
Proof.
  split.
  - pose proof (init_reads_the_four_fields
                  ["tok"; "sid"; "https://mis.kotaksecurities.com"; "access"]) as H.
    change (String.concat ":::" ["tok"; "sid"; "https://mis.kotaksecurities.com"; "access"])
      with "tok:::sid:::https://mis.kotaksecurities.com:::access" in H.
    destruct (BrokerData_init "tok:::sid:::https://mis.kotaksecurities.com:::access")
      as [s|e].
    + destruct H as [Hl Hu]; [done | by repeat constructor |].
      injection Hl as _ _ Hb Ha. exists s. by repeat split.
    + destruct H as [_ Hn]; [done | by repeat constructor |]. by exfalso; apply Hn.
  - pose proof (init_reads_the_four_fields ["tok"; "sid"; "access"]) as H.
    change (String.concat ":::" ["tok"; "sid"; "access"]) with "tok:::sid:::access" in H.
    destruct (BrokerData_init "tok:::sid:::access") as [s|e]; [|reflexivity].
    destruct H as [Hl _]; [done | by repeat constructor |]. discriminate Hl.
Defined.
